(** * Reservation_Framer: the booking calendar component

    A shallow embedding of [src/Reservation_Framer.tsx]: the date helpers,
    the availability fetch and its normalisation, the calendar cells, the
    React state of the component with its event handlers, and the booking
    submission with its client / merchant cascade.

    Conventions.
    - A JavaScript string is a [string]; characters are single code units.
    - A JavaScript object used as a dictionary is a [gmap string _] for the
      keys stored in it; where the source looks a key up in a plain object,
      the properties every object inherits are found too.
    - A [Date] is a local time value: a day number since 1970-01-01 and the
      milliseconds elapsed in that day.  Time zones are not modelled, and
      calendar years are taken as they are (the constructor's remapping of
      the years 0..99 is outside the range the component works in).
    - An exception is [None], or the message of the error where the source
      reads it.
    - An asynchronous handler is split at its [await]s: what it does before
      the request leaves, and what it does when the outcome arrives.
    - What the runtime decides is a parameter, the class [Host]: the
      reading of a timestamp, the wording of an error, the syntax of an
      e-mail address. *)

From Stdlib Require Import ZArith Lia Ascii String List Sorted Permutation.
From stdpp Require Import base option list gmap strings fin_maps pretty sorting.

Local Open Scope string_scope.
Local Open Scope list_scope.
Local Open Scope Z_scope.

(** ** JavaScript strings *)

Module JsString.

(** White space removed by [String.prototype.trim], within one byte. *)
Definition isWhiteSpace (c : ascii) : bool :=
  let n := nat_of_ascii c in
  ((9 <=? n)%nat && (n <=? 13)%nat) || (n =? 32)%nat || (n =? 160)%nat.

Fixpoint trimStart (s : string) : string :=
  match s with
  | EmptyString => EmptyString
  | String c s' => if isWhiteSpace c then trimStart s' else s
  end.

Fixpoint trimEnd (s : string) : string :=
  match s with
  | EmptyString => EmptyString
  | String c s' =>
      match trimEnd s' with
      | EmptyString => if isWhiteSpace c then EmptyString else String c EmptyString
      | t => String c t
      end
  end.

Definition trim (s : string) : string := trimEnd (trimStart s).

(** Lower case of one code unit below 256: A..Z, and the accented capitals
    192..222 but for the multiplication sign. *)
Definition lowerChar (c : ascii) : ascii :=
  let n := nat_of_ascii c in
  if ((65 <=? n)%nat && (n <=? 90)%nat)
     || ((192 <=? n)%nat && (n <=? 222)%nat && negb (n =? 215)%nat)
  then ascii_of_nat (n + 32) else c.

Fixpoint toLowerCase (s : string) : string :=
  match s with
  | EmptyString => EmptyString
  | String c s' => String (lowerChar c) (toLowerCase s')
  end.

(** [s.split(sep)[0]]: the text before the first occurrence of [sep]. *)
Fixpoint splitHead (sep : ascii) (s : string) : string :=
  match s with
  | EmptyString => EmptyString
  | String c s' => if Ascii.eqb c sep then EmptyString else String c (splitHead sep s')
  end.

(** Truthiness of a string value: the empty string is falsy. *)
Definition truthy (s : string) : bool :=
  match s with EmptyString => false | _ => true end.

(** [String(n).padStart(2, "0")] *)
Definition padStart2 (s : string) : string :=
  match s with
  | String c EmptyString => String "0"%char s
  | EmptyString => "00"
  | _ => s
  end.

(** [a || b] on values that may be [undefined]. *)
Definition truthyOpt (o : option string) : bool :=
  match o with Some s => truthy s | None => false end.

Definition orElse (a b : option string) : option string :=
  if truthyOpt a then a else b.

End JsString.

(** ** Dates *)

Module JsDate.

(** Day number of a civil date, months counted from 1; the day may lie
    outside the month, as the constructor allows. *)
Definition days_from_civil (y m d : Z) : Z :=
  let y' := if m <=? 2 then y - 1 else y in
  let era := y' / 400 in
  let yoe := y' mod 400 in
  let mp := (m + 9) mod 12 in
  let doy := (153 * mp + 2) / 5 + d - 1 in
  let doe := yoe * 365 + yoe / 4 - yoe / 100 + doy in
  era * 146097 + doe - 719468.

Definition civil_from_days (z : Z) : Z * Z * Z :=
  let z' := z + 719468 in
  let era := z' / 146097 in
  let doe := z' mod 146097 in
  let yoe := (doe - doe / 1460 + doe / 36524 - doe / 146096) / 365 in
  let doy := doe - (365 * yoe + yoe / 4 - yoe / 100) in
  let mp := (5 * doy + 2) / 153 in
  let d := doy - (153 * mp + 2) / 5 + 1 in
  let m := if mp <? 10 then mp + 3 else mp - 9 in
  let y := yoe + era * 400 in
  (if m <=? 2 then y + 1 else y, m, d).

(** The abstract operation MakeDay: month index from 0, overflowing months
    and days carried over. *)
Definition MakeDay (year month date : Z) : Z :=
  days_from_civil (year + month / 12) (month mod 12 + 1) 1 + date - 1.

Record Date := mkDate { dayNumber : Z; msOfDay : Z }.

Definition getFullYear (d : Date) : Z := (civil_from_days (dayNumber d)).1.1.
Definition getMonth (d : Date) : Z := (civil_from_days (dayNumber d)).1.2 - 1.
Definition getDate (d : Date) : Z := (civil_from_days (dayNumber d)).2.
Definition getDay (d : Date) : Z := (dayNumber d + 4) mod 7.

(** [new Date(y, m, d)] and [new Date(y, m, d, h, mi, s)] *)
Definition newDate (y m d : Z) : Date := mkDate (MakeDay y m d) 0.
Definition newDateTime (y m d h mi s ms : Z) : Date :=
  mkDate (MakeDay y m d) (((h * 60 + mi) * 60 + s) * 1000 + ms).

Definition setDate (t : Date) (n : Z) : Date :=
  mkDate (MakeDay (getFullYear t) (getMonth t) n) (msOfDay t).

Definition setHours (t : Date) (h mi s ms : Z) : Date :=
  mkDate (dayNumber t) (((h * 60 + mi) * 60 + s) * 1000 + ms).

Definition getTime (t : Date) : Z := dayNumber t * 86400000 + msOfDay t.

(** [a < b] on dates compares the time values. *)
Definition ltb (a b : Date) : bool := getTime a <? getTime b.

End JsDate.

Import JsString JsDate.

(** ** The host: what the runtime decides

    - [new Date(text).getTime()]: the milliseconds of the instant, or NaN
      ([None]) when the text does not read as a date;
    - the message of the [TypeError] that the call of a missing method
      raises;
    - whether a text is a valid e-mail address for an [<input
      type="email">]. *)

Class Host := {
  parseTime : string -> option Z;
  notAFunction : string;
  validEmail : string -> bool
}.

(** A host to run examples: it reads [YYYY-MM-DDTHH:MM...] as universal
    time and nothing else, words the error as V8 does, and takes for an
    e-mail address a text with one [@] that has text on both sides. *)
Module UtcHost.

Definition isDigit (c : ascii) : bool :=
  (48 <=? nat_of_ascii c)%nat && (nat_of_ascii c <=? 57)%nat.

Definition digit (c : ascii) : Z := Z.of_nat (nat_of_ascii c) - 48.

Fixpoint number (n : nat) (acc : Z) (s : string) : option (Z * string) :=
  match n with
  | O => Some (acc, s)
  | S n' =>
      match s with
      | String c s' => if isDigit c then number n' (acc * 10 + digit c) s' else None
      | EmptyString => None
      end
  end.

Definition expect (c : ascii) (s : string) : option string :=
  match s with
  | String c' s' => if Ascii.eqb c c' then Some s' else None
  | EmptyString => None
  end.

Definition parse (s : string) : option Z :=
  '(y, s) ← number 4 0 s;
  s ← expect "-" s;
  '(m, s) ← number 2 0 s;
  s ← expect "-" s;
  '(d, s) ← number 2 0 s;
  s ← expect "T" s;
  '(h, s) ← number 2 0 s;
  s ← expect ":" s;
  '(mi, s) ← number 2 0 s;
  Some (getTime (newDateTime y (m - 1) d h mi 0 0)).

Fixpoint countAt (s : string) : nat :=
  match s with
  | String c s' => ((if Ascii.eqb c "@" then 1 else 0) + countAt s')%nat
  | EmptyString => 0%nat
  end.

Definition address (s : string) : bool :=
  (countAt s =? 1)%nat
  && negb (String.eqb (splitHead "@" s) "")
  && negb (String.eqb (splitHead "@" s +:+ "@") s).

Definition host : Host :=
  {| parseTime := parse;
     notAFunction := "slotsGroupedByDate[slotDate].push is not a function";
     validEmail := address |}.

End UtcHost.

(** ** Availability: the provider's answer and its normalisation *)

Module Availability.

(** One entry of [apiData.times[resourceId]]; an absent field is [None]. *)
Record RawSlot := mkRawSlot {
  raw_startTime : option string;
  raw_endTime : option string
}.

(** The value under a resource id: an array of slots, or something else. *)
Inductive ResourceSlots :=
| SlotArray (slots : list RawSlot)
| NotAnArray.

(** [apiData]: [times] absent, or its entries in [Object.entries] order. *)
Record ApiData := mkApiData {
  times : option (list (string * ResourceSlots))
}.

Record TimeSlot := mkTimeSlot {
  startTime : string;
  endTime : option string;
  resourceId : string
}.

#[global] Instance TimeSlot_eq_dec : EqDecision TimeSlot.
Proof. solve_decision. Defined.

(** [slot.startTime.split("T")[0]] *)
Definition slotDate (start : string) : string := splitHead "T"%char start.

(** [slotsGroupedByDate] is a plain object, [{}]: besides the keys stored
    in it, a lookup finds what every object inherits from
    [Object.prototype].  Each of these values is truthy and has no [push]. *)
Definition inheritedKeys : list string :=
  ["constructor"; "hasOwnProperty"; "isPrototypeOf"; "propertyIsEnumerable";
   "toLocaleString"; "toString"; "valueOf"; "__proto__";
   "__defineGetter__"; "__defineSetter__"; "__lookupGetter__"; "__lookupSetter__"].

Definition inherited (key : string) : bool :=
  existsb (String.eqb key) inheritedKeys.

(** A loop whose body may throw: [None] is the exception, which ends
    the loop and leaves it. *)
Fixpoint forEach {A S : Type} (body : S -> A -> option S) (l : list A) (s : S)
    : option S :=
  match l with
  | [] => Some s
  | a :: l' => s' ← body s a; forEach body l' s'
  end.

(** The body of [resourceSlots.forEach].  Under a date the object holds
    already, the slot is pushed; under a date it does not hold, the list is
    created first, unless the lookup finds an inherited value: then
    [!slotsGroupedByDate[slotDate]] is false, nothing is created, and the
    call of [push] throws a [TypeError]. *)
Definition pushSlot (rid : string) (grouped : gmap string (list TimeSlot))
    (slot : RawSlot) : option (gmap string (list TimeSlot)) :=
  match raw_startTime slot with
  | Some start =>
      if truthy start then
        let date := slotDate start in
        let timeSlot := mkTimeSlot start (raw_endTime slot) rid in
        match grouped !! date with
        | Some bucket => Some (<[date := bucket ++ [timeSlot]]> grouped)
        | None =>
            if inherited date then None
            else Some (<[date := [timeSlot]]> grouped)
        end
      else Some grouped
  | None => Some grouped
  end.

(** The body of [Object.entries(apiData.times).forEach]. *)
Definition pushResource (grouped : gmap string (list TimeSlot))
    (entry : string * ResourceSlots) : option (gmap string (list TimeSlot)) :=
  match entry.2 with
  | SlotArray slots => forEach (pushSlot entry.1) slots grouped
  | NotAnArray => Some grouped
  end.

Definition groupByDate (apiData : ApiData) : option (gmap string (list TimeSlot)) :=
  match times apiData with
  | Some entries => forEach pushResource entries ∅
  | None => Some ∅
  end.

Section Sorting.
Context `{Host}.

(** The comparator of the source: negative when [a] goes first.  With a
    start time that does not read as a date the difference is NaN, which
    [sort] takes as zero. *)
Definition compareSlots (a b : TimeSlot) : Z :=
  match parseTime (startTime a), parseTime (startTime b) with
  | Some ta, Some tb => ta - tb
  | _, _ => 0
  end.

(** [Array.prototype.sort] is stable: a slot goes before the first slot
    that compares greater.  When every start time reads as a date this is
    the order of every engine; when one does not, the comparator is not
    consistent, the order is the engine's own, and the one here is the one
    of an insertion from the end. *)
Fixpoint insertSlot (a : TimeSlot) (l : list TimeSlot) : list TimeSlot :=
  match l with
  | [] => [a]
  | b :: l' => if compareSlots a b <=? 0 then a :: l else b :: insertSlot a l'
  end.

Definition sortSlots (l : list TimeSlot) : list TimeSlot :=
  foldr insertSlot [] l.

(** What [setAvailableSlots] receives on a successful fetch, or [None]
    when the grouping throws. *)
Definition normalize (apiData : ApiData) : option (gmap string (list TimeSlot)) :=
  match groupByDate apiData with
  | Some grouped => Some (sortSlots <$> grouped)
  | None => None
  end.

End Sorting.

(** *** A description of the result, to compare the loops with

    The slots of the answer that have a start time, in the order the loops
    visit them. *)
Definition keptSlot (rid : string) (slot : RawSlot) : list TimeSlot :=
  match raw_startTime slot with
  | Some start => if truthy start then [mkTimeSlot start (raw_endTime slot) rid] else []
  | None => []
  end.

Definition resourceSlotList (entry : string * ResourceSlots) : list TimeSlot :=
  match entry.2 with
  | SlotArray slots => concat (map (keptSlot entry.1) slots)
  | NotAnArray => []
  end.

Definition returnedSlots (apiData : ApiData) : list TimeSlot :=
  match times apiData with
  | Some entries => concat (map resourceSlotList entries)
  | None => []
  end.

Definition onDate (date : string) (l : list TimeSlot) : list TimeSlot :=
  filter (fun s => slotDate (startTime s) = date) l.

(** What a date holds once the loops are over: its slots, in the order they
    were visited, and no entry at all when there are none. *)
Definition bucketOf (date : string) (visited : list TimeSlot) : option (list TimeSlot) :=
  match onDate date visited with
  | [] => None
  | l => Some l
  end.



(** Every date of the map holds a list that is not empty, of slots whose
    start time has that date as its date part. *)
Definition wellKeyed (slots : gmap string (list TimeSlot)) : Prop :=
  forall date l,
    slots !! date = Some l ->
    l <> [] /\ Forall (fun s => slotDate (startTime s) = date) l.

(** The date part of the slot names an inherited property; some slot of
    the answer is such a slot. *)
Definition inheritedDate (s : TimeSlot) : bool :=
  inherited (slotDate (startTime s)).

Definition poisoned (apiData : ApiData) : bool :=
  existsb inheritedDate (returnedSlots apiData).

End Availability.

Import Availability.

(** ** Configuration (the properties of the component) *)

Module Config.

Record FormField := mkFormField {
  show : bool;
  required : bool;
  label : string
}.

Record FormFields := mkFormFields {
  ff_firstName : FormField;
  ff_lastName : FormField;
  ff_email : FormField;
  ff_phone : FormField;
  ff_address : FormField;
  ff_city : FormField;
  ff_zipCode : FormField;
  ff_company : FormField;
  ff_comments : FormField
}.

(** [Object.entries(formFields)], in the order of the keys. *)
Definition formFieldEntries (ff : FormFields) : list (string * FormField) :=
  [("firstName", ff_firstName ff); ("lastName", ff_lastName ff);
   ("email", ff_email ff); ("phone", ff_phone ff);
   ("address", ff_address ff); ("city", ff_city ff);
   ("zipCode", ff_zipCode ff); ("company", ff_company ff);
   ("comments", ff_comments ff)].

Record Checkboxes := mkCheckboxes {
  terms : FormField;
  privacy : FormField;
  newsletter : FormField
}.

Record Service := mkService {
  enabled : bool;
  id : string;
  name : string;
  description : string;
  basePrice : Z;
  apaPrice : Z;
  duration : string
}.

Record ApiConfig := mkApiConfig {
  organizationId : string;
  apiKey : string;
  baseUrl : string;
  cfg_resourceId : string
}.

Record Features := mkFeatures {
  calendarView : string;
  showPrices : bool;
  showDescriptions : bool;
  showDuration : bool;
  debugMode : bool
}.

Record Urls := mkUrls {
  successUrl : string;
  cancelUrl : string;
  termsUrl : string;
  privacyUrl : string
}.

(** The [apiConfig] property as the parent passes it.  The availability
    effect lists the object among its dependencies, and React compares
    dependencies with [Object.is]: what counts is which object a render
    receives, not only what it holds.  [object] numbers the objects of the
    parent.  When the parent leaves the property out, the default of the
    parameter list is evaluated at every render and gives an object that no
    render has seen before. *)
Inductive ApiConfigProp :=
| LeftOut
| Passed (object : nat) (value : ApiConfig).

Definition defaultApiConfig : ApiConfig :=
  mkApiConfig "OrganizationID" "APIKey" "https://us.bookla.com" "RessourceID".

Record Props := mkProps {
  apiConfigProp : ApiConfigProp;
  title : string;
  urls : Urls;
  servicesCount : Z;
  service1 : Service;
  service2 : Service;
  service3 : Service;
  formFields : FormFields;
  checkboxes : Checkboxes;
  features : Features
}.

(** [apiConfig], as the body of the component reads it. *)
Definition apiConfig (p : Props) : ApiConfig :=
  match apiConfigProp p with
  | Passed _ value => value
  | LeftOut => defaultApiConfig
  end.

Definition allServices (p : Props) : list Service :=
  [service1 p; service2 p; service3 p].

(** [allServices.slice(0, servicesCount).filter(s => s && s.enabled)],
    for a count that is not negative. *)
Definition activeServices (p : Props) : list Service :=
  List.filter enabled (take (Z.to_nat (servicesCount p)) (allServices p)).

End Config.

Import Config.

(** ** The state of the component *)

Module Component.

Record CustomerInfo := mkCustomerInfo {
  ci_firstName : string;
  ci_lastName : string;
  ci_email : string;
  ci_phone : string;
  ci_address : string;
  ci_city : string;
  ci_zipCode : string;
  ci_company : string;
  ci_comments : string;
  termsAccepted : bool;
  privacyAccepted : bool;
  newsletterAccepted : bool
}.

(** The value [useState] starts from, and the one a successful booking
    puts back. *)
Definition emptyCustomerInfo : CustomerInfo :=
  mkCustomerInfo "" "" "" "" "" "" "" "" "" false false false.

Record BookingResult := mkBookingResult {
  bookingId : option string;
  status : option string;
  paymentUrl : option string;
  manualPayment : bool;
  apiUsed : string
}.

Record State := mkState {
  selectedServiceId : string;
  availableSlots : gmap string (list TimeSlot);
  loading : bool;
  error : option string;
  currentYear : Z;
  currentMonth : Z;
  currentWeekStart : Date;
  selectedDate : option string;
  selectedTimeSlot : option TimeSlot;
  showTimeSelection : bool;
  showBookingForm : bool;
  isBooking : bool;
  bookingSuccess : option BookingResult;
  customerInfo : CustomerInfo
}.

Definition setSelectedServiceId (v : string) (st : State) : State :=
  mkState v (availableSlots st) (loading st) (error st) (currentYear st) (currentMonth st) (currentWeekStart st) (selectedDate st) (selectedTimeSlot st) (showTimeSelection st) (showBookingForm st) (isBooking st) (bookingSuccess st) (customerInfo st).
Definition setAvailableSlots (v : gmap string (list TimeSlot)) (st : State) : State :=
  mkState (selectedServiceId st) v (loading st) (error st) (currentYear st) (currentMonth st) (currentWeekStart st) (selectedDate st) (selectedTimeSlot st) (showTimeSelection st) (showBookingForm st) (isBooking st) (bookingSuccess st) (customerInfo st).
Definition setLoading (v : bool) (st : State) : State :=
  mkState (selectedServiceId st) (availableSlots st) v (error st) (currentYear st) (currentMonth st) (currentWeekStart st) (selectedDate st) (selectedTimeSlot st) (showTimeSelection st) (showBookingForm st) (isBooking st) (bookingSuccess st) (customerInfo st).
Definition setError (v : option string) (st : State) : State :=
  mkState (selectedServiceId st) (availableSlots st) (loading st) v (currentYear st) (currentMonth st) (currentWeekStart st) (selectedDate st) (selectedTimeSlot st) (showTimeSelection st) (showBookingForm st) (isBooking st) (bookingSuccess st) (customerInfo st).
Definition setCurrentYear (v : Z) (st : State) : State :=
  mkState (selectedServiceId st) (availableSlots st) (loading st) (error st) v (currentMonth st) (currentWeekStart st) (selectedDate st) (selectedTimeSlot st) (showTimeSelection st) (showBookingForm st) (isBooking st) (bookingSuccess st) (customerInfo st).
Definition setCurrentMonth (v : Z) (st : State) : State :=
  mkState (selectedServiceId st) (availableSlots st) (loading st) (error st) (currentYear st) v (currentWeekStart st) (selectedDate st) (selectedTimeSlot st) (showTimeSelection st) (showBookingForm st) (isBooking st) (bookingSuccess st) (customerInfo st).
Definition setCurrentWeekStart (v : Date) (st : State) : State :=
  mkState (selectedServiceId st) (availableSlots st) (loading st) (error st) (currentYear st) (currentMonth st) v (selectedDate st) (selectedTimeSlot st) (showTimeSelection st) (showBookingForm st) (isBooking st) (bookingSuccess st) (customerInfo st).
Definition setSelectedDate (v : option string) (st : State) : State :=
  mkState (selectedServiceId st) (availableSlots st) (loading st) (error st) (currentYear st) (currentMonth st) (currentWeekStart st) v (selectedTimeSlot st) (showTimeSelection st) (showBookingForm st) (isBooking st) (bookingSuccess st) (customerInfo st).
Definition setSelectedTimeSlot (v : option TimeSlot) (st : State) : State :=
  mkState (selectedServiceId st) (availableSlots st) (loading st) (error st) (currentYear st) (currentMonth st) (currentWeekStart st) (selectedDate st) v (showTimeSelection st) (showBookingForm st) (isBooking st) (bookingSuccess st) (customerInfo st).
Definition setShowTimeSelection (v : bool) (st : State) : State :=
  mkState (selectedServiceId st) (availableSlots st) (loading st) (error st) (currentYear st) (currentMonth st) (currentWeekStart st) (selectedDate st) (selectedTimeSlot st) v (showBookingForm st) (isBooking st) (bookingSuccess st) (customerInfo st).
Definition setShowBookingForm (v : bool) (st : State) : State :=
  mkState (selectedServiceId st) (availableSlots st) (loading st) (error st) (currentYear st) (currentMonth st) (currentWeekStart st) (selectedDate st) (selectedTimeSlot st) (showTimeSelection st) v (isBooking st) (bookingSuccess st) (customerInfo st).
Definition setIsBooking (v : bool) (st : State) : State :=
  mkState (selectedServiceId st) (availableSlots st) (loading st) (error st) (currentYear st) (currentMonth st) (currentWeekStart st) (selectedDate st) (selectedTimeSlot st) (showTimeSelection st) (showBookingForm st) v (bookingSuccess st) (customerInfo st).
Definition setBookingSuccess (v : option BookingResult) (st : State) : State :=
  mkState (selectedServiceId st) (availableSlots st) (loading st) (error st) (currentYear st) (currentMonth st) (currentWeekStart st) (selectedDate st) (selectedTimeSlot st) (showTimeSelection st) (showBookingForm st) (isBooking st) v (customerInfo st).
Definition setCustomerInfo (v : CustomerInfo) (st : State) : State :=
  mkState (selectedServiceId st) (availableSlots st) (loading st) (error st) (currentYear st) (currentMonth st) (currentWeekStart st) (selectedDate st) (selectedTimeSlot st) (showTimeSelection st) (showBookingForm st) (isBooking st) (bookingSuccess st) v.

(** [today.getDate() - (todayDay === 0 ? 6 : todayDay - 1)], at midnight *)
Definition startOfWeek (today : Date) : Date :=
  let todayDay := getDay today in
  setHours (setDate today (getDate today - (if todayDay =? 0 then 6 else todayDay - 1)))
    0 0 0 0.

Definition firstServiceId (p : Props) : string :=
  match activeServices p with
  | s :: _ => id s
  | [] => ""
  end.

(** The state the hooks give on the first render. *)
Definition initialState (p : Props) (today : Date) : State :=
  mkState (firstServiceId p) ∅ true None
    (getFullYear today) (getMonth today) (startOfWeek today)
    None None false false false None emptyCustomerInfo.

End Component.

Import Component.

(** ** Date helpers and the calendar cells *)

Module Calendar.

Definition formatDateString (date : Date) : string :=
  let year := pretty (getFullYear date) in
  let month := padStart2 (pretty (getMonth date + 1)) in
  let day := padStart2 (pretty (getDate date)) in
  year +:+ "-" +:+ month +:+ "-" +:+ day.

(** [today] is the [new Date()] the helper reads. *)
Definition isDateInPast (today date : Date) : bool :=
  let todayDateOnly := newDate (getFullYear today) (getMonth today) (getDate today) in
  let checkDateOnly := newDate (getFullYear date) (getMonth date) (getDate date) in
  JsDate.ltb checkDateOnly todayDateOnly.

Definition isToday (today date : Date) : bool :=
  (getFullYear date =? getFullYear today)
  && (getMonth date =? getMonth today)
  && (getDate date =? getDate today).

(** What a day cell of the grid is built from; the styles are left out. *)
Record DayCell := mkDayCell {
  cellDate : Date;
  dateString : string;
  isDateAvailable : bool;
  isCurrentDay : bool;
  isPastDate : bool
}.

Inductive Cell :=
| EmptyCell (emptyDay : Z)
| Day (c : DayCell).

(** The loop body shared by the week and the month view.  The date string
    holds a hyphen, so the lookup in [availableSlots] finds no inherited
    property under it. *)
Definition dayCell (availableSlots : gmap string (list TimeSlot))
    (today currentDate : Date) : DayCell :=
  let dateString := formatDateString currentDate in
  let daySlots := default [] (availableSlots !! dateString) in
  let isDateAvailable := (0 <? length daySlots)%nat in
  mkDayCell currentDate dateString isDateAvailable
    (isToday today currentDate) (isDateInPast today currentDate).

Definition generateCalendarDays (p : Props) (today : Date) (st : State) : list Cell :=
  if String.eqb (calendarView (features p)) "week" then
    map (fun i =>
           Day (dayCell (availableSlots st) today
                  (setDate (currentWeekStart st) (getDate (currentWeekStart st) + i))))
        (seqZ 0 7)
  else
    let firstDayOfMonth := newDate (currentYear st) (currentMonth st) 1 in
    let lastDayOfMonth := newDate (currentYear st) (currentMonth st + 1) 0 in
    let totalDaysInMonth := getDate lastDayOfMonth in
    let startingWeekday := (getDay firstDayOfMonth + 6) mod 7 in
    map EmptyCell (seqZ 0 startingWeekday)
    ++ map (fun dayNumber =>
              Day (dayCell (availableSlots st) today
                     (newDate (currentYear st) (currentMonth st) dayNumber)))
           (seqZ 1 totalDaysInMonth).

(** *** Booking flow handlers *)

Definition handleDateSelection (dateString : string) (st : State) : State :=
  setShowTimeSelection true (setSelectedTimeSlot None (setSelectedDate (Some dateString) st)).

Definition handleTimeSlotSelection (timeSlot : TimeSlot) (st : State) : State :=
  setShowBookingForm true (setShowTimeSelection false (setSelectedTimeSlot (Some timeSlot) st)).

(** The date a click on the cell hands to [handleDateSelection], if any. *)
Definition clickSelects (c : DayCell) : option string :=
  if isDateAvailable c && negb (isPastDate c) then Some (dateString c) else None.

(** The [onClick] of a day cell. *)
Definition dayOnClick (c : DayCell) (st : State) : State :=
  match clickSelects c with
  | Some d => handleDateSelection d st
  | None => st
  end.

(** What the grid area shows. *)
Inductive GridView :=
| LoadingView
| ErrorView (message : string)
| CalendarView (cells : list Cell).

Definition renderGrid (p : Props) (today : Date) (st : State) : GridView :=
  if loading st then LoadingView
  else match error st with
       | Some e => if truthy e then ErrorView e
                   else CalendarView (generateCalendarDays p today st)
       | None => CalendarView (generateCalendarDays p today st)
       end.

End Calendar.

Import Calendar.

(** ** Outcomes of a request *)

Module Http.

(** A response: [ok], [status], what [text()] gives, and what [json()]
    gives: the parsed body, or the message of the error it throws. *)
Record Response (J : Type) := mkResponse {
  ok : bool;
  httpStatus : Z;
  text : string;
  json : string + J
}.
Arguments mkResponse {J}.
Arguments ok {J}.
Arguments httpStatus {J}.
Arguments text {J}.
Arguments json {J}.

(** [fetch] rejects (a network error), or resolves to a response. *)
Inductive Outcome (J : Type) :=
| Rejected (message : string)
| Resolved (r : Response J).
Arguments Rejected {J}.
Arguments Resolved {J}.

End Http.

Import Http.

(** ** The availability effect *)

Module Fetch.

(** The request to the times endpoint: the address, the key header, and
    the body; the two dates stand for their ISO texts. *)
Record AvailabilityRequest := mkAvailabilityRequest {
  apiUrl : string;
  apiKeyHeader : string;
  fromDate : Date;
  toDate : Date;
  spots : Z
}.

Definition dateRange (p : Props) (st : State) : Date * Date :=
  if String.eqb (calendarView (features p)) "week" then
    let startDate := currentWeekStart st in
    let endDate := setHours (setDate (currentWeekStart st) (getDate startDate + 6))
                     23 59 59 999 in
    (startDate, endDate)
  else
    (newDate (currentYear st) (currentMonth st) 1,
     newDateTime (currentYear st) (currentMonth st + 1) 0 23 59 59 0).

Definition availabilityRequest (p : Props) (st : State) : AvailabilityRequest :=
  let range := dateRange p st in
  mkAvailabilityRequest
    (baseUrl (apiConfig p) +:+ "/api/v1/companies/" +:+ organizationId (apiConfig p)
       +:+ "/services/" +:+ selectedServiceId st +:+ "/times")
    (apiKey (apiConfig p)) range.1 range.2 1.

(** The effect up to its [await fetch]: nothing when no service is
    selected or none is active, else the loading flag goes up, the error
    is dropped and the request leaves. *)
Definition fetchAvailabilityStart (p : Props) (st : State)
    : State * option AvailabilityRequest :=
  if negb (truthy (selectedServiceId st)) || (length (activeServices p) =? 0)%nat then
    (st, None)
  else
    (setError None (setLoading true st), Some (availabilityRequest p st)).

(** [err.message || "Unable to load availability"] *)
Definition errorMessage (message : string) : string :=
  if truthy message then message else "Unable to load availability".

(** The effect from the outcome of the request on: [try] body, [catch]
    and [finally]. *)
Definition fetchAvailabilityDone `{Host} (outcome : Outcome ApiData) (st : State) : State :=
  setLoading false
    match outcome with
    | Rejected message => setError (Some (errorMessage message)) st
    | Resolved response =>
        if ok response then
          match json response with
          | inr apiData =>
              match normalize apiData with
              | Some slotsGroupedByDate => setAvailableSlots slotsGroupedByDate st
              | None => setError (Some (errorMessage notAFunction)) st
              end
          | inl message => setError (Some (errorMessage message)) st
          end
        else
          setError
            (Some (errorMessage
                     ("Bookla API Error: " +:+ pretty (httpStatus response)
                        +:+ " - " +:+ text response)))
            st
    end.

(** *** The component with its requests in flight *)

Record System := mkSystem {
  props : Props;
  ui : State;
  inFlight : list AvailabilityRequest
}.

Inductive Event :=
| SelectService (serviceId : string)
| NextMonth
| PreviousMonth
| Configure (p : Props)
| FetchResolves (n : nat) (outcome : Outcome ApiData).

Definition navigateToPreviousMonth (st : State) : State :=
  if currentMonth st =? 0 then setCurrentMonth 11 (setCurrentYear (currentYear st - 1) st)
  else setCurrentMonth (currentMonth st - 1) st.

Definition navigateToNextMonth (st : State) : State :=
  if currentMonth st =? 11 then setCurrentMonth 0 (setCurrentYear (currentYear st + 1) st)
  else setCurrentMonth (currentMonth st + 1) st.

(** The effect runs again after a render in which one of its
    dependencies changed. *)
Definition runEffect (p : Props) (st : State) (flying : list AvailabilityRequest) : System :=
  let '(st', request) := fetchAvailabilityStart p st in
  mkSystem p st' (flying ++ option_list request).

(** The effect that selects the first active service when none is
    selected. *)
Definition autoSelect (p : Props) (st : State) : State :=
  match activeServices p with
  | s :: _ => if truthy (selectedServiceId st) then st else setSelectedServiceId (id s) st
  | [] => st
  end.

(** Whether two renders received the same [apiConfig] object. *)
Definition sameObject (a b : ApiConfigProp) : bool :=
  match a, b with
  | Passed n _, Passed n' _ => (n =? n')%nat
  | _, _ => false
  end.

(** The dependencies of the availability effect that come from the
    properties, compared as React does, between the render before ([p]) and
    this one ([p']): [apiConfig] by identity, [features.calendarView] and
    [activeServices.length] by value, and [debugLog], a callback that is
    made anew when [features.debugMode] changes. *)
Definition effectDepsChanged (p p' : Props) : bool :=
  negb (sameObject (apiConfigProp p) (apiConfigProp p'))
  || negb (String.eqb (calendarView (features p)) (calendarView (features p')))
  || negb (length (activeServices p) =? length (activeServices p'))%nat
  || negb (Bool.eqb (debugMode (features p)) (debugMode (features p'))).

(** One event: the user picks a service or turns the month, React renders
    the component again, or a request in flight resolves.  The service
    selector and the navigation buttons are disabled while [loading] is
    set.

    A pick or a turn changes a dependency of the effect, so the render that
    follows it runs the effect: both are in the step of the event.
    [Configure p] is any other render, with the properties [p] it receives:
    the parent renders and passes properties, the same or others, or a
    change of state that is no dependency of the effect (the loading flag,
    the map, the booking flag, the form) makes React render the component
    with the properties it has, [Configure (props sys)].  How many renders
    follow a change of state is React's choice (it may batch them); each is
    an event of the trace.  Such a render runs the effect when [apiConfig]
    is another object, which it always is when the property is left out:
    then every render of a component with a service selected sends a
    request. *)
Definition step `{Host} (sys : System) (e : Event) : System :=
  match e with
  | SelectService serviceId =>
      if loading (ui sys) || String.eqb serviceId (selectedServiceId (ui sys)) then sys
      else runEffect (props sys) (setSelectedServiceId serviceId (ui sys)) (inFlight sys)
  | NextMonth =>
      if loading (ui sys) then sys
      else runEffect (props sys) (navigateToNextMonth (ui sys)) (inFlight sys)
  | PreviousMonth =>
      if loading (ui sys) then sys
      else runEffect (props sys) (navigateToPreviousMonth (ui sys)) (inFlight sys)
  | Configure p =>
      let st := autoSelect p (ui sys) in
      if effectDepsChanged (props sys) p
         || negb (String.eqb (selectedServiceId st) (selectedServiceId (ui sys)))
      then runEffect p st (inFlight sys)
      else mkSystem p st (inFlight sys)
  | FetchResolves n outcome =>
      match inFlight sys !! n with
      | Some _ =>
          mkSystem (props sys) (fetchAvailabilityDone outcome (ui sys))
            (delete n (inFlight sys))
      | None => sys
      end
  end.

Definition isResolution (e : Event) : bool :=
  match e with FetchResolves _ _ => true | _ => false end.

Definition run `{Host} (sys : System) (events : list Event) : System :=
  fold_left step events sys.

(** The first render and the first run of the effect. *)
Definition mount (p : Props) (today : Date) : System :=
  runEffect p (initialState p today) [].

(** The map of the event, when it is a request in flight that resolves
    with a success whose body reads and whose grouping goes through. *)
Definition committed `{Host} (sys : System) (e : Event)
    : option (gmap string (list TimeSlot)) :=
  match e with
  | FetchResolves n (Resolved response) =>
      match inFlight sys !! n, ok response, json response with
      | Some _, true, inr apiData => normalize apiData
      | _, _, _ => None
      end
  | _ => None
  end.

(** The map of the last such event of a trace, if there is one. *)
Fixpoint lastCommitted `{Host} (sys : System) (events : list Event)
    : option (gmap string (list TimeSlot)) :=
  match events with
  | [] => None
  | e :: events' =>
      match lastCommitted (step sys e) events' with
      | Some slots => Some slots
      | None => committed sys e
      end
  end.

End Fetch.

Import Fetch.

(** ** The booking submission *)

Module Booking.

(** The [client] block of both payloads; an optional key that is not
    spread in is [None]. *)
Record ClientBlock := mkClientBlock {
  cl_email : string;
  cl_firstName : string;
  cl_lastName : string;
  cl_phone : string;
  cl_address : option string;
  cl_city : option string;
  cl_zipCode : option string;
  cl_company : option string
}.

Record MetaData := mkMetaData {
  source : string;
  booking_policy : option string;
  payment_method : string;
  total_amount : string;
  service_name : string;
  service_description : option string;
  service_duration : option string;
  md_comments : option string;
  newsletter_opt_in : bool;
  privacy_accepted : bool;
  created_at : string;
  success_url : option string;
  cancel_url : option string;
  terms_url : option string;
  privacy_url : option string
}.

Record ClientPayload := mkClientPayload {
  cp_client : ClientBlock;
  cp_companyID : string;
  cp_serviceID : string;
  cp_resourceID : string;
  cp_startTime : string;
  cp_spots : Z;
  customPurchaseDescription : string;
  metaData : MetaData
}.

Record MerchantPayload := mkMerchantPayload {
  mp_companyID : string;
  mp_serviceID : string;
  mp_resourceID : string;
  mp_startTime : string;
  mp_endTime : option string;
  mp_spots : Z;
  mp_client : ClientBlock;
  mp_status : string;
  requirePayment : bool;
  mp_termsAccepted : bool;
  metadata : MetaData
}.

(** [show && value && { key: value.trim() }], spread into the block *)
Definition optionalField (field : FormField) (value : string) : option string :=
  if show field && truthy value then Some (trim value) else None.

Definition clientBlock (p : Props) (info : CustomerInfo) : ClientBlock :=
  mkClientBlock
    (toLowerCase (trim (ci_email info)))
    (trim (ci_firstName info))
    (trim (ci_lastName info))
    (trim (ci_phone info))
    (optionalField (ff_address (formFields p)) (ci_address info))
    (optionalField (ff_city (formFields p)) (ci_city info))
    (optionalField (ff_zipCode (formFields p)) (ci_zipCode info))
    (optionalField (ff_company (formFields p)) (ci_company info)).

(** [features.showPrices ? (basePrice + apaPrice).toString() : "0"] *)
Definition totalAmount (p : Props) (service : Service) : string :=
  if showPrices (features p) then pretty (basePrice service + apaPrice service) else "0".

Definition commentsOf (p : Props) (info : CustomerInfo) : option string :=
  if show (ff_comments (formFields p)) && truthy (ci_comments info)
  then Some (trim (ci_comments info)) else None.

(** [slot.resourceId || apiConfig.resourceId] *)
Definition resourceOf (p : Props) (slot : TimeSlot) : string :=
  if truthy (resourceId slot) then resourceId slot else cfg_resourceId (apiConfig p).

Definition clientPayload (p : Props) (st : State) (service : Service)
    (slot : TimeSlot) (now : string) : ClientPayload :=
  let info := customerInfo st in
  mkClientPayload
    (clientBlock p info)
    (organizationId (apiConfig p))
    (selectedServiceId st)
    (resourceOf p slot)
    (startTime slot)
    1
    ("Booking " +:+ name service +:+ " - " +:+ title p)
    (mkMetaData
       "framer_component_client_priority"
       (Some "prepayment")
       "bookla_integrated"
       (totalAmount p service)
       (name service)
       (if showDescriptions (features p) then Some (description service) else None)
       (if showDuration (features p) then Some (duration service) else None)
       (commentsOf p info)
       (if show (newsletter (checkboxes p)) then newsletterAccepted info else false)
       (if show (privacy (checkboxes p)) then privacyAccepted info else true)
       now
       (Some (successUrl (urls p)))
       (Some (cancelUrl (urls p)))
       (Some (termsUrl (urls p)))
       (Some (privacyUrl (urls p)))).

Definition merchantPayload (p : Props) (st : State) (service : Service)
    (slot : TimeSlot) (now : string) : MerchantPayload :=
  let info := customerInfo st in
  mkMerchantPayload
    (organizationId (apiConfig p))
    (selectedServiceId st)
    (resourceOf p slot)
    (startTime slot)
    (endTime slot)
    1
    (clientBlock p info)
    "pending"
    true
    (termsAccepted info)
    (mkMetaData
       "framer_component_merchant_fallback"
       None
       "bookla_integrated"
       (totalAmount p service)
       (name service)
       (if showDescriptions (features p) then Some (description service) else None)
       (if showDuration (features p) then Some (duration service) else None)
       (commentsOf p info)
       (if show (newsletter (checkboxes p)) then newsletterAccepted info else false)
       (if show (privacy (checkboxes p)) then privacyAccepted info else true)
       now
       None None None None).

(** The body of a booking answer, as far as the handler reads it. *)
Record BookingInner := mkBookingInner {
  inner_id : option string;
  inner_status : option string
}.

Record BookingData := mkBookingData {
  bd_id : option string;
  bd_bookingId : option string;
  bd_booking : option BookingInner;
  bd_status : option string;
  bd_paymentURL : option string;
  bd_dataPaymentURL : option (option string)
}.

(** [bookingData.id || bookingData.bookingId || bookingData.booking?.id] *)
Definition extractBookingId (d : BookingData) : option string :=
  orElse (orElse (bd_id d) (bd_bookingId d)) (bd_booking d ≫= inner_id).

Definition extractStatus (d : BookingData) : option string :=
  orElse (orElse (bd_status d) (bd_booking d ≫= inner_status)) (Some "pending").

Definition extractPaymentUrl (d : BookingData) : option string :=
  orElse (bd_paymentURL d) (mjoin (bd_dataPaymentURL d)).

Inductive BookingRequest :=
| PostClient (payload : ClientPayload)
| PostMerchant (payload : MerchantPayload).

(** What the handler does to the outside, in order. *)
Inductive Effect :=
| Alert (message : string)
| Request (r : BookingRequest)
| OpenAfter (url : string) (delay : Z).

(** [customerInfo[fieldName]] *)
Inductive FieldValue :=
| Text (s : string)
| Undefined.

Definition customerValue (fieldName : string) (info : CustomerInfo) : FieldValue :=
  if String.eqb fieldName "firstName" then Text (ci_firstName info)
  else if String.eqb fieldName "lastName" then Text (ci_lastName info)
  else if String.eqb fieldName "email" then Text (ci_email info)
  else if String.eqb fieldName "phone" then Text (ci_phone info)
  else if String.eqb fieldName "address" then Text (ci_address info)
  else if String.eqb fieldName "city" then Text (ci_city info)
  else if String.eqb fieldName "zipCode" then Text (ci_zipCode info)
  else if String.eqb fieldName "company" then Text (ci_company info)
  else if String.eqb fieldName "comments" then Text (ci_comments info)
  else Undefined.

(** [typeof value === "string" && !value.trim()] *)
Definition isBlank (v : FieldValue) : bool :=
  match v with
  | Text s => negb (truthy (trim s))
  | Undefined => false
  end.

Definition requiredFields (p : Props) : list (string * FormField) :=
  List.filter (fun entry => show entry.2 && required entry.2)
    (formFieldEntries (formFields p)).

(** The checks on the configuration at the top of [handleBookingSubmit]:
    the message of the first alert, or [None] when they all pass. *)
Definition validationAlert (p : Props) (st : State) : option string :=
  let info := customerInfo st in
  if show (terms (checkboxes p)) && required (terms (checkboxes p))
     && negb (termsAccepted info)
  then Some "You must accept the terms and conditions"
  else if show (privacy (checkboxes p)) && required (privacy (checkboxes p))
          && negb (privacyAccepted info)
  then Some "You must accept the privacy policy"
  else
    match List.find (fun entry => isBlank (customerValue entry.1 info)) (requiredFields p) with
    | Some entry => Some (label entry.2 +:+ " is required")
    | None => None
    end.

(** The network as the handler meets it: the outcome of each request. *)
Definition Network := BookingRequest -> Outcome BookingData.

(** [catch (error) { alert(`Error: ${error.message}`) } finally { setIsBooking(false) }] *)
Definition failWith (message : string) (sent : list Effect) (st : State)
    : State * list Effect :=
  (setIsBooking false st, sent ++ [Alert ("Error: " +:+ message)]).

(** From [if (!bookingResponse.ok)] after the cascade to the end. *)
Definition conclude (apiUsed : string) (response : Response BookingData)
    (sent : list Effect) (st : State) : State * list Effect :=
  if negb (ok response) then
    failWith ("Booking error: " +:+ pretty (httpStatus response) +:+ " - " +:+ text response)
      sent st
  else
    match json response with
    | inl message => failWith message sent st
    | inr bookingData =>
        let paymentUrl := extractPaymentUrl bookingData in
        let result :=
          mkBookingResult (extractBookingId bookingData) (extractStatus bookingData)
            paymentUrl (negb (truthyOpt paymentUrl)) apiUsed in
        let redirect :=
          match paymentUrl with
          | Some url => if truthy url then [OpenAfter url 3000] else []
          | None => []
          end in
        (setIsBooking false
           (setCustomerInfo emptyCustomerInfo
              (setSelectedTimeSlot None
                 (setSelectedDate None
                    (setShowTimeSelection false
                       (setShowBookingForm false
                          (setBookingSuccess (Some result) st)))))),
         sent ++ redirect)
    end.

(** [activeServices.find((s) => s.id === selectedServiceId)] *)
Definition findService (p : Props) (st : State) : option Service :=
  List.find (fun s => String.eqb (id s) (selectedServiceId st)) (activeServices p).

(** [now1] and [now2] are the [new Date().toISOString()] of the two
    payloads. *)
Definition handleBookingSubmit (p : Props) (now1 now2 : string) (net : Network)
    (st : State) : State * list Effect :=
  match validationAlert p st, selectedTimeSlot st with
  | Some message, _ => (st, [Alert message])
  | None, None => (st, [Alert "No time slot selected"])
  | None, Some slot =>
      (* setIsBooking(true); the [finally] puts it back *)
      match findService p st with
      | None => failWith "Service not found" [] st
      | Some service =>
          let first := PostClient (clientPayload p st service slot now1) in
          match net first with
          | Rejected message => failWith message [Request first] st
          | Resolved bookingResponse =>
              if negb (ok bookingResponse) then
                let second := PostMerchant (merchantPayload p st service slot now2) in
                match net second with
                | Rejected message => failWith message [Request first; Request second] st
                | Resolved bookingResponse' =>
                    conclude "Merchant API (fallback)" bookingResponse'
                      [Request first; Request second] st
                end
              else conclude "Client API" bookingResponse [Request first] st
          end
      end
  end.

(** The draft of the booking in progress. *)
Definition draft (st : State)
    : string * option string * option TimeSlot * CustomerInfo :=
  (selectedServiceId st, selectedDate st, selectedTimeSlot st, customerInfo st).

(** The requests among the effects. *)
Definition requestsOf (effects : list Effect) : list BookingRequest :=
  omap (fun e => match e with Request r => Some r | _ => None end) effects.

Definition isPrimary (r : BookingRequest) : bool :=
  match r with PostClient _ => true | PostMerchant _ => false end.

End Booking.

Import Booking.

(** ** Concrete configurations and answers, to run the model *)

Module Demo.

Definition field (shown needed : bool) (text : string) : FormField :=
  mkFormField shown needed text.

(** The default values of the properties, [apiConfig] being an object the
    parent passes. *)
Definition defaultFormFields : FormFields :=
  mkFormFields
    (field true true "Prenom") (field true true "Nom")
    (field true true "Email") (field true true "Telephone")
    (field false false "Adresse") (field false false "Ville")
    (field false false "Code postal") (field false false "Entreprise")
    (field false false "Commentaires").

Definition defaultCheckboxes : Checkboxes :=
  mkCheckboxes
    (field true true "J'accepte les conditions generales")
    (field false false "J'accepte la politique de confidentialite")
    (field false false "Je souhaite recevoir la newsletter").

Definition defaultProps : Props :=
  mkProps
    (Passed 0 (mkApiConfig "OrganizationID" "APIKey" "https://us.bookla.com" "RessourceID"))
    "Reservation de Bateau"
    (mkUrls "https://loupinedou-yacht.fr/confirmation-page"
       "https://loupinedou-yacht.fr/error-page"
       "https://loupinedou-yacht.fr/conditions"
       "https://loupinedou-yacht.fr/privacy")
    3
    (mkService true "Service 1" "Service Journee" "Une journee complete de navigation"
       300 100 "8 heures")
    (mkService true "Service 2" "Service Sunset" "Navigation au coucher du soleil"
       200 50 "4 heures")
    (mkService true "Service 3" "Service Mix" "Formule personnalisee" 350 120 "Sur mesure")
    defaultFormFields defaultCheckboxes
    (mkFeatures "month" true true true false).

Definition withView (view : string) (p : Props) : Props :=
  mkProps (apiConfigProp p) (title p) (urls p) (servicesCount p)
    (service1 p) (service2 p) (service3 p) (formFields p) (checkboxes p)
    (mkFeatures view (showPrices (features p)) (showDescriptions (features p))
       (showDuration (features p)) (debugMode (features p))).

Definition withFormFields (ff : FormFields) (p : Props) : Props :=
  mkProps (apiConfigProp p) (title p) (urls p) (servicesCount p)
    (service1 p) (service2 p) (service3 p) ff (checkboxes p) (features p).

Definition withCheckboxes (cb : Checkboxes) (p : Props) : Props :=
  mkProps (apiConfigProp p) (title p) (urls p) (servicesCount p)
    (service1 p) (service2 p) (service3 p) (formFields p) cb (features p).

(** Wednesday 2025-06-11, at noon. *)
Definition today : Date := newDateTime 2025 5 11 12 0 0 0.

Definition raw (start finish : string) : RawSlot :=
  mkRawSlot (Some start) (Some finish).

(** An answer with three slots on one day, out of order, and one slot on
    a day that is over. *)
Definition answerA : ApiData :=
  mkApiData (Some [("boat-1", SlotArray
    [raw "2025-06-20T10:00:00Z" "2025-06-20T12:00:00Z";
     raw "2025-06-20T08:00:00Z" "2025-06-20T10:00:00Z";
     raw "2025-06-20T14:00:00Z" "2025-06-20T16:00:00Z";
     raw "2025-06-03T09:00:00Z" "2025-06-03T11:00:00Z"])]).

Definition answerB : ApiData :=
  mkApiData (Some [("boat-2", SlotArray
    [raw "2025-06-12T18:00:00Z" "2025-06-12T22:00:00Z"])]).

Definition answerC : ApiData :=
  mkApiData (Some [("boat-3", SlotArray
    [raw "2025-06-25T09:00:00Z" "2025-06-25T17:00:00Z"])]).

(** The map of [answerA]. *)
Definition slotsA : gmap string (list TimeSlot) :=
  default ∅ (@normalize UtcHost.host answerA).

(** An answer whose second start time has a date part that every object
    inherits. *)
Definition answerPoison : ApiData :=
  mkApiData (Some [("boat-1", SlotArray
    [raw "2025-06-20T10:00:00Z" "2025-06-20T12:00:00Z";
     raw "constructor" "2025-06-20T10:00:00Z"])]).


Definition success {J} (body : J) : Outcome J :=
  Resolved (mkResponse true 200 "" (inr body)).

Definition failure {J} (code : Z) (body : string) : Outcome J :=
  Resolved (mkResponse false code body (inl "Unexpected token")).

(** A customer who filled the default form and accepted the terms. *)
Definition customer : CustomerInfo :=
  mkCustomerInfo "Ada" "Lovelace" "  Ada@Example.COM " "0123456789"
    "" "" "" "" "" true false false.

Definition pickedSlot : TimeSlot :=
  mkTimeSlot "2025-06-20T08:00:00Z" (Some "2025-06-20T10:00:00Z") "boat-1".

(** The form is open on a picked slot of the first service. *)
Definition formOpen (info : CustomerInfo) : State :=
  mkState "Service 1" slotsA false None 2025 5 (startOfWeek today)
    (Some "2025-06-20") (Some pickedSlot) false true false None info.

(** The calendar is shown for the first service, nothing picked. *)
Definition browsing : State :=
  mkState "Service 1" slotsA false None 2025 5 (startOfWeek today)
    None None false false false None emptyCustomerInfo.

(** The address field is shown; the customer typed one space in it. *)
Definition addressShown : FormFields :=
  mkFormFields
    (field true true "Prenom") (field true true "Nom")
    (field true true "Email") (field true true "Telephone")
    (field true false "Adresse") (field false false "Ville")
    (field false false "Code postal") (field false false "Entreprise")
    (field false false "Commentaires").

Definition customerBlankAddress : CustomerInfo :=
  mkCustomerInfo "Ada" "Lovelace" "  Ada@Example.COM " "0123456789"
    " " "" "" "" "" true false false.

(** The newsletter box is shown and required; [customer] left it
    unticked. *)
Definition newsletterRequired : Checkboxes :=
  mkCheckboxes
    (field true true "J'accepte les conditions generales")
    (field false false "J'accepte la politique de confidentialite")
    (field true true "Je souhaite recevoir la newsletter").

(** The customer left the required email blank. *)
Definition customerNoEmail : CustomerInfo :=
  mkCustomerInfo "Ada" "Lovelace" "   " "0123456789" "" "" "" "" "" true false false.

(** The customer typed a text that is no e-mail address. *)
Definition customerBadEmail : CustomerInfo :=
  mkCustomerInfo "Ada" "Lovelace" "ada" "0123456789" "" "" "" "" "" true false false.

(** The customer typed one space as first name. *)
Definition customerSpaces : CustomerInfo :=
  mkCustomerInfo " " "Lovelace" "ada@example.com" "0123456789" "" "" "" "" "" true false false.

(** Networks: every request fails to connect; every request is answered
    with an error status; the client endpoint answers with an error
    status and the merchant endpoint with a booking. *)
Definition offline : Network := fun _ => Rejected "Failed to fetch".

Definition refusing : Network := fun r =>
  match r with
  | PostClient _ => failure 403 "forbidden"
  | PostMerchant _ => failure 500 "slot taken"
  end.

Definition bookingAnswer : BookingData :=
  mkBookingData (Some "bk_42") None None (Some "confirmed")
    (Some "https://pay.example/bk_42") None.

Definition merchantOnly : Network := fun r =>
  match r with
  | PostClient _ => failure 403 "forbidden"
  | PostMerchant _ => success bookingAnswer
  end.


(** The properties with [apiConfig] left out. *)
Definition bareProps : Props :=
  mkProps LeftOut (title defaultProps) (urls defaultProps) (servicesCount defaultProps)
    (service1 defaultProps) (service2 defaultProps) (service3 defaultProps)
    (formFields defaultProps) (checkboxes defaultProps) (features defaultProps).

End Demo.

(** ** The rest of the booking flow: modals, navigation, form input *)

Module Flow.

(** [isOpen] of the three modals. *)
Definition timeSelectionOpen (st : State) : bool :=
  showTimeSelection st && truthyOpt (selectedDate st).

Definition bookingFormOpen (st : State) : bool :=
  showBookingForm st && truthyOpt (selectedDate st)
  && match selectedTimeSlot st with Some _ => true | None => false end.

Definition successOpen (st : State) : bool :=
  match bookingSuccess st with Some _ => true | None => false end.

(** The cancel button of the time selection. *)
Definition cancelTimeSelection (st : State) : State :=
  setShowTimeSelection false st.

(** The back button of the booking form. *)
Definition backToTimeSelection (st : State) : State :=
  setShowTimeSelection true (setShowBookingForm false st).

(** The close button of the success notice. *)
Definition closeSuccess (st : State) : State :=
  setBookingSuccess None st.

(** The target of a change event: [checked] is [None] when the element has
    no such property. *)
Record ChangeTarget := mkChangeTarget {
  target_name : string;
  target_value : string;
  target_type : string;
  target_checked : option bool
}.

(** [{ ...customerInfo, [name]: v }] for a text; the names are those of the
    inputs the form renders, another name leaves the record as it is. *)
Definition setText (name v : string) (info : CustomerInfo) : CustomerInfo :=
  let mk f l e ph a c z co cm :=
    mkCustomerInfo f l e ph a c z co cm
      (termsAccepted info) (privacyAccepted info) (newsletterAccepted info) in
  let f := ci_firstName info in let l := ci_lastName info in
  let e := ci_email info in let ph := ci_phone info in
  let a := ci_address info in let c := ci_city info in
  let z := ci_zipCode info in let co := ci_company info in
  let cm := ci_comments info in
  if String.eqb name "firstName" then mk v l e ph a c z co cm
  else if String.eqb name "lastName" then mk f v e ph a c z co cm
  else if String.eqb name "email" then mk f l v ph a c z co cm
  else if String.eqb name "phone" then mk f l e v a c z co cm
  else if String.eqb name "address" then mk f l e ph v c z co cm
  else if String.eqb name "city" then mk f l e ph a v z co cm
  else if String.eqb name "zipCode" then mk f l e ph a c v co cm
  else if String.eqb name "company" then mk f l e ph a c z v cm
  else if String.eqb name "comments" then mk f l e ph a c z co v
  else info.

(** The same for a checkbox. *)
Definition setFlag (name : string) (b : bool) (info : CustomerInfo) : CustomerInfo :=
  let mk t p n :=
    mkCustomerInfo (ci_firstName info) (ci_lastName info) (ci_email info)
      (ci_phone info) (ci_address info) (ci_city info) (ci_zipCode info)
      (ci_company info) (ci_comments info) t p n in
  if String.eqb name "termsAccepted"
  then mk b (privacyAccepted info) (newsletterAccepted info)
  else if String.eqb name "privacyAccepted"
  then mk (termsAccepted info) b (newsletterAccepted info)
  else if String.eqb name "newsletterAccepted"
  then mk (termsAccepted info) (privacyAccepted info) b
  else info.

Definition handleCustomerInfoChange (target : ChangeTarget) (st : State) : State :=
  let checked := default false (target_checked target) in
  setCustomerInfo
    (if String.eqb (target_type target) "checkbox"
     then setFlag (target_name target) checked (customerInfo st)
     else setText (target_name target) (target_value target) (customerInfo st))
    st.

(** *** Navigation *)

Definition returnToCurrentMonth (today : Date) (st : State) : State :=
  setCurrentMonth (getMonth today) (setCurrentYear (getFullYear today) st).

Definition navigateToPreviousWeek (st : State) : State :=
  setCurrentWeekStart
    (setDate (currentWeekStart st) (getDate (currentWeekStart st) - 7)) st.

Definition navigateToNextWeek (st : State) : State :=
  setCurrentWeekStart
    (setDate (currentWeekStart st) (getDate (currentWeekStart st) + 7)) st.

Definition returnToCurrentWeek (today : Date) (st : State) : State :=
  setCurrentWeekStart (startOfWeek today) st.

(** *** Services *)

Definition getCurrentService (p : Props) (st : State) : option Service :=
  List.find (fun service => String.eqb (id service) (selectedServiceId st))
    (activeServices p).

(** [Object.keys(availableSlots).filter(date => availableSlots[date].length > 0)];
    the keys come in the order of the map, and only their number is
    shown. *)
Definition getAvailableDates (st : State) : list string :=
  (List.filter (fun entry => (0 <? length entry.2)%nat)
     (map_to_list (availableSlots st))).*1.

(** The whole component: the notice that no service is active comes before
    anything else. *)
Inductive Screen :=
| NoActiveServices
| CalendarScreen (grid : GridView).

Definition renderScreen (p : Props) (today : Date) (st : State) : Screen :=
  if (length (activeServices p) =? 0)%nat then NoActiveServices
  else CalendarScreen (renderGrid p today st).

End Flow.

Import Flow.

(** ** The booking form and the browser in front of the handler

    [handleBookingSubmit] is the [onSubmit] of the form, and nothing else
    calls it.  The form has no [noValidate], and the inputs it renders
    carry [required] from the configuration, the e-mail field being an
    [<input type="email">]: when the customer submits, the browser checks
    the controls first, and when one does not satisfy its constraints it
    points at the first of them and fires no submit event. *)

Module Form.

Inductive Kind :=
| EmailInput
| TelInput
| TextInput
| TextArea
| CheckboxInput.

(** A control as rendered: its name, its kind, the [required] attribute,
    the [value] and the [checked] that React gives it. *)
Record Control := mkControl {
  control_name : string;
  control_kind : Kind;
  control_required : bool;
  control_value : string;
  control_checked : bool
}.

Definition controlKind (fieldName : string) : Kind :=
  if String.eqb fieldName "comments" then TextArea
  else if String.eqb fieldName "email" then EmailInput
  else if String.eqb fieldName "phone" then TelInput
  else TextInput.

(** [customerInfo[fieldName] || ""] *)
Definition valueOf (fieldName : string) (info : CustomerInfo) : string :=
  match customerValue fieldName info with
  | Text s => s
  | Undefined => ""
  end.

(** [Object.entries(formFields).map(...)], a field that is not shown
    giving nothing. *)
Definition fieldControls (p : Props) (st : State) : list Control :=
  map (fun entry =>
         mkControl entry.1 (controlKind entry.1) (required entry.2)
           (valueOf entry.1 (customerInfo st)) false)
      (List.filter (fun entry => show entry.2) (formFieldEntries (formFields p))).

(** [Object.entries(checkboxes)] *)
Definition checkboxEntries (cb : Checkboxes) : list (string * FormField) :=
  [("terms", terms cb); ("privacy", privacy cb); ("newsletter", newsletter cb)].

(** [customerInfo[`${checkboxName}Accepted`] || false] *)
Definition acceptedOf (checkboxName : string) (info : CustomerInfo) : bool :=
  if String.eqb checkboxName "terms" then termsAccepted info
  else if String.eqb checkboxName "privacy" then privacyAccepted info
  else if String.eqb checkboxName "newsletter" then newsletterAccepted info
  else false.

Definition checkboxControls (p : Props) (st : State) : list Control :=
  map (fun entry =>
         mkControl (entry.1 +:+ "Accepted") CheckboxInput (required entry.2) ""
           (acceptedOf entry.1 (customerInfo st)))
      (List.filter (fun entry => show entry.2) (checkboxEntries (checkboxes p))).

(** The controls of the form, in the order of the document. *)
Definition controls (p : Props) (st : State) : list Control :=
  fieldControls p st ++ checkboxControls p st.

(** *** What the browser checks *)

Definition isLineBreak (c : ascii) : bool :=
  let n := nat_of_ascii c in (n =? 10)%nat || (n =? 13)%nat.

(** Tab, line feed, form feed, carriage return and space. *)
Definition isAsciiWhiteSpace (c : ascii) : bool :=
  let n := nat_of_ascii c in
  (n =? 9)%nat || (n =? 10)%nat || (n =? 12)%nat || (n =? 13)%nat || (n =? 32)%nat.

Fixpoint stripLineBreaks (s : string) : string :=
  match s with
  | EmptyString => EmptyString
  | String c s' =>
      if isLineBreak c then stripLineBreaks s' else String c (stripLineBreaks s')
  end.

Fixpoint stripStart (s : string) : string :=
  match s with
  | EmptyString => EmptyString
  | String c s' => if isAsciiWhiteSpace c then stripStart s' else s
  end.

Fixpoint stripEnd (s : string) : string :=
  match s with
  | EmptyString => EmptyString
  | String c s' =>
      match stripEnd s' with
      | EmptyString => if isAsciiWhiteSpace c then EmptyString else String c EmptyString
      | t => String c t
      end
  end.

(** The value the element holds for the text it is given: a one-line input
    drops the line breaks, an e-mail input the white space around the
    address too; a text area keeps the text. *)
Definition sanitized (c : Control) : string :=
  match control_kind c with
  | EmailInput => stripEnd (stripStart (stripLineBreaks (control_value c)))
  | TelInput | TextInput => stripLineBreaks (control_value c)
  | TextArea | CheckboxInput => control_value c
  end.

(** The control does not satisfy its constraints: it is required and
    empty or not ticked, or it is an e-mail input whose text is no e-mail
    address. *)
Definition invalid `{Host} (c : Control) : bool :=
  match control_kind c with
  | CheckboxInput => control_required c && negb (control_checked c)
  | EmailInput =>
      if String.eqb (sanitized c) "" then control_required c
      else negb (validEmail (sanitized c))
  | TelInput | TextInput | TextArea =>
      control_required c && String.eqb (sanitized c) ""
  end.

(** *** The submission *)

(** What a click on the submit button leads to: nothing when the form is
    not open or the button is disabled; the browser pointing at a control;
    or the handler, with the state and the effects it ends on. *)
Inductive Submission :=
| NotSubmitted
| Blocked (control : string)
| Handled (outcome : State * list Effect).

Definition submitForm `{Host} (p : Props) (now1 now2 : string) (net : Network)
    (st : State) : Submission :=
  if negb (bookingFormOpen st) || isBooking st then NotSubmitted
  else
    match List.find invalid (controls p st) with
    | Some c => Blocked (control_name c)
    | None => Handled (handleBookingSubmit p now1 now2 net st)
    end.

(** The state and the effects of a submission. *)
Definition stateAfter (s : Submission) (st : State) : State :=
  match s with
  | Handled outcome => outcome.1
  | NotSubmitted | Blocked _ => st
  end.

Definition effectsOf (s : Submission) : list Effect :=
  match s with
  | Handled outcome => outcome.2
  | NotSubmitted | Blocked _ => []
  end.

End Form.

Import Form.

(** ** What is displayed: prices, language, titles *)

Module Display.

(** The other flags of [features] that the display reads. *)
Record DisplayFeatures := mkDisplayFeatures {
  hideServiceSelectionWhenSingle : bool;
  showAPA : bool;
  showPriceBreakdown : bool
}.

Definition shouldShowServiceSelection (d : DisplayFeatures) (p : Props) : bool :=
  negb (hideServiceSelectionWhenSingle d) || (1 <? length (activeServices p))%nat.

Record LanguagePack := mkLanguagePack {
  months : list string;
  weekdays : list string;
  pack_today : string;
  priceLabel : string;
  currentWeek : string;
  weekOf : string;
  pack_to : string
}.

Definition french : LanguagePack :=
  mkLanguagePack
    ["Janvier"; "F√©vrier"; "Mars"; "Avril"; "Mai"; "Juin";
     "Juillet"; "Ao√ªt"; "Septembre"; "Octobre"; "Novembre"; "D√©cembre"]
    ["Lun"; "Mar"; "Mer"; "Jeu"; "Ven"; "Sam"; "Dim"]
    "Aujourd'hui" "Prix" "Semaine actuelle" "Semaine du" "au".

Definition english : LanguagePack :=
  mkLanguagePack
    ["January"; "February"; "March"; "April"; "May"; "June";
     "July"; "August"; "September"; "October"; "November"; "December"]
    ["Mon"; "Tue"; "Wed"; "Thu"; "Fri"; "Sat"; "Sun"]
    "Today" "Price" "Current week" "Week of" "to".

Definition spanish : LanguagePack :=
  mkLanguagePack
    ["Enero"; "Febrero"; "Marzo"; "Abril"; "Mayo"; "Junio";
     "Julio"; "Agosto"; "Septiembre"; "Octubre"; "Noviembre"; "Diciembre"]
    ["Lun"; "Mar"; "Mi√©"; "Jue"; "Vie"; "S√°b"; "Dom"]
    "Hoy" "Precio" "Semana actual" "Semana del" "al".

Definition german : LanguagePack :=
  mkLanguagePack
    ["Januar"; "Februar"; "M√§rz"; "April"; "Mai"; "Juni";
     "Juli"; "August"; "September"; "Oktober"; "November"; "Dezember"]
    ["Mo"; "Di"; "Mi"; "Do"; "Fr"; "Sa"; "So"]
    "Heute" "Preis" "Aktuelle Woche" "Woche vom" "bis".

Definition italian : LanguagePack :=
  mkLanguagePack
    ["Gennaio"; "Febbraio"; "Marzo"; "Aprile"; "Maggio"; "Giugno";
     "Luglio"; "Agosto"; "Settembre"; "Ottobre"; "Novembre"; "Dicembre"]
    ["Lun"; "Mar"; "Mer"; "Gio"; "Ven"; "Sab"; "Dom"]
    "Oggi" "Prezzo" "Settimana corrente" "Settimana del" "al".

Definition portuguese : LanguagePack :=
  mkLanguagePack
    ["Janeiro"; "Fevereiro"; "Mar√ßo"; "Abril"; "Maio"; "Junho";
     "Julho"; "Agosto"; "Setembro"; "Outubro"; "Novembro"; "Dezembro"]
    ["Seg"; "Ter"; "Qua"; "Qui"; "Sex"; "S√°b"; "Dom"]
    "Hoje" "Pre√ßo" "Semana atual" "Semana de" "a".

Definition dutch : LanguagePack :=
  mkLanguagePack
    ["Januari"; "Februari"; "Maart"; "April"; "Mei"; "Juni";
     "Juli"; "Augustus"; "September"; "Oktober"; "November"; "December"]
    ["Ma"; "Di"; "Wo"; "Do"; "Vr"; "Za"; "Zo"]
    "Vandaag" "Prijs" "Huidige week" "Week van" "tot".

Definition LANGUAGE_DATA (key : string) : option LanguagePack :=
  if String.eqb key "french" then Some french
  else if String.eqb key "english" then Some english
  else if String.eqb key "spanish" then Some spanish
  else if String.eqb key "german" then Some german
  else if String.eqb key "italian" then Some italian
  else if String.eqb key "portuguese" then Some portuguese
  else if String.eqb key "dutch" then Some dutch
  else None.

Record Language := mkLanguage {
  calendar : string;
  customMonths : list string;
  customWeekdays : list string;
  customTodayButton : string
}.

Record LanguageData := mkLanguageData {
  MONTHS : list string;
  WEEKDAYS : list string;
  TODAY_BUTTON : string;
  PRICE_LABEL : string;
  CURRENT_WEEK : string;
  WEEK_OF : string;
  TO : string
}.

(** [LANGUAGE_DATA[language.calendar]?.field || fallback] *)
Definition packText (language : Language) (field : LanguagePack -> string)
    (fallback : string) : string :=
  match LANGUAGE_DATA (calendar language) with
  | Some pack => if truthy (field pack) then field pack else fallback
  | None => fallback
  end.

(** [todayButton] is [texts.todayButton]. *)
Definition getLanguageData (language : Language) (todayButton : string) : LanguageData :=
  mkLanguageData
    (if (length (customMonths language) =? 12)%nat then customMonths language
     else match LANGUAGE_DATA (calendar language) with
          | Some pack => months pack
          | None => months french
          end)
    (if (length (customWeekdays language) =? 7)%nat then customWeekdays language
     else match LANGUAGE_DATA (calendar language) with
          | Some pack => weekdays pack
          | None => weekdays french
          end)
    (if truthy (customTodayButton language) then customTodayButton language
     else packText language pack_today
            (if truthy todayButton then todayButton else "Today"))
    (packText language priceLabel "Price")
    (packText language currentWeek "Current week")
    (packText language weekOf "Week of")
    (packText language pack_to "to").

(** [MONTHS[currentMonth]] *)
Definition monthTitle (data : LanguageData) (st : State) : option string :=
  if currentMonth st <? 0 then None
  else MONTHS data !! Z.to_nat (currentMonth st).

Definition formatDateForWeekDisplay (date : Date) : string :=
  let day := padStart2 (pretty (getDate date)) in
  let month := padStart2 (pretty (getMonth date + 1)) in
  day +:+ "/" +:+ month.

Definition isCurrentWeek (today : Date) (st : State) : bool :=
  getTime (currentWeekStart st) =? getTime (startOfWeek today).

Definition getWeekTitle (data : LanguageData) (today : Date) (st : State) : string :=
  let weekEnd := setDate (currentWeekStart st) (getDate (currentWeekStart st) + 6) in
  if isCurrentWeek today st then CURRENT_WEEK data
  else WEEK_OF data +:+ " " +:+ formatDateForWeekDisplay (currentWeekStart st)
       +:+ " " +:+ TO data +:+ " " +:+ formatDateForWeekDisplay weekEnd.

(** The sign written after an amount, as the source has it. *)
Definition currencySign : string := "‚Ç¨".

(** What [getPriceDisplay] returns: nothing, one amount, or the two parts
    with their total. *)
Inductive PriceDisplay :=
| Simple (simple total : string)
| Breakdown (label parts totalLine total : string).

Definition getPriceDisplay (d : DisplayFeatures) (language : Language) (p : Props)
    (service : Service) : option PriceDisplay :=
  if negb (showPrices (features p)) then None
  else
    let label := packText language priceLabel "Price" in
    let hasAPA := showAPA d && (0 <? apaPrice service) in
    let totalPrice := basePrice service + apaPrice service in
    if negb hasAPA then
      Some (Simple (pretty (basePrice service) +:+ currencySign)
              (pretty (basePrice service) +:+ currencySign))
    else if showPriceBreakdown d then
      Some (Breakdown (label +:+ ": ")
              (pretty (basePrice service) +:+ currencySign +:+ " + "
                 +:+ pretty (apaPrice service) +:+ currencySign +:+ " APA")
              ("Total: " +:+ pretty totalPrice +:+ currencySign)
              (pretty totalPrice +:+ currencySign))
    else
      Some (Simple (pretty totalPrice +:+ currencySign)
              (pretty totalPrice +:+ currencySign)).

Definition displayedTotal (display : PriceDisplay) : string :=
  match display with
  | Simple _ total => total
  | Breakdown _ _ _ total => total
  end.

End Display.

Import Display.

(** *** Descriptions used to state the properties *)

(** Every character is white space. *)
Fixpoint allWhiteSpace (s : string) : bool :=
  match s with
  | EmptyString => true
  | String c s' => isWhiteSpace c && allWhiteSpace s'
  end.


(** The text of a day as a start time of the provider begins with it: the
    year, then the month and the day of the month on two digits each,
    digit by digit. *)
Definition digitChar (n : Z) : ascii := ascii_of_nat (48 + Z.to_nat n).

Definition twoDigits (n : Z) : string :=
  String (digitChar (n / 10)) (String (digitChar (n mod 10)) EmptyString).

Definition fourDigits (n : Z) : string :=
  String (digitChar (n / 1000))
    (String (digitChar (n / 100 mod 10))
       (String (digitChar (n / 10 mod 10))
          (String (digitChar (n mod 10)) EmptyString))).

Definition isoDay (year month day : Z) : string :=
  pretty year +:+ "-" +:+ twoDigits month +:+ "-" +:+ twoDigits day.


(** The day a week or a month starts on, counted from Monday. *)
Definition mondayColumn (date : Date) : Z := (getDay date + 6) mod 7.

(** A week start as the navigation keeps it: a Monday, at midnight. *)
Definition isWeekStart (date : Date) : Prop := getDay date = 1 /\ msOfDay date = 0.

(** The answer a request resolved with, when it is a success whose body
    reads. *)
Definition readableSuccess {J} (outcome : Outcome J) : option J :=
  match outcome with
  | Resolved response =>
      if ok response then
        match json response with inr body => Some body | inl _ => None end
      else None
  | Rejected _ => None
  end.

(** The map of that answer, when its grouping goes through. *)
Definition groupedSuccess `{Host} (outcome : Outcome ApiData)
    : option (gmap string (list TimeSlot)) :=
  match readableSuccess outcome with
  | Some apiData => normalize apiData
  | None => None
  end.

(** What the calendar is drawn from and what the availability effect
    depends on. *)
Definition calendarState (st : State)
    : string * gmap string (list TimeSlot) * bool * option string * Z * Z * Date :=
  (selectedServiceId st, availableSlots st, loading st, error st,
   currentYear st, currentMonth st, currentWeekStart st).

(** The validation of the form, in the words of its configuration: a field
    that is shown and required and whose text is blank once trimmed; a box
    that is shown and required and is not ticked; and, for the browser, an
    e-mail field that is shown and holds a text that is no address. *)
Definition failingField (p : Props) (st : State) (fieldName : string)
    (field : FormField) : Prop :=
  (fieldName, field) ∈ formFieldEntries (formFields p)
  /\ show field = true /\ required field = true
  /\ exists text,
       customerValue fieldName (customerInfo st) = Text text /\ trim text = "".

Definition failingBox (p : Props) (st : State) (boxName : string) : Prop :=
  (boxName = "terms"
   /\ show (terms (checkboxes p)) = true /\ required (terms (checkboxes p)) = true
   /\ termsAccepted (customerInfo st) = false)
  \/ (boxName = "privacy"
      /\ show (privacy (checkboxes p)) = true /\ required (privacy (checkboxes p)) = true
      /\ privacyAccepted (customerInfo st) = false)
  \/ (boxName = "newsletter"
      /\ show (newsletter (checkboxes p)) = true
      /\ required (newsletter (checkboxes p)) = true
      /\ newsletterAccepted (customerInfo st) = false).

Definition malformedEmail `{Host} (p : Props) (st : State) : Prop :=
  show (ff_email (formFields p)) = true
  /\ exists address,
       address = stripEnd (stripStart (stripLineBreaks (ci_email (customerInfo st))))
       /\ address <> "" /\ validEmail address = false.

(** * Properties *)

(** ** Dates *)

Lemma civil_roundtrip z :
  let '(y, m, d) := civil_from_days z in days_from_civil y m d = z.
Proof.
  unfold civil_from_days, days_from_civil.
  repeat match goal with
  | |- context [if ?b then _ else _] => destruct b eqn:?
  end; Z.to_euclidean_division_equations; lia.
Qed.

Example ex_epoch : civil_from_days 0 = (1970, 1, 1).
Proof. reflexivity. Qed.
Example ex_leap : civil_from_days (days_from_civil 2024 2 29) = (2024, 2, 29)
  /\ days_from_civil 2024 2 29 = 19782 /\ MakeDay 2025 0 32 = MakeDay 2025 1 1.
Proof. vm_compute. auto. Qed.
Lemma civil_month_range z : 1 <= (civil_from_days z).1.2 <= 12.
Proof.
  unfold civil_from_days; cbn [fst snd].
  destruct (_ <? 10) eqn:E; Z.to_euclidean_division_equations; lia.
Qed.

Lemma days_from_civil_day y m d : days_from_civil y m 1 + d - 1 = days_from_civil y m d.
Proof. unfold days_from_civil. lia. Qed.

(** Rebuilding a date from its own year, month and day gives its day back. *)
Lemma MakeDay_fields (t : Date) :
  MakeDay (getFullYear t) (getMonth t) (getDate t) = dayNumber t.
Proof.
  unfold MakeDay, getFullYear, getMonth, getDate.
  pose proof (civil_month_range (dayNumber t)) as Hm.
  pose proof (civil_roundtrip (dayNumber t)) as Hr.
  destruct (civil_from_days (dayNumber t)) as [[y m] d]; cbn [fst snd] in *.
  rewrite days_from_civil_day.
  replace ((m - 1) / 12) with 0 by (Z.to_euclidean_division_equations; lia).
  replace ((m - 1) mod 12 + 1) with m by (Z.to_euclidean_division_equations; lia).
  rewrite Z.add_0_r. exact Hr.
Qed.

Lemma civil_from_days_inj a b : civil_from_days a = civil_from_days b -> a = b.
Proof.
  intros Heq. pose proof (civil_roundtrip a) as Ha. pose proof (civil_roundtrip b) as Hb.
  rewrite Heq in Ha. destruct (civil_from_days b) as [[y m] d]. congruence.
Qed.

(** ** Calendar arithmetic *)

Lemma civil_day_pos z : 1 <= (civil_from_days z).2.
Proof.
  unfold civil_from_days; cbn [fst snd].
  Z.to_euclidean_division_equations; lia.
Qed.

(** The year of the era is the right one: the day falls inside it. *)
Lemma year_of_era_bounds doe :
  0 <= doe < 146097 ->
  let yoe := (doe - doe / 1460 + doe / 36524 - doe / 146096) / 365 in
  0 <= yoe <= 399
  /\ 365 * yoe + yoe / 4 - yoe / 100 <= doe
  /\ (yoe < 399 -> doe < 365 * (yoe + 1) + (yoe + 1) / 4 - (yoe + 1) / 100).
Proof.
  intros H yoe. subst yoe.
  Z.to_euclidean_division_equations; lia.
Qed.

(** A day comes before the first day of the month after its own. *)
Lemma civil_day_bound z :
  let '(y, m, d) := civil_from_days z in
  z < days_from_civil (y + m / 12) (m mod 12 + 1) 1.
Proof.
  unfold civil_from_days.
  set (z' := z + 719468).
  assert (Hdoe : 0 <= z' mod 146097 < 146097) by (apply Z.mod_pos_bound; lia).
  assert (Hz : z' = 146097 * (z' / 146097) + z' mod 146097) by (apply Z.div_mod; lia).
  generalize dependent (z' mod 146097). generalize dependent (z' / 146097).
  intros era doe Hdoe Hz.
  pose proof (year_of_era_bounds doe Hdoe) as Hy. cbv zeta in Hy.
  generalize dependent ((doe - doe / 1460 + doe / 36524 - doe / 146096) / 365).
  intros yoe (Hy1 & Hy2 & Hy3).
  set (doy := doe - (365 * yoe + yoe / 4 - yoe / 100)).
  assert (Hdoy : 0 <= doy <= 365) by (subst doy; Z.to_euclidean_division_equations; lia).
  assert (Hmp : 0 <= (5 * doy + 2) / 153 <= 11) by (Z.to_euclidean_division_equations; lia).
  set (mp := (5 * doy + 2) / 153) in *.
  assert (Hmpdef : 153 * mp <= 5 * doy + 2 < 153 * mp + 153)
    by (subst mp; Z.to_euclidean_division_equations; lia).
  clearbody mp.
  assert (Hcases : mp = 0 \/ mp = 1 \/ mp = 2 \/ mp = 3 \/ mp = 4 \/ mp = 5 \/ mp = 6
                   \/ mp = 7 \/ mp = 8 \/ mp = 9 \/ mp = 10 \/ mp = 11) by lia.
  repeat destruct Hcases as [->|Hcases]; [..|subst mp];
    unfold days_from_civil; cbv zeta;
    repeat match goal with
    | |- context [if ?b then _ else _] =>
        let v := eval vm_compute in b in change b with v; cbv iota
    end;
    subst doy z'; Z.to_euclidean_division_equations; lia.
Qed.

Lemma MakeDay_linear y m d : MakeDay y m d = MakeDay y m 1 + d - 1.
Proof. unfold MakeDay. lia. Qed.

Lemma MakeDay_norm y m d : MakeDay y m d = MakeDay 0 (12 * y + m) d.
Proof.
  unfold MakeDay.
  replace (0 + (12 * y + m) / 12) with (y + m / 12)
    by (Z.to_euclidean_division_equations; lia).
  replace ((12 * y + m) mod 12) with (m mod 12)
    by (Z.to_euclidean_division_equations; lia).
  reflexivity.
Qed.

Lemma MakeDay_split q r :
  0 <= r < 12 -> MakeDay 0 (12 * q + r) 1 = days_from_civil q (r + 1) 1.
Proof.
  intros Hr. unfold MakeDay.
  replace (0 + (12 * q + r) / 12) with q by (Z.to_euclidean_division_equations; lia).
  replace ((12 * q + r) mod 12) with r by (Z.to_euclidean_division_equations; lia).
  lia.
Qed.

Lemma month_length_from_civil q m :
  1 <= m <= 12 ->
  28 <= days_from_civil (q + m / 12) (m mod 12 + 1) 1 - days_from_civil q m 1 <= 31.
Proof.
  intros Hm.
  assert (Hcases : m = 1 \/ m = 2 \/ m = 3 \/ m = 4 \/ m = 5 \/ m = 6 \/ m = 7
                   \/ m = 8 \/ m = 9 \/ m = 10 \/ m = 11 \/ m = 12) by lia.
  repeat destruct Hcases as [->|Hcases]; [..|subst m];
    unfold days_from_civil; cbv zeta;
    repeat match goal with
    | |- context [if ?b then _ else _] =>
        let v := eval vm_compute in b in change b with v; cbv iota
    end;
    Z.to_euclidean_division_equations; lia.
Qed.

(** A month has 28 to 31 days. *)
Lemma MakeDay_step n : 28 <= MakeDay 0 (n + 1) 1 - MakeDay 0 n 1 <= 31.
Proof.
  pose proof (month_length_from_civil (n / 12) (n mod 12 + 1)) as H.
  unfold MakeDay.
  replace (0 + (n + 1) / 12) with (n / 12 + (n mod 12 + 1) / 12)
    by (Z.to_euclidean_division_equations; lia).
  replace ((n + 1) mod 12) with ((n mod 12 + 1) mod 12)
    by (Z.to_euclidean_division_equations; lia).
  rewrite Z.add_0_l.
  assert (1 <= n mod 12 + 1 <= 12) by (Z.to_euclidean_division_equations; lia).
  lia.
Qed.

Lemma MakeDay_mono n k : 0 <= k -> MakeDay 0 n 1 + 28 * k <= MakeDay 0 (n + k) 1.
Proof.
  intros Hk. pattern k. apply natlike_ind; [| |exact Hk]; cbv beta.
  - rewrite Z.mul_0_r, !Z.add_0_r. lia.
  - intros j Hj IH. pose proof (MakeDay_step (n + j)) as Hs.
    replace (n + Z.succ j) with (n + j + 1) by lia. lia.
Qed.

(** The days from the first of a month up to the first of the next are the
    days 1, 2, ... of that month. *)
Lemma civil_in_month n z :
  MakeDay 0 n 1 <= z < MakeDay 0 (n + 1) 1 ->
  civil_from_days z = (n / 12, n mod 12 + 1, z - MakeDay 0 n 1 + 1).
Proof.
  intros Hz.
  pose proof (civil_roundtrip z) as Hr. pose proof (civil_month_range z) as Hm.
  pose proof (civil_day_pos z) as Hd. pose proof (civil_day_bound z) as Hb.
  destruct (civil_from_days z) as [[y m] d]; cbn [fst snd] in *.
  set (nz := 12 * y + (m - 1)).
  assert (Hfirst : MakeDay 0 nz 1 = z - d + 1).
  { unfold nz. rewrite MakeDay_split by lia.
    replace (m - 1 + 1) with m by lia.
    rewrite <- Hr, <- (days_from_civil_day y m d). lia. }
  assert (Hnext : z < MakeDay 0 (nz + 1) 1).
  { replace (nz + 1) with (12 * y + m) by (unfold nz; lia).
    rewrite <- (MakeDay_norm y m 1). unfold MakeDay. lia. }
  assert (Hn : nz = n).
  { destruct (Z.lt_trichotomy nz n) as [Hlt|[Heq|Hgt]]; [|exact Heq|].
    - pose proof (MakeDay_mono (nz + 1) (n - (nz + 1))) as Hmono.
      replace (nz + 1 + (n - (nz + 1))) with n in Hmono by lia. lia.
    - pose proof (MakeDay_mono (n + 1) (nz - (n + 1))) as Hmono.
      replace (n + 1 + (nz - (n + 1))) with nz in Hmono by lia. lia. }
  subst n. rewrite Hfirst.
  replace (nz / 12) with y by (unfold nz; Z.to_euclidean_division_equations; lia).
  replace (nz mod 12 + 1) with m by (unfold nz; Z.to_euclidean_division_equations; lia).
  f_equal. lia.
Qed.

Lemma setDate_dayNumber t n : dayNumber (setDate t n) = dayNumber t + (n - getDate t).
Proof.
  unfold setDate; cbn [dayNumber].
  pose proof (MakeDay_fields t) as Hf.
  rewrite MakeDay_linear in Hf. rewrite MakeDay_linear. lia.
Qed.

Lemma getMonth_range t : 0 <= getMonth t <= 11.
Proof. unfold getMonth. pose proof (civil_month_range (dayNumber t)). lia. Qed.

Lemma getDate_range t : 1 <= getDate t <= 31.
Proof.
  unfold getDate.
  pose proof (civil_roundtrip (dayNumber t)) as Hr.
  pose proof (civil_month_range (dayNumber t)) as Hm.
  pose proof (civil_day_pos (dayNumber t)) as Hd.
  pose proof (civil_day_bound (dayNumber t)) as Hb.
  destruct (civil_from_days (dayNumber t)) as [[y m] d]; cbn [fst snd] in *.
  pose proof (month_length_from_civil y m Hm) as Hl.
  rewrite <- (days_from_civil_day y m d) in Hr. lia.
Qed.

Lemma Date_eq (a b : Date) :
  dayNumber a = dayNumber b -> msOfDay a = msOfDay b -> a = b.
Proof. destruct a, b; cbn. congruence. Qed.

Lemma getDay_range t : 0 <= getDay t <= 6.
Proof. unfold getDay. Z.to_euclidean_division_equations; lia. Qed.
Example ex_sort :
  @sortSlots UtcHost.host
    [mkTimeSlot "2025-06-10T10:00:00Z" None "r"; mkTimeSlot "2025-06-10T08:00:00Z" None "r";
     mkTimeSlot "2025-06-10T14:00:00Z" None "r"]
  = [mkTimeSlot "2025-06-10T08:00:00Z" None "r"; mkTimeSlot "2025-06-10T10:00:00Z" None "r";
     mkTimeSlot "2025-06-10T14:00:00Z" None "r"].
Proof. vm_compute. reflexivity. Qed.

(** A date is today iff it falls on the same day, whatever the time. *)
Lemma isToday_spec (today date : Date) :
  isToday today date = true <-> dayNumber date = dayNumber today.
Proof.
  unfold isToday, getFullYear, getMonth, getDate. split.
  - intros [[Hy Hm]%andb_prop Hd]%andb_prop.
    apply Z.eqb_eq in Hy, Hm, Hd. apply civil_from_days_inj.
    destruct (civil_from_days (dayNumber date)) as [[y m] d],
             (civil_from_days (dayNumber today)) as [[y' m'] d'].
    cbn in *. f_equal; [f_equal|]; lia.
  - intros ->. by rewrite !Z.eqb_refl.
Qed.

Lemma isDateInPast_spec (today date : Date) :
  isDateInPast today date = true <-> dayNumber date < dayNumber today.
Proof.
  unfold isDateInPast, JsDate.ltb, getTime, newDate; cbn [dayNumber msOfDay].
  rewrite !MakeDay_fields, Z.ltb_lt. lia.
Qed.

(** ** The calendar cells *)

Lemma dayCell_available (slots : gmap string (list TimeSlot)) (today date : Date) :
  isDateAvailable (dayCell slots today date) = true
  <-> exists l, slots !! formatDateString date = Some l /\ l <> [].
Proof.
  unfold dayCell; cbn [isDateAvailable].
  destruct (slots !! formatDateString date) as [[|s l]|]; cbn; split.
  - discriminate.
  - intros (l & [= <-] & Hl). congruence.
  - intros _. eexists. split; [reflexivity | discriminate].
  - reflexivity.
  - discriminate.
  - intros (l & [=] & _).
Qed.

(** Every day cell of the grid, in either view, comes from the shared loop
    body. *)
Lemma grid_day_cells (p : Props) (today : Date) (st : State) (c : DayCell) :
  Day c ∈ generateCalendarDays p today st ->
  exists date, c = dayCell (availableSlots st) today date.
Proof.
  unfold generateCalendarDays.
  destruct (String.eqb _ _).
  - intros (i & [= ->] & _)%list_elem_of_fmap. eauto.
  - rewrite elem_of_app. intros [(i & [=] & _)%list_elem_of_fmap
                                | (i & [= ->] & _)%list_elem_of_fmap].
    eauto.
Qed.

(** [padStart(2, "0")] writes a number below one hundred on two digits. *)
Lemma padStart2_twoDigits n : 0 <= n < 100 -> padStart2 (pretty n) = twoDigits n.
Proof.
  intros Hn.
  assert (Hin : n ∈ seqZ 0 100) by (apply elem_of_seqZ; lia).
  clear Hn. revert n Hin. apply Forall_forall.
  let l := eval vm_compute in (seqZ 0 100) in change (seqZ 0 100) with l.
  repeat (constructor; [reflexivity|]). constructor.
Qed.

Lemma pretty_char_digit (k : N) : (k < 10)%N -> pretty_N_char k = digitChar (Z.of_N k).
Proof.
  intros Hk.
  assert (H : (k = 0 \/ k = 1 \/ k = 2 \/ k = 3 \/ k = 4 \/ k = 5 \/ k = 6 \/ k = 7
               \/ k = 8 \/ k = 9)%N) by lia.
  repeat destruct H as [->|H]; [..|subst k]; reflexivity.
Qed.

(** A year from 1000 to 9999 is written on its four digits. *)
Lemma pretty_fourDigits (y : Z) : 1000 <= y <= 9999 -> pretty y = fourDigits y.
Proof.
  intros Hy. destruct y as [|x|x]; try lia.
  change (pretty (Z.pos x)) with (pretty (N.pos x)).
  unfold pretty, pretty_N. rewrite decide_False by discriminate.
  assert (Hn : Z.of_N (N.pos x) = Z.pos x) by reflexivity.
  generalize dependent (N.pos x). intros n Hn.
  assert (H1 : Z.of_N (n `div` 10) = Z.pos x / 10)
    by (rewrite N2Z.inj_div, Hn; reflexivity).
  assert (H2 : Z.of_N ((n `div` 10) `div` 10) = Z.pos x / 10 / 10)
    by (rewrite N2Z.inj_div, H1; reflexivity).
  assert (H3 : Z.of_N (((n `div` 10) `div` 10) `div` 10) = Z.pos x / 10 / 10 / 10)
    by (rewrite N2Z.inj_div, H2; reflexivity).
  assert (H4 : Z.of_N ((((n `div` 10) `div` 10) `div` 10) `div` 10)
               = Z.pos x / 10 / 10 / 10 / 10)
    by (rewrite N2Z.inj_div, H3; reflexivity).
  rewrite pretty_N_go_step by (apply N2Z.inj_lt; rewrite Hn; lia).
  rewrite pretty_N_go_step
    by (apply N2Z.inj_lt; rewrite H1; cbn; Z.to_euclidean_division_equations; lia).
  rewrite pretty_N_go_step
    by (apply N2Z.inj_lt; rewrite H2; cbn; Z.to_euclidean_division_equations; lia).
  rewrite pretty_N_go_step
    by (apply N2Z.inj_lt; rewrite H3; cbn; Z.to_euclidean_division_equations; lia).
  replace ((((n `div` 10) `div` 10) `div` 10) `div` 10)%N with 0%N
    by (apply N2Z.inj; rewrite H4; cbn; Z.to_euclidean_division_equations; lia).
  rewrite pretty_N_go_0.
  rewrite !pretty_char_digit by (apply N.mod_lt; discriminate).
  rewrite !N2Z.inj_mod. rewrite H1, H2, H3, Hn.
  unfold fourDigits. change (Z.of_N 10) with 10.
  replace (Z.pos x / 10 / 10 / 10 mod 10) with (Z.pos x / 1000)
    by (Z.to_euclidean_division_equations; lia).
  replace (Z.pos x / 10 / 10 mod 10) with (Z.pos x / 100 mod 10)
    by (Z.to_euclidean_division_equations; lia).
  reflexivity.
Qed.

(** The date string of a day is the year, the month counted from one and
    the day of the month, the last two on two digits. *)
Lemma formatDateString_isoDay (date : Date) :
  formatDateString date = isoDay (getFullYear date) (getMonth date + 1) (getDate date).
Proof.
  unfold formatDateString, isoDay.
  pose proof (getMonth_range date). pose proof (getDate_range date).
  rewrite !padStart2_twoDigits by lia. reflexivity.
Qed.

(** C8. For every availability map and every day cell of the month or the
    week grid, with [key] the text of the cell's day, year-month-day
    (YYYY-MM-DD when the year has four digits): the cell is available iff
    the map holds a non-empty slot list under [key]; it is past iff its day
    is strictly before today's day, whatever the time of day; and a click
    selects the date iff the cell is available and not past. *)
Theorem cell_selectable_iff_available_not_past
    (p : Props) (today : Date) (st : State) (c : DayCell) :
  Day c ∈ generateCalendarDays p today st ->
  let date := cellDate c in
  let key := isoDay (getFullYear date) (getMonth date + 1) (getDate date) in
  dateString c = key
  /\ (1000 <= getFullYear date <= 9999 ->
      key = fourDigits (getFullYear date) +:+ "-" +:+ twoDigits (getMonth date + 1)
            +:+ "-" +:+ twoDigits (getDate date))
  /\ (isDateAvailable c = true
      <-> exists slots, availableSlots st !! key = Some slots /\ slots <> [])
  /\ (isPastDate c = true <-> dayNumber date < dayNumber today)
  /\ (clickSelects c = Some key
      <-> isDateAvailable c = true /\ isPastDate c = false)
  /\ (clickSelects c = None <-> ~ (isDateAvailable c = true /\ isPastDate c = false))
  /\ (forall s, dayOnClick c s =
                if isDateAvailable c && negb (isPastDate c)
                then handleDateSelection key s else s).
Proof.
  intros [date ->]%grid_day_cells. cbv zeta.
  cbn [cellDate dayCell].
  split; [apply formatDateString_isoDay|].
  split; [intros Hy; unfold isoDay; by rewrite pretty_fourDigits|].
  rewrite <- formatDateString_isoDay.
  split; [apply dayCell_available|].
  split; [apply isDateInPast_spec|].
  unfold dayOnClick, clickSelects.
  change (dateString (dayCell (availableSlots st) today date))
    with (formatDateString date).
  destruct (isDateAvailable _), (isPastDate _); cbn; intuition congruence.
Qed.

(** Three cells of June 2025, seen on the 11th: the 20th holds three
    slots and can be picked, the 3rd holds a slot and is over, the 21st
    holds nothing. *)
Lemma cell_selectable_iff_available_not_past_witness :
  let grid := generateCalendarDays Demo.defaultProps Demo.today Demo.browsing in
  let free := dayCell (availableSlots Demo.browsing) Demo.today (newDate 2025 5 20) in
  let over := dayCell (availableSlots Demo.browsing) Demo.today (newDate 2025 5 3) in
  let bare := dayCell (availableSlots Demo.browsing) Demo.today (newDate 2025 5 21) in
  (grid !! 25%nat = Some (Day free) /\ grid !! 8%nat = Some (Day over)
   /\ grid !! 26%nat = Some (Day bare))
  /\ (dateString free = "2025-06-20" /\ dateString over = "2025-06-03"
      /\ dateString bare = "2025-06-21")
  /\ (length <$> availableSlots Demo.browsing !! "2025-06-20" = Some 3%nat
      /\ isDateAvailable free = true /\ isPastDate free = false
      /\ clickSelects free = Some "2025-06-20")
  /\ (length <$> availableSlots Demo.browsing !! "2025-06-03" = Some 1%nat
      /\ isDateAvailable over = true /\ isPastDate over = true
      /\ clickSelects over = None)
  /\ (availableSlots Demo.browsing !! "2025-06-21" = None
      /\ isDateAvailable bare = false /\ clickSelects bare = None).
Proof.
  intros grid free over bare.
  assert (Hgrid : grid !! 25%nat = Some (Day free) /\ grid !! 8%nat = Some (Day over)
                  /\ grid !! 26%nat = Some (Day bare))
    by (vm_compute; auto).
  destruct Hgrid as (Hfree & Hover & Hbare).
  pose proof (cell_selectable_iff_available_not_past Demo.defaultProps Demo.today
                Demo.browsing free (list_elem_of_lookup_2 _ _ _ Hfree))
    as (Kf & _ & Af & Pf & Sf & _).
  pose proof (cell_selectable_iff_available_not_past Demo.defaultProps Demo.today
                Demo.browsing over (list_elem_of_lookup_2 _ _ _ Hover))
    as (Ko & _ & Ao & Po & _ & No & _).
  pose proof (cell_selectable_iff_available_not_past Demo.defaultProps Demo.today
                Demo.browsing bare (list_elem_of_lookup_2 _ _ _ Hbare))
    as (Kb & _ & Ab & _ & _ & Nb & _).
  assert (Lf : availableSlots Demo.browsing !! "2025-06-20"
               = Some [mkTimeSlot "2025-06-20T08:00:00Z" (Some "2025-06-20T10:00:00Z") "boat-1";
                       mkTimeSlot "2025-06-20T10:00:00Z" (Some "2025-06-20T12:00:00Z") "boat-1";
                       mkTimeSlot "2025-06-20T14:00:00Z" (Some "2025-06-20T16:00:00Z") "boat-1"])
    by (vm_compute; reflexivity).
  assert (Lo : availableSlots Demo.browsing !! "2025-06-03"
               = Some [mkTimeSlot "2025-06-03T09:00:00Z" (Some "2025-06-03T11:00:00Z") "boat-1"])
    by (vm_compute; reflexivity).
  assert (Lb : availableSlots Demo.browsing !! "2025-06-21" = None)
    by (vm_compute; reflexivity).
  assert (Hf : isDateAvailable free = true).
  { apply Af. eexists. split; [exact Lf | discriminate]. }
  assert (Hpf : isPastDate free = false).
  { destruct (isPastDate free); [|reflexivity].
    pose proof (proj1 Pf eq_refl) as Hlt. vm_compute in Hlt. discriminate. }
  assert (Ho : isDateAvailable over = true).
  { apply Ao. eexists. split; [exact Lo | discriminate]. }
  assert (Hpo : isPastDate over = true) by (apply Po; vm_compute; reflexivity).
  assert (Hb : isDateAvailable bare = false).
  { destruct (isDateAvailable bare); [|reflexivity].
    destruct (proj1 Ab eq_refl) as (slots & Hs & _). vm_compute in Hs. discriminate. }
  split; [auto|]. split; [auto|].
  split; [|split].
  - rewrite Lf. split; [reflexivity|]. split; [exact Hf|]. split; [exact Hpf|].
    apply Sf. auto.
  - rewrite Lo. split; [reflexivity|]. split; [exact Ho|]. split; [exact Hpo|].
    apply No. rewrite Hpo. intros [_ [=]].
  - split; [exact Lb|]. split; [exact Hb|].
    apply Nb. rewrite Hb. intros [[=] _].
Defined.

(** A day with a slot that is over cannot be picked; the week of today shows
    seven day cells and no padding. *)
Example ex_past_day_not_selectable :
  let c := dayCell (availableSlots Demo.browsing) Demo.today (newDate 2025 5 3) in
  generateCalendarDays Demo.defaultProps Demo.today Demo.browsing !! 8%nat = Some (Day c)
  /\ isDateAvailable c = true /\ isPastDate c = true /\ clickSelects c = None.
Proof. vm_compute. auto. Qed.

Example ex_week_grid :
  (fun cell => match cell with Day c => dateString c | EmptyCell _ => "" end)
    <$> generateCalendarDays (Demo.withView "week" Demo.defaultProps) Demo.today Demo.browsing
  = ["2025-06-09"; "2025-06-10"; "2025-06-11"; "2025-06-12"; "2025-06-13";
     "2025-06-14"; "2025-06-15"].
Proof. vm_compute. reflexivity. Qed.

(** ** Normalisation of the availability answer *)

Section Normalisation.
Context `{Host}.

Lemma insertSlot_perm a l : insertSlot a l ≡ₚ a :: l.
Proof.
  induction l as [|b l IH]; cbn; [reflexivity|].
  destruct (_ <=? 0); [reflexivity|].
  rewrite IH. apply perm_swap.
Qed.

Lemma sortSlots_perm l : sortSlots l ≡ₚ l.
Proof.
  induction l as [|a l IH]; cbn; [reflexivity|].
  fold (sortSlots l). rewrite insertSlot_perm. by f_equiv.
Qed.




End Normalisation.

Lemma onDate_app date l1 l2 : onDate date (l1 ++ l2) = onDate date l1 ++ onDate date l2.
Proof. apply filter_app. Qed.

Lemma bucketOf_inherited date visited :
  existsb inheritedDate visited = false -> inherited date = true ->
  bucketOf date visited = None.
Proof.
  intros Hclean Hinh. unfold bucketOf.
  destruct (onDate date visited) as [|s l] eqn:E; [reflexivity|].
  assert (Hs : s ∈ onDate date visited) by (rewrite E; left).
  apply list_elem_of_filter in Hs as [Hd Hs].
  assert (Hex : existsb inheritedDate visited = true).
  { apply existsb_exists. exists s. split; [by apply list_elem_of_In|].
    unfold inheritedDate. by rewrite Hd. }
  congruence.
Qed.

(** One slot: with the dates visited so far in the object and none of them
    inherited, the slot is stored behind the others of its date, or the
    push throws, which it does exactly when its date part is inherited. *)
Lemma pushSlot_bucket rid grouped slot visited :
  (forall date, grouped !! date = bucketOf date visited) ->
  existsb inheritedDate visited = false ->
  match pushSlot rid grouped slot with
  | Some grouped' =>
      existsb inheritedDate (keptSlot rid slot) = false
      /\ forall date, grouped' !! date = bucketOf date (visited ++ keptSlot rid slot)
  | None => existsb inheritedDate (keptSlot rid slot) = true
  end.
Proof.
  intros Hinv Hclean. unfold pushSlot, keptSlot.
  destruct (raw_startTime slot) as [start|];
    [|split; [reflexivity | intros date; by rewrite app_nil_r]].
  destruct (truthy start); [|split; [reflexivity | intros date; by rewrite app_nil_r]].
  unfold inheritedDate. cbn [existsb startTime]. rewrite !orb_false_r.
  assert (Hlook : forall bucket date,
            grouped !! slotDate start = bucket ->
            <[slotDate start := default [] bucket
                                ++ [mkTimeSlot start (raw_endTime slot) rid]]> grouped !! date
            = bucketOf date (visited ++ [mkTimeSlot start (raw_endTime slot) rid])).
  { intros bucket date Hb. unfold bucketOf. rewrite onDate_app.
    destruct (decide (slotDate start = date)) as [<-|Hne].
    - rewrite lookup_insert_eq. rewrite <- Hb, Hinv. unfold bucketOf, onDate at 3.
      rewrite filter_cons_True by reflexivity. rewrite filter_nil.
      destruct (onDate _ visited); reflexivity.
    - rewrite lookup_insert_ne by exact Hne. unfold onDate at 2.
      rewrite filter_cons_False by exact Hne. rewrite filter_nil, app_nil_r.
      apply Hinv. }
  destruct (grouped !! slotDate start) as [bucket|] eqn:E.
  - split; [|intros date; exact (Hlook (Some bucket) date eq_refl)].
    destruct (inherited (slotDate start)) eqn:Hinh; [|reflexivity].
    rewrite Hinv, (bucketOf_inherited _ _ Hclean Hinh) in E. discriminate.
  - destruct (inherited (slotDate start)); [reflexivity|].
    split; [reflexivity | intros date; exact (Hlook None date eq_refl)].
Qed.

Lemma forEach_bucket {A} (body : gmap string (list TimeSlot) -> A
                                 -> option (gmap string (list TimeSlot)))
    (kept : A -> list TimeSlot) :
  (forall grouped a visited,
      (forall date, grouped !! date = bucketOf date visited) ->
      existsb inheritedDate visited = false ->
      match body grouped a with
      | Some grouped' =>
          existsb inheritedDate (kept a) = false
          /\ forall date, grouped' !! date = bucketOf date (visited ++ kept a)
      | None => existsb inheritedDate (kept a) = true
      end) ->
  forall l grouped visited,
    (forall date, grouped !! date = bucketOf date visited) ->
    existsb inheritedDate visited = false ->
    match forEach body l grouped with
    | Some grouped' =>
        existsb inheritedDate (concat (map kept l)) = false
        /\ forall date, grouped' !! date = bucketOf date (visited ++ concat (map kept l))
    | None => existsb inheritedDate (concat (map kept l)) = true
    end.
Proof.
  intros Hbody. induction l as [|a l IH]; intros grouped visited Hinv Hclean; cbn.
  - split; [reflexivity | intros date; by rewrite app_nil_r].
  - specialize (Hbody grouped a visited Hinv Hclean).
    rewrite existsb_app.
    destruct (body grouped a) as [grouped'|]; cbn; [|by rewrite Hbody].
    destruct Hbody as [Hkept Hinv']. rewrite Hkept; cbn.
    specialize (IH grouped' (visited ++ kept a) Hinv').
    rewrite existsb_app, Hclean, Hkept in IH. specialize (IH eq_refl).
    destruct (forEach body l grouped'); [|exact IH].
    destruct IH as [Hrest Hinv'']. split; [exact Hrest|].
    intros date. rewrite app_assoc. apply Hinv''.
Qed.

Lemma pushResource_bucket grouped entry visited :
  (forall date, grouped !! date = bucketOf date visited) ->
  existsb inheritedDate visited = false ->
  match pushResource grouped entry with
  | Some grouped' =>
      existsb inheritedDate (resourceSlotList entry) = false
      /\ forall date, grouped' !! date = bucketOf date (visited ++ resourceSlotList entry)
  | None => existsb inheritedDate (resourceSlotList entry) = true
  end.
Proof.
  intros Hinv Hclean. unfold pushResource, resourceSlotList.
  destruct entry.2 as [slots|];
    [|split; [reflexivity | intros date; by rewrite app_nil_r]].
  apply (forEach_bucket (pushSlot entry.1) (keptSlot entry.1)); [|done|done].
  intros g a v. apply pushSlot_bucket.
Qed.

(** The grouping throws exactly on a poisoned answer; otherwise a date
    holds the slots of the answer that have that date, in the order of the
    answer. *)
Lemma groupByDate_spec apiData :
  match groupByDate apiData with
  | Some grouped =>
      poisoned apiData = false
      /\ forall date, grouped !! date = bucketOf date (returnedSlots apiData)
  | None => poisoned apiData = true
  end.
Proof.
  unfold groupByDate, poisoned, returnedSlots.
  destruct (times apiData) as [entries|];
    [|split; [reflexivity | intros date; apply lookup_empty]].
  apply (forEach_bucket pushResource resourceSlotList
           (fun g a v => pushResource_bucket g a v) entries ∅ []);
    [intros date; apply lookup_empty | reflexivity].
Qed.

Lemma normalize_None `{Host} apiData :
  normalize apiData = None <-> poisoned apiData = true.
Proof.
  unfold normalize. pose proof (groupByDate_spec apiData) as Hg.
  destruct (groupByDate apiData); [|done].
  destruct Hg as [Hg _]. rewrite Hg. split; discriminate.
Qed.

Lemma normalize_lookup `{Host} apiData slots date :
  normalize apiData = Some slots ->
  slots !! date = sortSlots <$> bucketOf date (returnedSlots apiData).
Proof.
  unfold normalize. pose proof (groupByDate_spec apiData) as Hg.
  destruct (groupByDate apiData) as [grouped|]; [|discriminate].
  intros [= <-]. destruct Hg as [_ Hg]. by rewrite lookup_fmap, Hg.
Qed.

Lemma bucketOf_Some date visited l :
  bucketOf date visited = Some l -> l = onDate date visited /\ l <> [].
Proof. unfold bucketOf. destruct (onDate date visited); [discriminate|]. by intros [= <-]. Qed.

(** What a stored date holds: the slots of that date, sorted; there is at
    least one. *)
Lemma normalize_bucket `{Host} apiData slots date l :
  normalize apiData = Some slots -> slots !! date = Some l ->
  l = sortSlots (onDate date (returnedSlots apiData))
  /\ onDate date (returnedSlots apiData) <> [].
Proof.
  intros Hn. rewrite (normalize_lookup _ _ _ Hn).
  destruct (bucketOf date _) as [l0|] eqn:E; [|discriminate].
  intros [= <-]. by apply bucketOf_Some in E as [-> Hne].
Qed.




(** The map of an answer: every date holds a list that is not empty, of
    slots of that date. *)
Lemma normalize_wellKeyed `{Host} apiData slots :
  normalize apiData = Some slots -> wellKeyed slots.
Proof.
  intros Hn date l Hl.
  destruct (normalize_bucket _ _ _ _ Hn Hl) as [-> Hne]. split.
  - intros Hnil. apply Hne. apply Permutation_nil_r. rewrite <- Hnil.
    symmetry. apply sortSlots_perm.
  - rewrite sortSlots_perm. apply Forall_forall.
    intros s Hs%list_elem_of_filter. tauto.
Qed.

(** ** The availability effect and the requests in flight *)

Section FetchOrdering.
Context `{Host}.

Lemma fetchAvailabilityStart_slots p st :
  availableSlots (fetchAvailabilityStart p st).1 = availableSlots st.
Proof. unfold fetchAvailabilityStart. by destruct (_ || _). Qed.

Lemma runEffect_slots p st flying :
  availableSlots (ui (runEffect p st flying)) = availableSlots st.
Proof.
  unfold runEffect. pose proof (fetchAvailabilityStart_slots p st) as Hs.
  by destruct (fetchAvailabilityStart p st).
Qed.

Lemma autoSelect_slots p st : availableSlots (autoSelect p st) = availableSlots st.
Proof. unfold autoSelect. destruct (activeServices p); [done|]. by destruct (truthy _). Qed.

Lemma autoSelect_loading p st : loading (autoSelect p st) = loading st.
Proof. unfold autoSelect. destruct (activeServices p); [done|]. by destruct (truthy _). Qed.

Lemma autoSelect_selected p st :
  truthy (selectedServiceId st) = true -> autoSelect p st = st.
Proof. intros Ht. unfold autoSelect. destruct (activeServices p); [done|]. by rewrite Ht. Qed.

(** One event changes the map only when it is a request resolving with a
    readable success. *)
Lemma step_slots sys e :
  availableSlots (ui (step sys e))
  = match committed sys e with
    | Some slots => slots
    | None => availableSlots (ui sys)
    end.
Proof.
  destruct e as [serviceId| | |p|n outcome]; cbn.
  - destruct (_ || _); [reflexivity|]. by rewrite runEffect_slots.
  - destruct (loading _); [reflexivity|]. rewrite runEffect_slots.
    unfold navigateToNextMonth. by destruct (_ =? _).
  - destruct (loading _); [reflexivity|]. rewrite runEffect_slots.
    unfold navigateToPreviousMonth. by destruct (_ =? _).
  - destruct (_ || _); [rewrite runEffect_slots|]; apply autoSelect_slots.
  - destruct (inFlight sys !! n); [|by destruct outcome].
    destruct outcome as [message|response]; cbn; [reflexivity|].
    unfold fetchAvailabilityDone.
    destruct (ok response); [|reflexivity].
    destruct (json response) as [message|apiData]; [reflexivity|].
    by destruct (normalize apiData).
Qed.

(** C1, as the code has it. Whatever the order in which the requests
    left, the map holds the answer of the request that resolved last with
    a readable success whose grouping went through; a request that left
    earlier and resolves later replaces the answer of one that left after
    it. *)
Theorem availability_last_completion_wins (events : list Event) (sys : System) :
  availableSlots (ui (run sys events))
  = match lastCommitted sys events with
    | Some slots => slots
    | None => availableSlots (ui sys)
    end.
Proof.
  revert sys. induction events as [|e events IH]; intros sys; cbn; [reflexivity|].
  unfold run in IH. rewrite IH.
  destruct (lastCommitted (step sys e) events); [reflexivity|].
  apply step_slots.
Qed.

(** As long as no request resolves with an answer that is stored, the
    map is the one from before. *)
Lemma run_keeps_slots events sys :
  lastCommitted sys events = None ->
  availableSlots (ui (run sys events)) = availableSlots (ui sys).
Proof.
  revert sys. induction events as [|e events IH]; intros sys Hnone; cbn; [reflexivity|].
  cbn in Hnone. destruct (lastCommitted (step sys e) events) eqn:E; [discriminate|].
  unfold run in IH. rewrite (IH _ E), step_slots. by rewrite Hnone.
Qed.

Lemma runEffect_loading p st flying :
  loading st = true -> loading (ui (runEffect p st flying)) = true.
Proof.
  unfold runEffect, fetchAvailabilityStart. by destruct (_ || _).
Qed.

Lemma runEffect_service p st flying :
  selectedServiceId (ui (runEffect p st flying)) = selectedServiceId st.
Proof.
  unfold runEffect, fetchAvailabilityStart. by destruct (_ || _).
Qed.

(** While the loading flag is up and no request resolves, the flag, the
    selected service and the map stay as they are. *)
Lemma loading_persists events sys :
  loading (ui sys) = true ->
  truthy (selectedServiceId (ui sys)) = true ->
  forallb (fun e => negb (isResolution e)) events = true ->
  loading (ui (run sys events)) = true
  /\ selectedServiceId (ui (run sys events)) = selectedServiceId (ui sys)
  /\ availableSlots (ui (run sys events)) = availableSlots (ui sys).
Proof.
  revert sys. induction events as [|e events IH]; intros sys Hload Hsel Hev; cbn; [done|].
  cbn in Hev. apply andb_prop in Hev as [He Hev].
  assert (Hstep : loading (ui (step sys e)) = true
                  /\ selectedServiceId (ui (step sys e)) = selectedServiceId (ui sys)
                  /\ availableSlots (ui (step sys e)) = availableSlots (ui sys)).
  { destruct e as [serviceId| | |p|n outcome]; cbn in *; try discriminate;
      rewrite ?Hload; cbn; try done.
    rewrite (autoSelect_selected _ _ Hsel).
    destruct (_ || _); [|done].
    by rewrite runEffect_loading, runEffect_service, runEffect_slots. }
  destruct Hstep as (H1 & H2 & H3).
  destruct (IH (step sys e) H1) as (H4 & H5 & H6); [by rewrite H2|done|].
  unfold run in *. rewrite H4, H5, H6. done.
Qed.

(** C2, as the code has it. Selecting another service leaves the map as
    it is: the slots of the service shown before stay stored, until a
    request resolves with an answer that is stored.  The request for the new
    service leaves and the loading flag goes up, and until a request
    resolves the grid area shows the loading indicator and not the
    calendar. *)
Theorem service_switch_keeps_map_behind_loading
    (sys : System) (serviceId : string) (today : Date) (events : list Event) :
  loading (ui sys) = false ->
  serviceId <> selectedServiceId (ui sys) ->
  truthy serviceId = true ->
  activeServices (props sys) <> [] ->
  forallb (fun e => negb (isResolution e)) events = true ->
  let switched := step sys (SelectService serviceId) in
  let later := run switched events in
  inFlight switched
  = inFlight sys
    ++ [availabilityRequest (props sys) (setSelectedServiceId serviceId (ui sys))]
  /\ selectedServiceId (ui later) = serviceId
  /\ availableSlots (ui later) = availableSlots (ui sys)
  /\ loading (ui later) = true
  /\ renderGrid (props later) today (ui later) = LoadingView
  /\ (forall more, lastCommitted switched more = None ->
        availableSlots (ui (run switched more)) = availableSlots (ui sys)).
Proof.
  intros Hload Hne Htruthy Hactive Hev switched later.
  assert (Hsw : switched
                = mkSystem (props sys)
                    (setError None (setLoading true (setSelectedServiceId serviceId (ui sys))))
                    (inFlight sys
                     ++ [availabilityRequest (props sys)
                           (setSelectedServiceId serviceId (ui sys))])).
  { unfold switched; cbn. rewrite Hload; cbn.
    destruct (String.eqb_spec serviceId (selectedServiceId (ui sys))); [done|].
    unfold runEffect, fetchAvailabilityStart; cbn. rewrite Htruthy; cbn.
    destruct (activeServices (props sys)); [done|]. reflexivity. }
  destruct (loading_persists events switched) as (H1 & H2 & H3);
    [by rewrite Hsw|by rewrite Hsw|done|].
  fold later in H1, H2, H3.
  repeat split.
  - by rewrite Hsw.
  - rewrite H2. by rewrite Hsw.
  - rewrite H3. by rewrite Hsw.
  - exact H1.
  - unfold renderGrid. by rewrite H1.
  - intros more Hmore. rewrite (run_keeps_slots _ _ Hmore). by rewrite Hsw.
Qed.

End FetchOrdering.

(** The claim C1 fails on the code: the first request leaves for the month,
    the view is switched to the week and a second request leaves while the
    first is in flight; the second resolves, then the first, and the map
    holds the answer of the first. *)
Lemma stale_fetch_overwrites_fresh :
  let sys0 := mount Demo.defaultProps Demo.today in
  let sys1 := @step UtcHost.host sys0 (Configure (Demo.withView "week" Demo.defaultProps)) in
  let sys2 := @step UtcHost.host sys1 (FetchResolves 1 (Demo.success Demo.answerB)) in
  let sys3 := @step UtcHost.host sys2 (FetchResolves 0 (Demo.success Demo.answerA)) in
  length (inFlight sys0) = 1%nat
  /\ length (inFlight sys1) = 2%nat
  /\ inFlight sys1 !! 0%nat = inFlight sys0 !! 0%nat
  /\ (toDate <$> inFlight sys1 !! 1%nat) <> (toDate <$> inFlight sys1 !! 0%nat)
  /\ Some (availableSlots (ui sys2)) = @normalize UtcHost.host Demo.answerB
  /\ Some (availableSlots (ui sys3)) = @normalize UtcHost.host Demo.answerA
  /\ Some (availableSlots (ui sys3)) <> @normalize UtcHost.host Demo.answerB.
Proof.
  cbv zeta. repeat split; try (vm_compute; reflexivity).
  - vm_compute. discriminate.
  - intros Heq.
    apply (f_equal (fun m => m ≫= fun slots => slots !! "2025-06-12")) in Heq.
    vm_compute in Heq. discriminate.
Qed.

(** The same with a change of service: once the second request has
    resolved the selector is enabled again although the first is still in
    flight; the answer for the service selected then is replaced by the late
    answer for the service selected before. *)
Example stale_fetch_of_previous_service :
  let sys := @run UtcHost.host (mount Demo.defaultProps Demo.today)
    [Configure (Demo.withView "week" Demo.defaultProps);
     FetchResolves 1 (Demo.success Demo.answerB);
     SelectService "Service 2";
     FetchResolves 1 (Demo.success Demo.answerC);
     FetchResolves 0 (Demo.success Demo.answerA)] in
  selectedServiceId (ui sys) = "Service 2"
  /\ loading (ui sys) = false
  /\ Some (availableSlots (ui sys)) = @normalize UtcHost.host Demo.answerA.
Proof. vm_compute. auto. Qed.

Lemma service_switch_keeps_map_behind_loading_witness :
  let sys := mkSystem Demo.defaultProps Demo.browsing [] in
  let later := @run UtcHost.host (@step UtcHost.host sys (SelectService "Service 2")) [NextMonth] in
  availableSlots (ui later) = availableSlots Demo.browsing
  /\ renderGrid (props later) Demo.today (ui later) = LoadingView.
Proof.
  intros sys later.
  destruct (@service_switch_keeps_map_behind_loading UtcHost.host sys "Service 2"
              Demo.today [NextMonth]) as (_ & _ & H3 & _ & H5 & _);
    [reflexivity | discriminate | reflexivity | discriminate | reflexivity |].
  split; [exact H3 | exact H5].
Defined.

(** The claim C2 fails on the code: after the switch, with the new request
    in flight, the map still holds the slots of the service shown before. *)
Lemma service_switch_does_not_clear_map :
  let sys := mkSystem Demo.defaultProps Demo.browsing [] in
  let switched := @step UtcHost.host sys (SelectService "Service 2") in
  selectedServiceId (ui switched) = "Service 2"
  /\ length (inFlight switched) = 1%nat
  /\ Some (availableSlots (ui switched)) = @normalize UtcHost.host Demo.answerA
  /\ availableSlots (ui switched) !! "2025-06-20" <> None
  /\ availableSlots (ui switched) <> ∅.
Proof.
  cbv zeta. repeat split; try (vm_compute; reflexivity).
  - vm_compute. discriminate.
  - intros Heq. apply (f_equal (fun m => m !! "2025-06-20")) in Heq.
    vm_compute in Heq. discriminate.
Qed.

(** C10. A map that a fetch stores is the map of an answer whose grouping
    went through: in it every date holds a list that is not empty, and
    every slot of that list has a start time whose date part is that date.
    The component starts with the empty map and nothing else writes the
    map, so this holds of the map at any time, after any events. *)
Theorem stored_dates_nonempty_and_match `{Host} :
  (forall (response : Response ApiData) (apiData : ApiData)
          (slots : gmap string (list TimeSlot)) (st : State),
      ok response = true -> json response = inr apiData ->
      normalize apiData = Some slots ->
      availableSlots (fetchAvailabilityDone (Resolved response) st) = slots
      /\ wellKeyed slots)
  /\ (forall (p : Props) (today : Date) (events : list Event),
        wellKeyed (availableSlots (ui (run (mount p today) events)))).
Proof.
  split.
  - intros response apiData slots st Hok Hjson Hn.
    unfold fetchAvailabilityDone. rewrite Hok, Hjson, Hn.
    split; [reflexivity | by apply (normalize_wellKeyed apiData)].
  - intros p today events.
    assert (Hgen : forall sys, wellKeyed (availableSlots (ui sys)) ->
                               wellKeyed (availableSlots (ui (run sys events)))).
    { induction events as [|e events IH]; intros sys Hsys; [exact Hsys|].
      apply IH. rewrite step_slots.
      destruct (committed sys e) as [slots|] eqn:Hc; [|exact Hsys].
      destruct e as [| | | |n [message|response]]; try discriminate.
      cbn in Hc. destruct (inFlight sys !! n); [|discriminate].
      destruct (ok response); [|discriminate].
      destruct (json response) as [message|apiData]; [discriminate|].
      by apply (normalize_wellKeyed apiData). }
    apply Hgen. unfold mount. rewrite runEffect_slots. intros date l Hl.
    cbn in Hl. by rewrite lookup_empty in Hl.
Qed.

Lemma stored_dates_nonempty_and_match_witness :
  let l := [mkTimeSlot "2025-06-03T09:00:00Z" (Some "2025-06-03T11:00:00Z") "boat-1"] in
  let st := @fetchAvailabilityDone UtcHost.host (Demo.success Demo.answerA)
              (ui (mount Demo.defaultProps Demo.today)) in
  availableSlots st !! "2025-06-03" = Some l
  /\ l <> []
  /\ Forall (fun s => slotDate (startTime s) = "2025-06-03") l.
Proof.
  intros l st.
  assert (Hl : availableSlots st !! "2025-06-03" = Some l) by (vm_compute; reflexivity).
  split; [exact Hl|].
  destruct (proj1 (@stored_dates_nonempty_and_match UtcHost.host)
              (mkResponse true 200 "" (inr Demo.answerA)) Demo.answerA Demo.slotsA
              (ui (mount Demo.defaultProps Demo.today)) eq_refl eq_refl eq_refl)
    as [Hst Hkeyed].
  apply (Hkeyed "2025-06-03" l). rewrite <- Hst. exact Hl.
Defined.

(** ** Strings sent to the provider *)

Lemma trimStart_head s c s' : trimStart s = String c s' -> isWhiteSpace c = false.
Proof.
  induction s as [|a s IH]; cbn; [discriminate|].
  destruct (isWhiteSpace a) eqn:E; [exact IH|]. by intros [= <- _].
Qed.

Lemma trimEnd_nonblank_tail s c : trimEnd s = String c EmptyString -> isWhiteSpace c = false.
Proof.
  revert c. induction s as [|a s IH]; intros c; cbn; [discriminate|].
  destruct (trimEnd s) as [|b t]; [|destruct t; discriminate].
  destruct (isWhiteSpace a) eqn:E; [discriminate|]. by intros [= <-].
Qed.

Lemma trim_all_blank s : trim s = "" -> trimStart s = "".
Proof.
  unfold trim. destruct (trimStart s) as [|a t] eqn:E; [reflexivity|].
  apply trimStart_head in E. cbn.
  destruct (trimEnd t); [by rewrite E | discriminate].
Qed.

Lemma trimStart_empty_iff s : trimStart s = "" <-> allWhiteSpace s = true.
Proof.
  induction s as [|c s IH]; cbn; [done|].
  destruct (isWhiteSpace c); cbn; [exact IH|]. split; discriminate.
Qed.

Lemma trim_empty_iff s : trim s = "" <-> allWhiteSpace s = true.
Proof.
  rewrite <- trimStart_empty_iff. split; [apply trim_all_blank|].
  unfold trim. by intros ->.
Qed.

Lemma lowerChar_idempotent c : lowerChar (lowerChar c) = lowerChar c.
Proof. destruct c as [[] [] [] [] [] [] [] []]; reflexivity. Qed.

Lemma toLowerCase_idempotent s : toLowerCase (toLowerCase s) = toLowerCase s.
Proof. induction s as [|c s IH]; cbn; [reflexivity|]. by rewrite lowerChar_idempotent, IH. Qed.

Lemma truthy_true s : truthy s = true <-> s <> "".
Proof. destruct s; cbn; split; congruence. Qed.

(** ** The payloads *)

Lemma optionalField_Some field value v :
  optionalField field value = Some v
  <-> show field = true /\ value <> "" /\ v = trim value.
Proof.
  unfold optionalField. rewrite <- truthy_true.
  destruct (show field), (truthy value); cbn; split;
    try discriminate; try (intros (? & ? & ?); discriminate).
  - by intros [= <-].
  - by intros (_ & _ & ->).
Qed.

(** C9, as the code has it. The client block of the primary payload holds
    an optional field (address, city, zipCode, company) iff the field is
    shown and the value typed is not the empty string, and holds it trimmed:
    the test is made before trimming.  The email is trimmed, then
    lower-cased.  The total is the decimal text of basePrice + apaPrice when
    prices are shown, and the text 0 otherwise. *)
Theorem client_payload_fields
    (p : Props) (st : State) (service : Service) (slot : TimeSlot) (now : string) :
  let payload := clientPayload p st service slot now in
  let info := customerInfo st in
  (forall v, cl_address (cp_client payload) = Some v
             <-> show (ff_address (formFields p)) = true
                 /\ ci_address info <> "" /\ v = trim (ci_address info))
  /\ (forall v, cl_city (cp_client payload) = Some v
                <-> show (ff_city (formFields p)) = true
                    /\ ci_city info <> "" /\ v = trim (ci_city info))
  /\ (forall v, cl_zipCode (cp_client payload) = Some v
                <-> show (ff_zipCode (formFields p)) = true
                    /\ ci_zipCode info <> "" /\ v = trim (ci_zipCode info))
  /\ (forall v, cl_company (cp_client payload) = Some v
                <-> show (ff_company (formFields p)) = true
                    /\ ci_company info <> "" /\ v = trim (ci_company info))
  /\ cl_email (cp_client payload) = toLowerCase (trim (ci_email info))
  /\ total_amount (metaData payload)
     = (if showPrices (features p) then pretty (basePrice service + apaPrice service)
        else "0").
Proof.
  cbn. repeat apply conj; try reflexivity; intros v; apply optionalField_Some.
Qed.

(** The claim C9 fails on the code: the address field is shown, the
    customer typed one space; the value is empty after trimming, and the
    client block carries the key all the same, with the empty text. *)
Lemma blank_address_is_sent :
  let p := Demo.withFormFields Demo.addressShown Demo.defaultProps in
  let st := Demo.formOpen Demo.customerBlankAddress in
  let payload := clientPayload p st (service1 p) Demo.pickedSlot "2025-06-11T10:00:00.000Z" in
  show (ff_address (formFields p)) = true
  /\ trim (ci_address (customerInfo st)) = ""
  /\ cl_address (cp_client payload) = Some "".
Proof. vm_compute. auto. Qed.

Example ex_client_payload :
  let p := Demo.defaultProps in
  let payload := clientPayload p (Demo.formOpen Demo.customer) (service1 p)
                   Demo.pickedSlot "2025-06-11T10:00:00.000Z" in
  cl_email (cp_client payload) = "ada@example.com"
  /\ cl_address (cp_client payload) = None
  /\ total_amount (metaData payload) = "400".
Proof. vm_compute. auto. Qed.

(** ** The submission *)

Lemma requestsOf_app l1 l2 : requestsOf (l1 ++ l2) = requestsOf l1 ++ requestsOf l2.
Proof. apply omap_app. Qed.

Lemma requestsOf_conclude apiUsed response sent st :
  requestsOf (conclude apiUsed response sent st).2 = requestsOf sent.
Proof.
  unfold conclude, failWith.
  destruct (negb (ok response)); cbn; [by rewrite requestsOf_app, app_nil_r|].
  destruct (json response) as [message|bookingData]; cbn;
    rewrite requestsOf_app; [by rewrite app_nil_r|].
  destruct (extractPaymentUrl bookingData) as [url|]; [|by rewrite app_nil_r].
  destruct (truthy url); by rewrite app_nil_r.
Qed.

(** A submission the checks refuse alerts and does nothing else. *)
Lemma validation_blocks_submission p now1 now2 net st message :
  validationAlert p st = Some message ->
  handleBookingSubmit p now1 now2 net st = (st, [Alert message]).
Proof. intros Hv. unfold handleBookingSubmit. by rewrite Hv. Qed.

Lemma required_terms_block p st :
  show (terms (checkboxes p)) = true -> required (terms (checkboxes p)) = true ->
  termsAccepted (customerInfo st) = false ->
  validationAlert p st = Some "You must accept the terms and conditions".
Proof. intros H1 H2 H3. unfold validationAlert. by rewrite H1, H2, H3. Qed.

Lemma required_privacy_block p st :
  show (privacy (checkboxes p)) = true -> required (privacy (checkboxes p)) = true ->
  privacyAccepted (customerInfo st) = false ->
  exists message, validationAlert p st = Some message.
Proof.
  intros H1 H2 H3. unfold validationAlert. rewrite H1, H2, H3.
  destruct (_ && _ && _); eauto.
Qed.

(** A shown and required field left blank makes the checks fail. *)
Lemma required_blank_field_blocks p st fieldName field :
  (fieldName, field) ∈ formFieldEntries (formFields p) ->
  show field = true -> required field = true ->
  isBlank (customerValue fieldName (customerInfo st)) = true ->
  exists message, validationAlert p st = Some message.
Proof.
  intros Hin Hs Hr Hb. unfold validationAlert.
  destruct (_ && _ && _); [eauto|].
  destruct (_ && _ && _); [eauto|].
  destruct (List.find _ _) as [entry|] eqn:E; [eauto|].
  exfalso.
  assert (Hreq : In (fieldName, field) (requiredFields p)).
  { unfold requiredFields. apply filter_In. split.
    - by apply list_elem_of_In.
    - cbn [snd]. by rewrite Hs, Hr. }
  pose proof (find_none _ _ E _ Hreq) as Hn.
  cbn beta in Hn. cbn [fst] in Hn. rewrite Hb in Hn. discriminate Hn.
Qed.

Example ex_blank_email_rejected (net : Network) :
  handleBookingSubmit Demo.defaultProps "t1" "t2" net
    (Demo.formOpen Demo.customerNoEmail)
  = (Demo.formOpen Demo.customerNoEmail, [Alert "Email is required"]).
Proof. apply validation_blocks_submission. vm_compute. reflexivity. Qed.

(** Once the checks pass, the first thing sent is the client request. *)
Lemma submission_starts_with_client p now1 now2 net st slot service :
  validationAlert p st = None ->
  selectedTimeSlot st = Some slot ->
  findService p st = Some service ->
  exists rest,
    (handleBookingSubmit p now1 now2 net st).2
    = Request (PostClient (clientPayload p st service slot now1)) :: rest.
Proof.
  intros Hv Hs Hf. unfold handleBookingSubmit. rewrite Hv, Hs, Hf.
  destruct (net _) as [message|r1]; [cbn; eauto|].
  destruct (negb (ok r1)).
  - destruct (net _) as [message|r2]; [cbn; eauto|].
    unfold conclude, failWith.
    destruct (negb (ok r2)); [cbn; eauto|].
    destruct (json r2); cbn; eauto.
  - unfold conclude, failWith.
    destruct (negb (ok r1)); [cbn; eauto|].
    destruct (json r1); cbn; eauto.
Qed.

(** The handler by itself has no check for the newsletter box: called
    with the box shown, required and unticked, it sends the client request.
    The form does not let this submission reach it. *)
Example handler_has_no_newsletter_check (now1 now2 : string) (net : Network) :
  let p := Demo.withCheckboxes Demo.newsletterRequired Demo.defaultProps in
  let st := Demo.formOpen Demo.customer in
  validationAlert p st = None
  /\ (exists rest,
        (handleBookingSubmit p now1 now2 net st).2
        = Request (PostClient (clientPayload p st (service1 p) Demo.pickedSlot now1)) :: rest)
  /\ @submitForm UtcHost.host p now1 now2 net st = Blocked "newsletterAccepted".
Proof.
  intros p st. split; [reflexivity|]. split; [|reflexivity].
  apply submission_starts_with_client; reflexivity.
Qed.

(** *** The browser's check of the form *)

Lemma isLineBreak_white c : isLineBreak c = true -> isWhiteSpace c = true.
Proof. destruct c as [[] [] [] [] [] [] [] []]; vm_compute; auto. Qed.

Lemma isAsciiWhiteSpace_white c : isAsciiWhiteSpace c = true -> isWhiteSpace c = true.
Proof. destruct c as [[] [] [] [] [] [] [] []]; vm_compute; auto. Qed.

Lemma stripLineBreaks_white s :
  allWhiteSpace (stripLineBreaks s) = true -> allWhiteSpace s = true.
Proof.
  induction s as [|c s IH]; cbn; [done|].
  destruct (isLineBreak c) eqn:E.
  - intros Hs. by rewrite (isLineBreak_white c E), IH.
  - cbn. intros [-> Hs]%andb_prop. by rewrite IH.
Qed.

Lemma stripStart_white s : stripStart s = "" -> allWhiteSpace s = true.
Proof.
  induction s as [|c s IH]; cbn; [done|].
  destruct (isAsciiWhiteSpace c) eqn:E; [|discriminate].
  intros Hs. by rewrite (isAsciiWhiteSpace_white c E), IH.
Qed.

Lemma stripStart_head s c s' : stripStart s = String c s' -> isAsciiWhiteSpace c = false.
Proof.
  induction s as [|a s IH]; cbn; [discriminate|].
  destruct (isAsciiWhiteSpace a) eqn:E; [exact IH|]. by intros [= <- _].
Qed.

Lemma strip_all_blank s : stripEnd (stripStart s) = "" -> stripStart s = "".
Proof.
  destruct (stripStart s) as [|a t] eqn:E; [reflexivity|].
  apply stripStart_head in E. cbn.
  destruct (stripEnd t); [by rewrite E | discriminate].
Qed.

(** A text that the element holds as the empty string is blank once
    trimmed. *)
Lemma sanitized_empty_blank name kind needed text checked :
  sanitized (mkControl name kind needed text checked) = "" -> trim text = "".
Proof.
  unfold sanitized; cbn [control_kind control_value].
  intros Hs. apply trim_empty_iff.
  destruct kind.
  - apply stripLineBreaks_white, stripStart_white, strip_all_blank, Hs.
  - apply stripLineBreaks_white. by rewrite Hs.
  - apply stripLineBreaks_white. by rewrite Hs.
  - by rewrite Hs.
  - by rewrite Hs.
Qed.

(** The entries of the form are the nine fields, each with its text. *)
Lemma formFieldEntries_text (ff : FormFields) (info : CustomerInfo) fieldName field :
  (fieldName, field) ∈ formFieldEntries ff ->
  customerValue fieldName info = Text (valueOf fieldName info)
  /\ (controlKind fieldName = EmailInput ->
      fieldName = "email" /\ field = ff_email ff
      /\ valueOf fieldName info = ci_email info).
Proof.
  unfold formFieldEntries. intros Hin.
  repeat (apply elem_of_cons in Hin as [[= -> ->]|Hin];
          [split; [reflexivity | cbn; try discriminate; auto]|]).
  by apply elem_of_nil in Hin.
Qed.

Lemma fieldControls_elem (p : Props) (st : State) (c : Control) :
  c ∈ fieldControls p st
  <-> exists fieldName field,
        (fieldName, field) ∈ formFieldEntries (formFields p) /\ show field = true
        /\ c = mkControl fieldName (controlKind fieldName) (required field)
                 (valueOf fieldName (customerInfo st)) false.
Proof.
  unfold fieldControls. rewrite list_elem_of_fmap. split.
  - intros ([fieldName field] & -> & Hin).
    apply list_elem_of_In, filter_In in Hin as [Hin Hshow].
    exists fieldName, field. split; [by apply list_elem_of_In|]. by split.
  - intros (fieldName & field & Hin & Hshow & ->).
    exists (fieldName, field). split; [reflexivity|].
    apply list_elem_of_In, filter_In. split; [by apply list_elem_of_In | exact Hshow].
Qed.

Lemma checkboxControls_elem (p : Props) (st : State) (c : Control) :
  c ∈ checkboxControls p st
  <-> exists boxName box,
        (boxName, box) ∈ checkboxEntries (checkboxes p) /\ show box = true
        /\ c = mkControl (boxName +:+ "Accepted") CheckboxInput (required box) ""
                 (acceptedOf boxName (customerInfo st)).
Proof.
  unfold checkboxControls. rewrite list_elem_of_fmap. split.
  - intros ([boxName box] & -> & Hin).
    apply list_elem_of_In, filter_In in Hin as [Hin Hshow].
    exists boxName, box. split; [by apply list_elem_of_In|]. by split.
  - intros (boxName & box & Hin & Hshow & ->).
    exists (boxName, box). split; [reflexivity|].
    apply list_elem_of_In, filter_In. split; [by apply list_elem_of_In | exact Hshow].
Qed.

(** A box that fails is a control that the browser refuses, and the other
    way round. *)
Lemma failingBox_invalid `{Host} (p : Props) (st : State) boxName box :
  (boxName, box) ∈ checkboxEntries (checkboxes p) -> show box = true ->
  (invalid (mkControl (boxName +:+ "Accepted") CheckboxInput (required box) ""
              (acceptedOf boxName (customerInfo st))) = true
   <-> failingBox p st boxName).
Proof.
  unfold checkboxEntries, failingBox, invalid; cbn [control_kind control_required control_checked].
  intros Hin Hshow.
  repeat (apply elem_of_cons in Hin as [[= -> ->]|Hin];
          [cbn [acceptedOf String.eqb Ascii.eqb Bool.eqb]; rewrite Hshow;
           destruct (required _), (_ (customerInfo st));
           cbn; intuition (try discriminate; auto)|]).
  by apply elem_of_nil in Hin.
Qed.

(** C3, as the code has it. The form is open and its button enabled; some
    field that is shown and required is blank once trimmed, or some box that
    is shown and required is not ticked.  Then a submission sends nothing and leaves the
    state as it is, and what the customer is shown names a control that
    fails: either the browser stops the submission and points at a
    required field that is blank, at a required box that is not ticked, or
    at the e-mail field when its text is no address; or the handler is
    called and alerts the label of a required field that is blank. *)
Theorem failed_validation_blocks_submission `{Host}
    (p : Props) (now1 now2 : string) (net : Network) (st : State) :
  bookingFormOpen st = true ->
  isBooking st = false ->
  (exists fieldName field, failingField p st fieldName field)
  \/ (exists boxName, failingBox p st boxName) ->
  let submission := submitForm p now1 now2 net st in
  stateAfter submission st = st
  /\ requestsOf (effectsOf submission) = []
  /\ match submission with
     | Blocked control =>
         (exists field, failingField p st control field)
         \/ (exists boxName, control = boxName +:+ "Accepted" /\ failingBox p st boxName)
         \/ (control = "email" /\ malformedEmail p st)
     | Handled outcome =>
         exists fieldName field,
           outcome = (st, [Alert (label field +:+ " is required")])
           /\ failingField p st fieldName field
     | NotSubmitted => False
     end.
Proof.
  intros Hopen Hbooking Hfails submission.
  unfold submission, submitForm. rewrite Hopen, Hbooking. cbn [negb orb].
  destruct (List.find invalid (controls p st)) as [c|] eqn:E.
  - (* the browser stops the submission *)
    cbn [stateAfter effectsOf requestsOf omap].
    do 2 (split; [reflexivity|]).
    apply find_some in E as [Hin Hinv]. apply list_elem_of_In in Hin.
    unfold controls in Hin. apply elem_of_app in Hin as [Hin|Hin].
    + apply fieldControls_elem in Hin as (fieldName & field & Hentry & Hshow & ->).
      cbn [control_name].
      destruct (formFieldEntries_text (formFields p) (customerInfo st) _ _ Hentry)
        as [Htext Hemail].
      unfold invalid in Hinv; cbn [control_kind control_required] in Hinv.
      destruct (controlKind fieldName) eqn:Hkind.
      * destruct (Hemail eq_refl) as (-> & -> & Hvalue).
        destruct (String.eqb_spec
                    (sanitized (mkControl "email" EmailInput (required (ff_email (formFields p)))
                                  (valueOf "email" (customerInfo st)) false)) "")
          as [Hempty|Hfull].
        -- left. exists (ff_email (formFields p)).
           split; [exact Hentry|]. split; [exact Hshow|]. split; [exact Hinv|].
           eexists. split; [exact Htext|].
           eapply sanitized_empty_blank, Hempty.
        -- right. right. split; [reflexivity|]. split; [exact Hshow|].
           eexists. split; [reflexivity|].
           unfold sanitized in Hfull, Hinv; cbn [control_kind control_value] in Hfull, Hinv.
           rewrite Hvalue in Hfull, Hinv.
           split; [exact Hfull|]. by apply negb_true_iff.
      * apply andb_prop in Hinv as [Hreq Hempty%String.eqb_eq].
        left. exists field. split; [exact Hentry|]. split; [exact Hshow|].
        split; [exact Hreq|]. eexists. split; [exact Htext|].
        eapply sanitized_empty_blank, Hempty.
      * apply andb_prop in Hinv as [Hreq Hempty%String.eqb_eq].
        left. exists field. split; [exact Hentry|]. split; [exact Hshow|].
        split; [exact Hreq|]. eexists. split; [exact Htext|].
        eapply sanitized_empty_blank, Hempty.
      * apply andb_prop in Hinv as [Hreq Hempty%String.eqb_eq].
        left. exists field. split; [exact Hentry|]. split; [exact Hshow|].
        split; [exact Hreq|]. eexists. split; [exact Htext|].
        eapply sanitized_empty_blank, Hempty.
      * unfold controlKind in Hkind.
        repeat match type of Hkind with
               | (if ?b then _ else _) = _ => destruct b; try discriminate
               end.
    + apply checkboxControls_elem in Hin as (boxName & box & Hentry & Hshow & ->).
      cbn [control_name]. right. left. exists boxName. split; [reflexivity|].
      by apply (failingBox_invalid p st boxName box Hentry Hshow).
  - (* every control passes: the handler is called *)
    pose proof (find_none _ _ E) as Hvalid.
    assert (Hbox : forall boxName, ~ failingBox p st boxName).
    { intros boxName Hf.
      assert (Hentry : exists box, (boxName, box) ∈ checkboxEntries (checkboxes p)
                                   /\ show box = true).
      { unfold checkboxEntries.
        destruct Hf as [(-> & Hs & _)|[(-> & Hs & _)|(-> & Hs & _)]];
          [exists (terms (checkboxes p)) | exists (privacy (checkboxes p))
          | exists (newsletter (checkboxes p))];
          (split; [|exact Hs]); repeat (first [by left | right]). }
      destruct Hentry as (box & Hentry & Hshow).
      apply (failingBox_invalid p st boxName box Hentry Hshow) in Hf.
      rewrite Hvalid in Hf; [discriminate|].
      apply list_elem_of_In. unfold controls. apply elem_of_app. right.
      apply checkboxControls_elem. eauto. }
    destruct Hfails as [(fieldName & field & Hentry & Hshow & Hreq & text & Htext & Hblank)
                       |[boxName Hf]]; [|by destruct (Hbox boxName)].
    assert (Halert : exists entry,
               validationAlert p st = Some (label entry.2 +:+ " is required")
               /\ failingField p st entry.1 entry.2).
    { unfold validationAlert.
      destruct (show (terms (checkboxes p)) && required (terms (checkboxes p))
                && negb (termsAccepted (customerInfo st))) eqn:Ht.
      { exfalso. apply (Hbox "terms"). left.
        apply andb_prop in Ht as [[? ?]%andb_prop ?%negb_true_iff]. auto. }
      destruct (show (privacy (checkboxes p)) && required (privacy (checkboxes p))
                && negb (privacyAccepted (customerInfo st))) eqn:Hp.
      { exfalso. apply (Hbox "privacy"). right. left.
        apply andb_prop in Hp as [[? ?]%andb_prop ?%negb_true_iff]. auto. }
      destruct (List.find _ (requiredFields p)) as [entry|] eqn:Ef.
      - exists entry. split; [reflexivity|].
        apply find_some in Ef as [Hin Hb]. unfold requiredFields in Hin.
        apply filter_In in Hin as [Hin [Hs Hr]%andb_prop].
        destruct entry as [name' field']; cbn [fst snd] in *.
        split; [by apply list_elem_of_In|]. split; [exact Hs|]. split; [exact Hr|].
        unfold isBlank in Hb. destruct (customerValue name' _) as [text'|]; [|discriminate].
        exists text'. split; [reflexivity|]. by destruct (trim text').
      - exfalso.
        assert (Hin : In (fieldName, field) (requiredFields p)).
        { unfold requiredFields. apply filter_In. split; [by apply list_elem_of_In|].
          cbn [snd]. by rewrite Hshow, Hreq. }
        pose proof (find_none _ _ Ef _ Hin) as Hn. cbn [fst] in Hn.
        rewrite Htext in Hn. cbn in Hn. rewrite Hblank in Hn. discriminate. }
    destruct Halert as ([name' field'] & Halert & Hfailing).
    rewrite (validation_blocks_submission _ _ _ _ _ _ Halert).
    cbn [stateAfter effectsOf requestsOf omap fst snd].
    do 2 (split; [reflexivity|]). eauto.
Qed.

(** The newsletter box is shown and required and the customer left it
    unticked: the browser points at the box and nothing is sent.  The same
    with the required e-mail left blank. *)
Lemma failed_validation_blocks_submission_witness :
  let p := Demo.withCheckboxes Demo.newsletterRequired Demo.defaultProps in
  let st := Demo.formOpen Demo.customer in
  let submission := @submitForm UtcHost.host p "t1" "t2" Demo.merchantOnly st in
  failingBox p st "newsletter"
  /\ submission = Blocked "newsletterAccepted"
  /\ stateAfter submission st = st
  /\ requestsOf (effectsOf submission) = [].
Proof.
  intros p st submission.
  assert (Hbox : failingBox p st "newsletter").
  { right. right. repeat split. }
  destruct (@failed_validation_blocks_submission UtcHost.host p "t1" "t2"
              Demo.merchantOnly st eq_refl eq_refl (or_intror (ex_intro _ "newsletter" Hbox)))
    as (Hstate & Hrequests & _).
  split; [exact Hbox|]. split; [reflexivity|]. split; [exact Hstate | exact Hrequests].
Defined.

(** The claim C3 fails on the code in what the customer is shown: the
    newsletter box, shown and required, is not ticked and is the only thing
    that fails the validation of the configuration; the customer typed a
    text that is no address in the e-mail field, which comes first, and the
    browser points at that field and not at the box.  Nothing is sent and
    the state stays as it is. *)
Lemma malformed_email_is_reported_first :
  let p := Demo.withCheckboxes Demo.newsletterRequired Demo.defaultProps in
  let st := Demo.formOpen Demo.customerBadEmail in
  let submission := @submitForm UtcHost.host p "t1" "t2" Demo.merchantOnly st in
  failingBox p st "newsletter"
  /\ (forall boxName, failingBox p st boxName -> boxName = "newsletter")
  /\ (forall fieldName field, ~ failingField p st fieldName field)
  /\ submission = Blocked "email"
  /\ stateAfter submission st = st
  /\ requestsOf (effectsOf submission) = [].
Proof.
  cbv zeta. split; [right; right; repeat split|].
  split.
  { intros boxName [(_ & _ & _ & Hf)|[(_ & Hf & _)|(-> & _)]];
      [discriminate Hf | discriminate Hf | reflexivity]. }
  split; [|repeat split].
  intros fieldName field (Hin & Hshow & Hreq & text & Htext & Hblank).
  unfold formFieldEntries in Hin.
  repeat (apply elem_of_cons in Hin as [[= -> ->]|Hin];
          [first [discriminate Hshow
                 | injection Htext as <-; vm_compute in Hblank; discriminate Hblank]|]).
  by apply elem_of_nil in Hin.
Qed.

Example ex_blank_email_blocked (net : Network) :
  let st := Demo.formOpen Demo.customerNoEmail in
  @submitForm UtcHost.host Demo.defaultProps "t1" "t2" net st = Blocked "email"
  /\ @submitForm UtcHost.host Demo.defaultProps "t1" "t2" net
       (Demo.formOpen Demo.customerSpaces)
     = Handled (Demo.formOpen Demo.customerSpaces, [Alert "Prenom is required"]).
Proof. split; reflexivity. Qed.

(** C4, as the code has it. Once the checks pass, the client request is
    sent exactly once.  When it resolves with a status that is not a
    success, the merchant request is sent next, once; when it resolves with
    a success, or when it fails to connect, nothing else is sent, and in
    the second case the submission ends on the alert of the error. *)
Theorem fallback_follows_failed_status
    (p : Props) (now1 now2 : string) (net : Network) (st : State)
    (slot : TimeSlot) (service : Service) :
  validationAlert p st = None ->
  selectedTimeSlot st = Some slot ->
  findService p st = Some service ->
  let first := PostClient (clientPayload p st service slot now1) in
  let second := PostMerchant (merchantPayload p st service slot now2) in
  let outcome := handleBookingSubmit p now1 now2 net st in
  match net first with
  | Resolved response =>
      if ok response then requestsOf outcome.2 = [first]
      else requestsOf outcome.2 = [first; second]
  | Rejected message =>
      outcome = (setIsBooking false st, [Request first; Alert ("Error: " +:+ message)])
      /\ requestsOf outcome.2 = [first]
  end.
Proof.
  intros Hv Hs Hf first second outcome.
  unfold outcome, handleBookingSubmit. rewrite Hv, Hs, Hf. fold first second.
  destruct (net first) as [message|r1]; [done|].
  destruct (ok r1); cbn [negb].
  - by rewrite requestsOf_conclude.
  - destruct (net second) as [message|r2]; [done|].
    by rewrite requestsOf_conclude.
Qed.

Lemma fallback_follows_failed_status_witness :
  let p := Demo.defaultProps in
  let st := Demo.formOpen Demo.customer in
  requestsOf (handleBookingSubmit p "t1" "t2" Demo.merchantOnly st).2
  = [PostClient (clientPayload p st (service1 p) Demo.pickedSlot "t1");
     PostMerchant (merchantPayload p st (service1 p) Demo.pickedSlot "t2")].
Proof.
  intros p st.
  exact (fallback_follows_failed_status p "t1" "t2" Demo.merchantOnly st
           Demo.pickedSlot (service1 p) eq_refl eq_refl eq_refl).
Defined.

(** The claim C4 fails on the code: the client request fails to connect,
    and no merchant request follows. *)
Lemma network_error_skips_fallback :
  let p := Demo.defaultProps in
  let st := Demo.formOpen Demo.customer in
  let outcome := handleBookingSubmit p "t1" "t2" Demo.offline st in
  outcome.2 = [Request (PostClient (clientPayload p st (service1 p) Demo.pickedSlot "t1"));
               Alert "Error: Failed to fetch"]
  /\ isPrimary <$> requestsOf outcome.2 = [true].
Proof. vm_compute. auto. Qed.




(** C6. Both endpoints answer with a status that is not a success: the
    submission ends on an alert whose text carries the status and the body
    of the merchant answer, the last one received, and the draft is as it
    was: service, date, slot and customer information. *)
Theorem both_failures_keep_draft
    (p : Props) (now1 now2 : string) (net : Network) (st : State)
    (slot : TimeSlot) (service : Service) (r1 r2 : Response BookingData) :
  validationAlert p st = None ->
  selectedTimeSlot st = Some slot ->
  findService p st = Some service ->
  net (PostClient (clientPayload p st service slot now1)) = Resolved r1 ->
  ok r1 = false ->
  net (PostMerchant (merchantPayload p st service slot now2)) = Resolved r2 ->
  ok r2 = false ->
  let outcome := handleBookingSubmit p now1 now2 net st in
  outcome.2
  = [Request (PostClient (clientPayload p st service slot now1));
     Request (PostMerchant (merchantPayload p st service slot now2));
     Alert ("Error: " +:+ ("Booking error: " +:+ pretty (httpStatus r2)
                             +:+ " - " +:+ text r2))]
  /\ outcome.1 = setIsBooking false st
  /\ draft outcome.1 = draft st
  /\ showBookingForm outcome.1 = showBookingForm st
  /\ bookingSuccess outcome.1 = bookingSuccess st.
Proof.
  intros Hv Hs Hf Hn1 Hok1 Hn2 Hok2.
  unfold handleBookingSubmit. rewrite Hv, Hs, Hf, Hn1, Hok1. cbn [negb].
  rewrite Hn2. unfold conclude. rewrite Hok2. cbn. done.
Qed.

Lemma both_failures_keep_draft_witness :
  let p := Demo.defaultProps in
  let st := Demo.formOpen Demo.customer in
  let outcome := handleBookingSubmit p "t1" "t2" Demo.refusing st in
  last outcome.2 = Some (Alert "Error: Booking error: 500 - slot taken")
  /\ draft outcome.1 = draft st.
Proof.
  intros p st outcome.
  destruct (both_failures_keep_draft p "t1" "t2" Demo.refusing st Demo.pickedSlot
              (service1 p)
              (mkResponse false 403 "forbidden" (inl "Unexpected token"))
              (mkResponse false 500 "slot taken" (inl "Unexpected token"))
              eq_refl eq_refl eq_refl eq_refl eq_refl eq_refl eq_refl)
    as (Heff & _ & Hdraft & _).
  fold outcome in Heff, Hdraft.
  split; [rewrite Heff; reflexivity | exact Hdraft].
Defined.

(** * Further properties of the code *)

(** ** Weeks and months of the navigation *)

Lemma startOfWeek_dayNumber today :
  dayNumber (startOfWeek today)
  = dayNumber today - (if getDay today =? 0 then 6 else getDay today - 1).
Proof.
  unfold startOfWeek, setHours; cbn [dayNumber]. rewrite setDate_dayNumber. lia.
Qed.

(** X1. The week the component starts on, and comes back to with the
    button of the current week, begins on the Monday on or before today,
    at midnight; the week of that Monday is the same week. *)
Theorem startOfWeek_is_monday (today : Date) :
  isWeekStart (startOfWeek today)
  /\ dayNumber today - 6 <= dayNumber (startOfWeek today) <= dayNumber today
  /\ startOfWeek (startOfWeek today) = startOfWeek today.
Proof.
  pose proof (startOfWeek_dayNumber today) as Hd.
  pose proof (getDay_range today) as Hr.
  assert (Hmon : getDay (startOfWeek today) = 1).
  { unfold getDay in *. rewrite Hd.
    destruct (Z.eqb_spec ((dayNumber today + 4) mod 7) 0);
      Z.to_euclidean_division_equations; lia. }
  split; [split; [exact Hmon | reflexivity]|].
  split; [revert Hd; destruct (Z.eqb_spec (getDay today) 0); lia|].
  pose proof (startOfWeek_dayNumber (startOfWeek today)) as Hd2.
  rewrite Hmon in Hd2. change (1 =? 0) with false in Hd2. cbv iota in Hd2.
  apply Date_eq; [lia | reflexivity].
Qed.

Lemma setDate_shift_back t k :
  setDate (setDate t (getDate t + k)) (getDate (setDate t (getDate t + k)) - k) = t.
Proof.
  apply Date_eq; [|reflexivity].
  rewrite !setDate_dayNumber. lia.
Qed.

(** X2. The week buttons move the start of the week by seven days exactly
    and keep its weekday and its time of day; one undoes the other. *)
Theorem week_navigation_round_trip (st : State) :
  let next := navigateToNextWeek st in
  let prev := navigateToPreviousWeek st in
  dayNumber (currentWeekStart next) = dayNumber (currentWeekStart st) + 7
  /\ dayNumber (currentWeekStart prev) = dayNumber (currentWeekStart st) - 7
  /\ getDay (currentWeekStart next) = getDay (currentWeekStart st)
  /\ getDay (currentWeekStart prev) = getDay (currentWeekStart st)
  /\ msOfDay (currentWeekStart next) = msOfDay (currentWeekStart st)
  /\ msOfDay (currentWeekStart prev) = msOfDay (currentWeekStart st)
  /\ navigateToPreviousWeek next = st
  /\ navigateToNextWeek prev = st.
Proof.
  cbv zeta. unfold navigateToNextWeek, navigateToPreviousWeek.
  destruct st; cbn [currentWeekStart setCurrentWeekStart].
  repeat split.
  - rewrite setDate_dayNumber. lia.
  - rewrite setDate_dayNumber. lia.
  - unfold getDay. rewrite setDate_dayNumber. Z.to_euclidean_division_equations; lia.
  - unfold getDay. rewrite setDate_dayNumber. Z.to_euclidean_division_equations; lia.
  - unfold setCurrentWeekStart; cbn [selectedServiceId availableSlots loading error currentYear currentMonth currentWeekStart selectedDate selectedTimeSlot showTimeSelection showBookingForm isBooking bookingSuccess customerInfo].
    f_equal. apply (setDate_shift_back _ 7).
  - unfold setCurrentWeekStart; cbn [selectedServiceId availableSlots loading error currentYear currentMonth currentWeekStart selectedDate selectedTimeSlot showTimeSelection showBookingForm isBooking bookingSuccess customerInfo].
    f_equal.
    replace (getDate currentWeekStart0 - 7) with (getDate currentWeekStart0 + -7) by lia.
    replace (getDate (setDate currentWeekStart0 (getDate currentWeekStart0 + -7)) + 7)
      with (getDate (setDate currentWeekStart0 (getDate currentWeekStart0 + -7)) - -7) by lia.
    apply (setDate_shift_back _ (-7)).
Qed.

(** X3. With the month between 0 and 11, the month buttons keep it there
    and move by one month exactly, over the turn of the year too; one
    undoes the other. *)
Theorem month_navigation_round_trip (st : State) :
  0 <= currentMonth st <= 11 ->
  let next := navigateToNextMonth st in
  let prev := navigateToPreviousMonth st in
  0 <= currentMonth next <= 11
  /\ 12 * currentYear next + currentMonth next
     = 12 * currentYear st + currentMonth st + 1
  /\ 0 <= currentMonth prev <= 11
  /\ 12 * currentYear prev + currentMonth prev
     = 12 * currentYear st + currentMonth st - 1
  /\ navigateToPreviousMonth next = st
  /\ navigateToNextMonth prev = st.
Proof.
  intros Hm. cbv zeta. destruct st.
  unfold navigateToNextMonth, navigateToPreviousMonth, setCurrentMonth, setCurrentYear.
  cbn [selectedServiceId availableSlots loading error currentYear currentMonth currentWeekStart selectedDate selectedTimeSlot showTimeSelection showBookingForm isBooking bookingSuccess customerInfo] in *.
  repeat match goal with
  | |- context [?a =? ?b] =>
      destruct (Z.eqb_spec a b); try lia; cbn [selectedServiceId availableSlots loading error currentYear currentMonth currentWeekStart selectedDate selectedTimeSlot showTimeSelection showBookingForm isBooking bookingSuccess customerInfo]
  end;
    repeat split; try lia; f_equal; lia.
Qed.

Lemma month_navigation_round_trip_witness :
  navigateToPreviousMonth (navigateToNextMonth Demo.browsing) = Demo.browsing
  /\ navigateToNextMonth (navigateToPreviousMonth Demo.browsing) = Demo.browsing.
Proof.
  pose proof (month_navigation_round_trip Demo.browsing) as H.
  cbv zeta in H. apply H. vm_compute. split; discriminate.
Defined.

(** The month the component starts on, or comes back to, is in range. *)
Lemma current_month_in_range p today st :
  0 <= currentMonth (initialState p today) <= 11
  /\ 0 <= currentMonth (returnToCurrentMonth today st) <= 11.
Proof. split; apply getMonth_range. Qed.

(** ** The grid, day by day *)

Lemma newDate_fields_in_month y m k :
  1 <= k <= MakeDay 0 (12 * y + m + 1) 1 - MakeDay 0 (12 * y + m) 1 ->
  civil_from_days (dayNumber (newDate y m k))
  = ((12 * y + m) / 12, (12 * y + m) mod 12 + 1, k).
Proof.
  intros Hk. unfold newDate; cbn [dayNumber].
  rewrite MakeDay_norm, MakeDay_linear.
  rewrite (civil_in_month (12 * y + m)) by lia. f_equal. lia.
Qed.

(** [new Date(y, m + 1, 0).getDate()] is the number of days from the first
    of the month to the first of the next. *)
Lemma totalDaysInMonth_spec y m :
  getDate (newDate y (m + 1) 0)
  = MakeDay 0 (12 * y + m + 1) 1 - MakeDay 0 (12 * y + m) 1.
Proof.
  pose proof (MakeDay_step (12 * y + m)) as Hs.
  unfold getDate, newDate; cbn [dayNumber].
  rewrite MakeDay_norm, MakeDay_linear.
  replace (12 * y + (m + 1)) with (12 * y + m + 1) by lia.
  rewrite (civil_in_month (12 * y + m)) by lia.
  cbn [snd]. lia.
Qed.

(** X4. The month view, for a month between 0 and 11: at most six empty
    cells, then one day cell for each day of that month and no other, in
    order; the month has 28 to 31 of them. *)
Theorem month_grid_lists_the_month (p : Props) (today : Date) (st : State) :
  String.eqb (calendarView (features p)) "week" = false ->
  0 <= currentMonth st <= 11 ->
  exists pad n,
    0 <= pad <= 6 /\ 28 <= n <= 31
    /\ generateCalendarDays p today st
       = map EmptyCell (seqZ 0 pad)
         ++ map (fun k => Day (dayCell (availableSlots st) today
                                 (newDate (currentYear st) (currentMonth st) k)))
                (seqZ 1 n)
    /\ (forall k, 1 <= k <= n ->
          let date := newDate (currentYear st) (currentMonth st) k in
          getFullYear date = currentYear st
          /\ getMonth date = currentMonth st
          /\ getDate date = k)
    /\ getMonth (newDate (currentYear st) (currentMonth st) (n + 1)) <> currentMonth st.
Proof.
  intros Hview Hm.
  set (y := currentYear st) in *. set (m := currentMonth st) in *.
  pose proof (totalDaysInMonth_spec y m) as Hn.
  pose proof (MakeDay_step (12 * y + m)) as Hs.
  pose proof (MakeDay_step (12 * y + m + 1)) as Hs'.
  exists ((getDay (newDate y m 1) + 6) mod 7), (getDate (newDate y (m + 1) 0)).
  split; [Z.to_euclidean_division_equations; lia|].
  split; [lia|].
  split; [unfold generateCalendarDays; by rewrite Hview|].
  split.
  - intros k Hk date. unfold getFullYear, getMonth, getDate. subst date.
    rewrite newDate_fields_in_month by lia. cbn [fst snd].
    split; [|split]; Z.to_euclidean_division_equations; lia.
  - rewrite Hn. unfold getMonth, newDate; cbn [dayNumber].
    rewrite MakeDay_norm, MakeDay_linear.
    rewrite (civil_in_month (12 * y + m + 1)) by lia.
    cbn [fst snd]. Z.to_euclidean_division_equations; lia.
Qed.

Lemma month_grid_lists_the_month_witness :
  exists pad n,
    generateCalendarDays Demo.defaultProps Demo.today Demo.browsing
    = map EmptyCell (seqZ 0 pad)
      ++ map (fun k => Day (dayCell (availableSlots Demo.browsing) Demo.today
                              (newDate 2025 5 k)))
             (seqZ 1 n)
    /\ 28 <= n <= 31.
Proof.
  destruct (month_grid_lists_the_month Demo.defaultProps Demo.today Demo.browsing)
    as (pad & n & _ & Hn & Hgrid & _).
  - reflexivity.
  - vm_compute. split; discriminate.
  - exists pad, n. split; [exact Hgrid | exact Hn].
Defined.

(** X5. Every day cell sits in the column of its weekday, the columns
    running from Monday to Sunday: in the month view always, in the week
    view when the week shown starts on a Monday. *)
Theorem grid_cells_sit_under_their_weekday
    (p : Props) (today : Date) (st : State) (i : nat) (c : DayCell) :
  (String.eqb (calendarView (features p)) "week" = true ->
   getDay (currentWeekStart st) = 1) ->
  generateCalendarDays p today st !! i = Some (Day c) ->
  mondayColumn (cellDate c) = Z.of_nat i mod 7.
Proof.
  intros Hweek. unfold generateCalendarDays, mondayColumn.
  destruct (String.eqb _ _).
  - specialize (Hweek eq_refl).
    rewrite list_lookup_fmap. intros Hi.
    destruct (seqZ 0 7 !! i) as [k|] eqn:Ek; [|discriminate].
    apply lookup_seqZ in Ek as [-> Hlt]. injection Hi as <-.
    unfold dayCell; cbn [cellDate]. unfold getDay in *.
    rewrite setDate_dayNumber. Z.to_euclidean_division_equations; lia.
  - clear Hweek.
    set (first := newDate (currentYear st) (currentMonth st) 1).
    set (pad := (getDay first + 6) mod 7).
    assert (Hpad : 0 <= pad <= 6) by (unfold pad; Z.to_euclidean_division_equations; lia).
    intros Hi. apply lookup_app_Some in Hi as [Hi|[Hlen Hi]].
    + rewrite list_lookup_fmap in Hi. destruct (seqZ 0 pad !! i); discriminate.
    + rewrite length_fmap, length_seqZ in Hlen, Hi.
      rewrite list_lookup_fmap in Hi.
      destruct (seqZ 1 _ !! _) as [k|] eqn:Ek; [|discriminate].
      apply lookup_seqZ in Ek as [-> Hlt]. injection Hi as <-.
      unfold dayCell; cbn [cellDate]. unfold getDay, newDate; cbn [dayNumber].
      rewrite MakeDay_linear.
      unfold pad, getDay, first, newDate in *; cbn [dayNumber] in *.
      Z.to_euclidean_division_equations; lia.
Qed.

Lemma grid_cells_sit_under_their_weekday_witness :
  let c := dayCell (availableSlots Demo.browsing) Demo.today (newDate 2025 5 20) in
  mondayColumn (cellDate c) = Z.of_nat 25 mod 7.
Proof.
  intros c.
  apply (grid_cells_sit_under_their_weekday Demo.defaultProps Demo.today Demo.browsing).
  - discriminate.
  - vm_compute. reflexivity.
Defined.

(** X6. The days the availability request asks for are the days the grid
    shows, in the week view and in the month view: a day lies between the
    two dates of the request iff the grid has a cell for it. *)
Theorem fetch_range_is_the_grid (p : Props) (today : Date) (st : State) (z : Z) :
  (exists c, Day c ∈ generateCalendarDays p today st /\ dayNumber (cellDate c) = z)
  <-> dayNumber (dateRange p st).1 <= z <= dayNumber (dateRange p st).2.
Proof.
  unfold generateCalendarDays, dateRange.
  destruct (String.eqb _ _); cbn [fst snd].
  - unfold setHours; cbn [dayNumber]. rewrite setDate_dayNumber. split.
    + intros (c & (i & [= ->] & Hi%elem_of_seqZ)%list_elem_of_fmap & <-).
      unfold dayCell; cbn [cellDate]. rewrite setDate_dayNumber. lia.
    + intros Hz. eexists. split.
      * apply list_elem_of_fmap. exists (z - dayNumber (currentWeekStart st)).
        split; [reflexivity|]. apply elem_of_seqZ. lia.
      * unfold dayCell; cbn [cellDate]. rewrite setDate_dayNumber. lia.
  - pose proof (totalDaysInMonth_spec (currentYear st) (currentMonth st)) as Hn.
    pose proof (MakeDay_step (12 * currentYear st + currentMonth st)) as Hs.
    cbv zeta. rewrite Hn. clear Hn.
    unfold newDateTime, newDate; cbn [dayNumber].
    rewrite (MakeDay_norm _ (currentMonth st + 1)), (MakeDay_linear _ _ 0),
      (MakeDay_norm _ (currentMonth st) 1).
    replace (12 * currentYear st + (currentMonth st + 1))
      with (12 * currentYear st + currentMonth st + 1) by lia.
    split.
    + intros (c & Hc & <-). apply elem_of_app in Hc as [Hc|Hc].
      * apply list_elem_of_fmap in Hc as (i & [=] & _).
      * apply list_elem_of_fmap in Hc as (k & [= ->] & Hk%elem_of_seqZ).
        unfold dayCell, newDate; cbn [cellDate dayNumber].
        rewrite (MakeDay_norm (currentYear st) (currentMonth st) k),
          (MakeDay_linear 0 _ k). lia.
    + intros Hz. eexists. split.
      * apply elem_of_app. right. apply list_elem_of_fmap.
        exists (z - MakeDay 0 (12 * currentYear st + currentMonth st) 1 + 1).
        split; [reflexivity|]. apply elem_of_seqZ. lia.
      * unfold dayCell, newDate; cbn [cellDate dayNumber].
        rewrite (MakeDay_norm (currentYear st) (currentMonth st)),
          (MakeDay_linear 0 _ (_ + 1)). lia.
Qed.

(** X7. A date is marked as today iff it falls on the same day as now,
    whatever the two times of day, and a date marked as today is never
    past. *)
Theorem today_is_the_same_day_and_not_past (today date : Date) :
  (isToday today date = true <-> dayNumber date = dayNumber today)
  /\ (isToday today date = true -> isDateInPast today date = false).
Proof.
  split; [apply isToday_spec|].
  intros Ht%isToday_spec. apply not_true_is_false.
  intros Hp%isDateInPast_spec. lia.
Qed.

(** ** Date keys *)










(** ** The availability effect, from the request to the grid *)


(** X10. One run of the effect for a selected service: while the request
    is in flight the grid area shows the loading indicator; once it has
    resolved, the calendar drawn from the new map on a readable success
    whose grouping went through, and the error message otherwise. *)
Theorem fetch_cycle_view `{Host}
    (p : Props) (today : Date) (st : State) (outcome : Outcome ApiData) :
  truthy (selectedServiceId st) = true ->
  activeServices p <> [] ->
  let started := (fetchAvailabilityStart p st).1 in
  let finished := fetchAvailabilityDone outcome started in
  (fetchAvailabilityStart p st).2 = Some (availabilityRequest p st)
  /\ renderGrid p today started = LoadingView
  /\ match groupedSuccess outcome with
     | Some slots =>
         availableSlots finished = slots
         /\ renderGrid p today finished
            = CalendarView (generateCalendarDays p today finished)
     | None =>
         availableSlots finished = availableSlots st
         /\ exists message, renderGrid p today finished = ErrorView message
     end.
Proof.
  intros Hsel Hact. cbv zeta.
  unfold fetchAvailabilityStart. rewrite Hsel.
  destruct (activeServices p) as [|s l]; [done|]. cbn [negb orb length Nat.eqb fst snd].
  split; [reflexivity|]. split; [reflexivity|].
  unfold fetchAvailabilityDone, groupedSuccess, readableSuccess, renderGrid, errorMessage.
  destruct outcome as [message|response]; cbn.
  - destruct (truthy message) eqn:E; [rewrite E|]; eauto.
  - destruct (ok response); [destruct (json response) as [message|apiData]|]; cbn; eauto.
    + destruct (truthy message) eqn:E; [rewrite E|]; eauto.
    + destruct (normalize apiData); cbn; eauto.
      destruct (truthy notAFunction) eqn:E; [rewrite E|]; eauto.
Qed.

Lemma fetch_cycle_view_witness :
  let started := (fetchAvailabilityStart Demo.defaultProps Demo.browsing).1 in
  let failed := @fetchAvailabilityDone UtcHost.host (Demo.failure 503 "down") started in
  let poison := @fetchAvailabilityDone UtcHost.host (Demo.success Demo.answerPoison) started in
  let fine := @fetchAvailabilityDone UtcHost.host (Demo.success Demo.answerB) started in
  renderGrid Demo.defaultProps Demo.today started = LoadingView
  /\ renderGrid Demo.defaultProps Demo.today failed
     = ErrorView "Bookla API Error: 503 - down"
  /\ renderGrid Demo.defaultProps Demo.today poison
     = ErrorView "slotsGroupedByDate[slotDate].push is not a function"
  /\ availableSlots poison = availableSlots Demo.browsing
  /\ Some (availableSlots fine) = @normalize UtcHost.host Demo.answerB.
Proof.
  intros started failed poison fine.
  destruct (@fetch_cycle_view UtcHost.host Demo.defaultProps Demo.today Demo.browsing
              (Demo.failure 503 "down") eq_refl) as (_ & H1 & _); [discriminate|].
  destruct (@fetch_cycle_view UtcHost.host Demo.defaultProps Demo.today Demo.browsing
              (Demo.success Demo.answerPoison) eq_refl) as (_ & _ & H2 & _); [discriminate|].
  split; [exact H1|]. split; [reflexivity|]. split; [reflexivity|].
  split; [exact H2|]. vm_compute. reflexivity.
Defined.

(** X11. With no enabled service among the first [servicesCount], nothing
    is ever requested: the availability effect does not start, a submission
    sends no booking, and the component shows the notice that no service is
    active whatever its state. *)
Theorem no_active_service_no_request
    (p : Props) (today : Date) (st : State) (now1 now2 : string) (net : Network) :
  activeServices p = [] ->
  fetchAvailabilityStart p st = (st, None)
  /\ inFlight (mount p today) = []
  /\ requestsOf (handleBookingSubmit p now1 now2 net st).2 = []
  /\ renderScreen p today st = NoActiveServices.
Proof.
  intros Hact.
  assert (Hstart : forall s, fetchAvailabilityStart p s = (s, None)).
  { intros s. unfold fetchAvailabilityStart. rewrite Hact. cbn. by rewrite orb_true_r. }
  split; [apply Hstart|]. split; [|split].
  - unfold mount, runEffect. by rewrite Hstart.
  - unfold handleBookingSubmit, findService. rewrite Hact. cbn.
    destruct (validationAlert p st); [reflexivity|].
    destruct (selectedTimeSlot st); reflexivity.
  - unfold renderScreen. by rewrite Hact.
Qed.

Lemma no_active_service_no_request_witness :
  let p := mkProps (apiConfigProp Demo.defaultProps) "" (urls Demo.defaultProps) 0
             (service1 Demo.defaultProps) (service2 Demo.defaultProps)
             (service3 Demo.defaultProps) Demo.defaultFormFields Demo.defaultCheckboxes
             (features Demo.defaultProps) in
  inFlight (mount p Demo.today) = []
  /\ renderScreen p Demo.today Demo.browsing = NoActiveServices.
Proof.
  intros p.
  destruct (no_active_service_no_request p Demo.today Demo.browsing "" "" Demo.offline)
    as (_ & H2 & _ & H4); [reflexivity|].
  split; [exact H2 | exact H4].
Defined.


Example ex_answers_without_slots :
  @normalize UtcHost.host (mkApiData None) = Some ∅
  /\ @normalize UtcHost.host
       (mkApiData (Some [("boat-1", NotAnArray);
                         ("boat-2", SlotArray [mkRawSlot None None;
                                                mkRawSlot (Some "") (Some "x")])])) = Some ∅.
Proof. split; reflexivity. Qed.

Lemma filter_fst_NoDup {A} (f : string * A -> bool) (l : list (string * A)) :
  NoDup l.*1 -> NoDup (List.filter f l).*1.
Proof.
  induction l as [|x l IH]; cbn; [done|].
  intros [Hx Hl]%NoDup_cons. destruct (f x); cbn; [|by apply IH].
  apply NoDup_cons. split; [|by apply IH].
  intros (y & Hy & Hin)%list_elem_of_fmap. apply Hx.
  apply list_elem_of_fmap. exists y. split; [done|].
  apply list_elem_of_In in Hin. apply filter_In in Hin as [Hin _].
  by apply list_elem_of_In.
Qed.

(** X13. The dates counted as available are, once each, the dates that
    hold a list with at least one slot, which are the dates whose cell is
    drawn as available; after a successful fetch of an answer that is not
    poisoned these are all the dates of the map. *)
Theorem available_dates_are_the_available_cells `{Host}
    (st : State) (today : Date) :
  NoDup (getAvailableDates st)
  /\ (forall date : Date,
        formatDateString date ∈ getAvailableDates st
        <-> isDateAvailable (dayCell (availableSlots st) today date) = true)
  /\ (forall d, d ∈ getAvailableDates st
                <-> exists l, availableSlots st !! d = Some l /\ l <> [])
  /\ (forall response apiData,
        ok response = true -> json response = inr apiData ->
        poisoned apiData = false ->
        let st' := fetchAvailabilityDone (Resolved response) st in
        length (getAvailableDates st') = size (availableSlots st')).
Proof.
  assert (Hmem : forall s d, d ∈ getAvailableDates s
                             <-> exists l, availableSlots s !! d = Some l /\ l <> []).
  { intros s d. unfold getAvailableDates. split.
    - intros ([d' l] & -> & Hin)%list_elem_of_fmap.
      apply list_elem_of_In, filter_In in Hin as [Hin Hlen].
      apply list_elem_of_In, elem_of_map_to_list in Hin.
      exists l. split; [exact Hin|]. destruct l; [discriminate|done].
    - intros (l & Hl & Hne). apply list_elem_of_fmap. exists (d, l).
      split; [reflexivity|]. apply list_elem_of_In, filter_In. split.
      + by apply list_elem_of_In, elem_of_map_to_list.
      + destruct l; [done|reflexivity]. }
  split; [|split; [|split]].
  - unfold getAvailableDates. apply filter_fst_NoDup, NoDup_fst_map_to_list.
  - intros date. rewrite Hmem. symmetry. apply dayCell_available.
  - apply Hmem.
  - intros response apiData Hok Hjson Hclean st'.
    destruct (normalize apiData) as [slots|] eqn:Hn;
      [|apply normalize_None in Hn; congruence].
    unfold getAvailableDates. rewrite length_fmap.
    rewrite <- (length_map_to_list (availableSlots st')).
    f_equal. apply forallb_filter_id. apply forallb_forall.
    intros [d l] Hin. apply list_elem_of_In, elem_of_map_to_list in Hin.
    unfold st', fetchAvailabilityDone in Hin. rewrite Hok, Hjson, Hn in Hin.
    cbn [availableSlots setLoading setAvailableSlots] in Hin.
    destruct (normalize_wellKeyed _ _ Hn d l Hin) as [Hne _].
    cbn [snd]. by destruct l.
Qed.

(** ** The checks before a submission *)

Lemma isBlank_iff v :
  isBlank v = true <-> exists s, v = Text s /\ allWhiteSpace s = true.
Proof.
  destruct v as [s|]; cbn.
  - split.
    + intros Hb. exists s. split; [reflexivity|]. apply trim_empty_iff.
      by destruct (trim s).
    + intros (s' & [= <-] & Hs). apply trim_empty_iff in Hs. by rewrite Hs.
  - split; [discriminate|]. by intros (s & ? & _).
Qed.

(** X14. The checks of the handler pass iff the terms are accepted when
    their box is shown and required, the same for the privacy policy, and
    every form field that is shown and required holds a character that is
    not white space.  A field that is not shown is never required, whatever
    its flag says. *)
Theorem validation_passes_iff (p : Props) (st : State) :
  validationAlert p st = None
  <-> (show (terms (checkboxes p)) = true -> required (terms (checkboxes p)) = true ->
       termsAccepted (customerInfo st) = true)
      /\ (show (privacy (checkboxes p)) = true ->
          required (privacy (checkboxes p)) = true ->
          privacyAccepted (customerInfo st) = true)
      /\ (forall fieldName field v,
            (fieldName, field) ∈ formFieldEntries (formFields p) ->
            show field = true -> required field = true ->
            customerValue fieldName (customerInfo st) = Text v ->
            allWhiteSpace v = false).
Proof.
  unfold validationAlert. split.
  - destruct (show (terms _)), (required (terms _)), (termsAccepted _);
      cbn; try discriminate;
      destruct (show (privacy _)), (required (privacy _)), (privacyAccepted _);
      cbn; try discriminate;
      (destruct (List.find _ _) as [entry|] eqn:E; [discriminate|]);
      intros _; (split; [done|split; [done|]]);
      intros fieldName field v Hin Hs Hr Hv;
      apply not_true_is_false; intros Hw;
      (assert (Hreq : In (fieldName, field) (requiredFields p))
         by (unfold requiredFields; apply filter_In; split;
             [by apply list_elem_of_In | cbn [snd]; by rewrite Hs, Hr]));
      pose proof (find_none _ _ E _ Hreq) as Hn; cbn beta in Hn; cbn [fst] in Hn;
      (assert (Hb : isBlank (customerValue fieldName (customerInfo st)) = true)
         by (apply isBlank_iff; eauto));
      congruence.
  - intros (Ht & Hp & Hf).
    destruct (show (terms _) && required (terms _) && negb (termsAccepted _)) eqn:E1.
    { apply andb_prop in E1 as [[H1 H2]%andb_prop H3].
      rewrite (Ht H1 H2) in H3. discriminate. }
    destruct (show (privacy _) && required (privacy _) && negb (privacyAccepted _)) eqn:E2.
    { apply andb_prop in E2 as [[H1 H2]%andb_prop H3].
      rewrite (Hp H1 H2) in H3. discriminate. }
    destruct (List.find _ _) as [[fieldName field]|] eqn:E; [|reflexivity].
    exfalso. apply find_some in E as [Hin Hb]. cbn [fst] in Hb.
    unfold requiredFields in Hin. apply filter_In in Hin as [Hin Hsr].
    cbn [snd] in Hsr. apply andb_prop in Hsr as [Hs Hr].
    apply isBlank_iff in Hb as (v & Hv & Hw).
    apply list_elem_of_In in Hin.
    rewrite (Hf fieldName field v Hin Hs Hr Hv) in Hw. discriminate.
Qed.

(** ** The submission, whatever the network does *)

Ltac submission_paths :=
  unfold handleBookingSubmit, conclude, failWith;
  repeat match goal with
  | |- context [match ?x with _ => _ end] => destruct x eqn:?
  end.

(** X15. A submission sends nothing, or the client request alone, or the
    client request followed by the merchant request, and the last only when
    the client request was answered with a status that is not a success;
    it sends nothing at all when a check fails, no slot is selected or the
    selected service is not among the active ones. *)
Theorem booking_requests_discipline
    (p : Props) (now1 now2 : string) (net : Network) (st : State) :
  let requests := requestsOf (handleBookingSubmit p now1 now2 net st).2 in
  (requests = []
   \/ (exists c, requests = [PostClient c])
   \/ (exists c m r, requests = [PostClient c; PostMerchant m]
                     /\ net (PostClient c) = Resolved r /\ ok r = false))
  /\ ((validationAlert p st <> None \/ selectedTimeSlot st = None
       \/ findService p st = None) -> requests = []).
Proof.
  cbv zeta. split.
  - submission_paths; cbn;
      rewrite ?requestsOf_app; cbn;
      first [ by left
            | by (right; left; eauto)
            | right; right; do 3 eexists; split; [reflexivity|]; split; [eassumption|];
              by destruct (ok _) ].
  - intros [Hv|[Hs|Hf]].
    + unfold handleBookingSubmit. destruct (validationAlert p st); [reflexivity|done].
    + unfold handleBookingSubmit. rewrite Hs. by destruct (validationAlert p st).
    + unfold handleBookingSubmit. rewrite Hf.
      destruct (validationAlert p st); [reflexivity|].
      destruct (selectedTimeSlot st); reflexivity.
Qed.

(** X16. A submission that raises an alert raises one, after whatever it
    sent, and leaves the state as it was, with the booking flag down: date,
    slot, customer information, open form and stored result are kept,
    whether the alert comes from a check, a missing slot or service, a
    connection that failed, an error status or a body that does not read. *)
Theorem alert_keeps_the_state
    (p : Props) (now1 now2 : string) (net : Network) (st : State) (message : string) :
  let outcome := handleBookingSubmit p now1 now2 net st in
  Alert message ∈ outcome.2 ->
  outcome.2 = (Request <$> requestsOf outcome.2) ++ [Alert message]
  /\ (outcome.1 = st \/ outcome.1 = setIsBooking false st)
  /\ draft outcome.1 = draft st
  /\ showBookingForm outcome.1 = showBookingForm st
  /\ bookingSuccess outcome.1 = bookingSuccess st.
Proof.
  cbv zeta. submission_paths; cbn [fst snd];
    rewrite ?elem_of_app, ?elem_of_cons, ?elem_of_nil;
    intros Hin;
    repeat match goal with
    | H : _ \/ _ |- _ => destruct H
    | H : False |- _ => destruct H
    | H : Alert _ = Alert _ |- _ => injection H as <-
    | H : Alert _ = _ |- _ => discriminate H
    end;
    (split; [reflexivity|]); (split; [by (left + right)|]); done.
Qed.

Lemma alert_keeps_the_state_witness :
  let st := Demo.formOpen Demo.customer in
  let outcome := handleBookingSubmit Demo.defaultProps "t1" "t2" Demo.offline st in
  outcome.1 = st \/ outcome.1 = setIsBooking false st.
Proof.
  intros st outcome.
  apply (alert_keeps_the_state Demo.defaultProps "t1" "t2" Demo.offline st
           "Error: Failed to fetch").
  vm_compute. right. left.
Defined.

(** X17. A submission that raises no alert has stored a result: its status
    is never empty, the draft and the two modals are reset, and the
    payment page is opened after 3000 ms exactly when the result carries a
    payment address, that is when [manualPayment] is off; nothing else is
    done beside the requests. *)
Theorem no_alert_means_a_result
    (p : Props) (now1 now2 : string) (net : Network) (st : State) :
  let outcome := handleBookingSubmit p now1 now2 net st in
  (forall message, Alert message ∉ outcome.2) ->
  exists result,
    bookingSuccess outcome.1 = Some result
    /\ truthyOpt (status result) = true
    /\ manualPayment result = negb (truthyOpt (paymentUrl result))
    /\ outcome.2
       = (Request <$> requestsOf outcome.2)
         ++ match paymentUrl result with
            | Some url => if manualPayment result then [] else [OpenAfter url 3000]
            | None => []
            end
    /\ selectedDate outcome.1 = None
    /\ selectedTimeSlot outcome.1 = None
    /\ customerInfo outcome.1 = emptyCustomerInfo
    /\ showBookingForm outcome.1 = false
    /\ showTimeSelection outcome.1 = false
    /\ isBooking outcome.1 = false.
Proof.
  assert (Hstatus : forall d, truthyOpt (extractStatus d) = true).
  { intros d. unfold extractStatus, orElse.
    destruct (truthyOpt (if truthyOpt (bd_status d) then _ else _)) eqn:E; [exact E|].
    reflexivity. }
  cbv zeta. submission_paths; cbn [fst snd]; intros Hno;
    try (exfalso; eapply Hno;
         rewrite ?elem_of_app, ?elem_of_cons; eauto 6; fail);
    eexists; (split; [reflexivity|]); cbn;
    (split; [apply Hstatus|]);
    repeat match goal with H : extractPaymentUrl _ = _ |- _ => rewrite H end;
    cbn; repeat match goal with H : truthy _ = _ |- _ => rewrite H end; cbn;
    done.
Qed.

Lemma no_alert_from_check (effects : list Effect) :
  forallb (fun e => match e with Alert _ => false | _ => true end) effects = true ->
  forall message, Alert message ∉ effects.
Proof.
  intros Hall message Hin%list_elem_of_In.
  rewrite forallb_forall in Hall. by specialize (Hall _ Hin).
Qed.

Lemma no_alert_means_a_result_witness :
  let outcome := handleBookingSubmit Demo.defaultProps "t1" "t2" Demo.merchantOnly
                   (Demo.formOpen Demo.customer) in
  exists result,
    bookingSuccess outcome.1 = Some result
    /\ manualPayment result = negb (truthyOpt (paymentUrl result)).
Proof.
  intros outcome.
  destruct (no_alert_means_a_result Demo.defaultProps "t1" "t2" Demo.merchantOnly
              (Demo.formOpen Demo.customer)) as (result & H1 & _ & H3 & _).
  - apply no_alert_from_check. vm_compute. reflexivity.
  - exists result. split; [exact H1 | exact H3].
Defined.



(** X19. The merchant payload repeats the client payload: the same client
    block, company, service, resource and start time, the same total and
    the same service and consent entries; it adds the end time of the slot,
    the pending status, the payment requirement and the acceptance of the
    terms, and leaves out the booking policy and the four addresses. *)
Theorem merchant_payload_repeats_client_payload
    (p : Props) (st : State) (service : Service) (slot : TimeSlot) (now1 now2 : string) :
  let c := clientPayload p st service slot now1 in
  let m := merchantPayload p st service slot now2 in
  mp_client m = cp_client c
  /\ (mp_companyID m, mp_serviceID m, mp_resourceID m, mp_startTime m, mp_spots m)
     = (cp_companyID c, cp_serviceID c, cp_resourceID c, cp_startTime c, cp_spots c)
  /\ (total_amount (metadata m), service_name (metadata m),
      service_description (metadata m), service_duration (metadata m),
      md_comments (metadata m), newsletter_opt_in (metadata m),
      privacy_accepted (metadata m), payment_method (metadata m))
     = (total_amount (metaData c), service_name (metaData c),
        service_description (metaData c), service_duration (metaData c),
        md_comments (metaData c), newsletter_opt_in (metaData c),
        privacy_accepted (metaData c), payment_method (metaData c))
  /\ (mp_endTime m, mp_status m, requirePayment m, mp_termsAccepted m)
     = (endTime slot, "pending", true, termsAccepted (customerInfo st))
  /\ (booking_policy (metadata m), success_url (metadata m), cancel_url (metadata m),
      terms_url (metadata m), privacy_url (metadata m))
     = (None, None, None, None, None)
  /\ source (metadata m) <> source (metaData c).
Proof. cbv zeta. repeat split. discriminate. Qed.

(** What the two effects do at a render depends on the state through the
    calendar state alone. *)
Lemma autoSelect_calendarState (p : Props) (a b : State) :
  calendarState a = calendarState b ->
  calendarState (autoSelect p a) = calendarState (autoSelect p b).
Proof.
  destruct a, b. unfold calendarState, autoSelect; cbn.
  intros [= -> -> -> -> -> -> ->].
  destruct (activeServices p); [reflexivity|]. by destruct (truthy _).
Qed.

Lemma fetchAvailabilityStart_calendarState (p : Props) (a b : State) :
  calendarState a = calendarState b ->
  (fetchAvailabilityStart p a).2 = (fetchAvailabilityStart p b).2
  /\ calendarState (fetchAvailabilityStart p a).1
     = calendarState (fetchAvailabilityStart p b).1.
Proof.
  destruct a, b. unfold calendarState, fetchAvailabilityStart; cbn.
  intros [= -> -> -> -> -> -> ->].
  by destruct (_ || _).
Qed.

Lemma render_reads_the_calendar_state `{Host}
    (p p' : Props) (a b : State) (flying : list AvailabilityRequest) :
  calendarState a = calendarState b ->
  inFlight (step (mkSystem p a flying) (Configure p'))
  = inFlight (step (mkSystem p b flying) (Configure p'))
  /\ calendarState (ui (step (mkSystem p a flying) (Configure p')))
     = calendarState (ui (step (mkSystem p b flying) (Configure p'))).
Proof.
  intros Hcal. pose proof (autoSelect_calendarState p' a b Hcal) as Hauto.
  assert (Hsel : selectedServiceId a = selectedServiceId b)
    by (unfold calendarState in Hcal; congruence).
  assert (Hsel' : selectedServiceId (autoSelect p' a) = selectedServiceId (autoSelect p' b))
    by (unfold calendarState in Hauto; congruence).
  destruct (fetchAvailabilityStart_calendarState p' _ _ Hauto) as [Hreq Hst].
  cbn [step props ui inFlight]. rewrite Hsel, Hsel'.
  destruct (_ || _); cbn [ui inFlight]; [|by split].
  unfold runEffect.
  destruct (fetchAvailabilityStart p' (autoSelect p' a)) as [sa ra],
           (fetchAvailabilityStart p' (autoSelect p' b)) as [sb rb].
  cbn [fst snd ui inFlight] in *. by rewrite Hreq.
Qed.

(** X20. A submission never touches what the calendar is drawn from nor
    what the availability effect depends on: the selected service, the
    map, the loading flag, the error, the month and the week are as before,
    whatever the outcome.  So a render after it dispatches exactly what the
    same render would have dispatched without it.  With the properties it
    had and a service selected, that is nothing when [apiConfig] is an
    object the parent passes, and one request for the month or week shown
    when [apiConfig] is left out, its default being a new object at every
    render.  The slot just booked stays in the map until an answer replaces
    the map. *)
Theorem submission_leaves_the_calendar `{Host}
    (p p' : Props) (now1 now2 : string) (net : Network) (st : State)
    (flying : list AvailabilityRequest) :
  let st' := (handleBookingSubmit p now1 now2 net st).1 in
  let before := step (mkSystem p st flying) (Configure p') in
  let after := step (mkSystem p st' flying) (Configure p') in
  let again := step (mkSystem p st' flying) (Configure p) in
  calendarState st' = calendarState st
  /\ inFlight after = inFlight before
  /\ calendarState (ui after) = calendarState (ui before)
  /\ (truthy (selectedServiceId st) = true ->
      match apiConfigProp p with
      | Passed _ _ => again = mkSystem p st' flying
      | LeftOut =>
          activeServices p <> [] ->
          inFlight again = flying ++ [availabilityRequest p st]
          /\ loading (ui again) = true
      end).
Proof.
  cbv zeta.
  assert (Hcal : calendarState (handleBookingSubmit p now1 now2 net st).1
                 = calendarState st) by (submission_paths; reflexivity).
  split; [exact Hcal|].
  destruct (render_reads_the_calendar_state p p' _ _ flying Hcal) as [Hfly Hcal'].
  split; [exact Hfly|]. split; [exact Hcal'|].
  intros Hsel.
  set (st' := (handleBookingSubmit p now1 now2 net st).1) in *.
  assert (Hsel' : selectedServiceId st' = selectedServiceId st).
  { unfold calendarState in Hcal. congruence. }
  unfold step; cbn [props ui inFlight].
  rewrite (autoSelect_selected p st') by (by rewrite Hsel').
  rewrite String.eqb_refl. cbn [negb]. rewrite orb_false_r.
  unfold effectDepsChanged. rewrite String.eqb_refl, Nat.eqb_refl, eqb_reflx.
  cbn [negb]. rewrite !orb_false_r.
  destruct (apiConfigProp p) as [|object value]; cbn [sameObject negb].
  - intros Hact. unfold runEffect, fetchAvailabilityStart. rewrite Hsel', Hsel.
    destruct (activeServices p); [done|]. cbn [negb orb length Nat.eqb ui inFlight option_list].
    split; [|reflexivity]. f_equal. f_equal.
    unfold availabilityRequest, dateRange. unfold calendarState in Hcal.
    injection Hcal as Hs _ _ _ Hy Hm Hw. by rewrite Hs, Hy, Hm, Hw.
  - by rewrite Nat.eqb_refl.
Qed.

(** The same on the demonstration: after a booking that the merchant
    endpoint took, a render with the same properties sends nothing when
    [apiConfig] is passed, and asks for the month again when it is left
    out. *)
Example ex_render_after_booking :
  let booked p := (handleBookingSubmit p "t1" "t2" Demo.merchantOnly
                     (Demo.formOpen Demo.customer)).1 in
  inFlight (@step UtcHost.host (mkSystem Demo.defaultProps (booked Demo.defaultProps) [])
              (Configure Demo.defaultProps)) = []
  /\ length (inFlight (@step UtcHost.host (mkSystem Demo.bareProps (booked Demo.bareProps) [])
                         (Configure Demo.bareProps))) = 1%nat.
Proof. vm_compute. auto. Qed.

(** ** The flow between the modals *)

(** X21. Picking a date opens the time selection alone and drops the slot
    picked before; picking a slot closes it and opens the form on that date
    and slot, with the customer information as it was, not reset; the back
    button reopens the time selection and keeps date, slot and customer
    information; closing the time selection leaves no modal open. *)
Theorem modal_flow (st : State) (date : string) (slot : TimeSlot) :
  truthy date = true ->
  let s1 := handleDateSelection date st in
  let s2 := handleTimeSlotSelection slot s1 in
  let s3 := backToTimeSelection s2 in
  let s4 := cancelTimeSelection s3 in
  (timeSelectionOpen s1, bookingFormOpen s1) = (true, false)
  /\ selectedTimeSlot s1 = None
  /\ (timeSelectionOpen s2, bookingFormOpen s2) = (false, true)
  /\ (selectedDate s2, selectedTimeSlot s2) = (Some date, Some slot)
  /\ customerInfo s2 = customerInfo st
  /\ (timeSelectionOpen s3, bookingFormOpen s3) = (true, false)
  /\ draft s3 = draft s2
  /\ (timeSelectionOpen s4, bookingFormOpen s4) = (false, false)
  /\ draft s4 = draft s2.
Proof.
  intros Hd. cbv zeta. destruct date as [|ch date]; [discriminate|]. destruct st.
  unfold timeSelectionOpen, bookingFormOpen, draft; cbn.
  rewrite ?andb_false_r. repeat split.
Qed.

Lemma modal_flow_witness :
  let s1 := handleDateSelection "2025-06-20" Demo.browsing in
  let s2 := handleTimeSlotSelection Demo.pickedSlot s1 in
  (timeSelectionOpen s1, bookingFormOpen s1) = (true, false)
  /\ (timeSelectionOpen s2, bookingFormOpen s2) = (false, true).
Proof.
  destruct (modal_flow Demo.browsing "2025-06-20" Demo.pickedSlot eq_refl)
    as (H1 & _ & H3 & _).
  split; [exact H1 | exact H3].
Defined.

(** Each of these handlers, from any state, leaves at most one of the two
    modals open. *)
Lemma never_both_modals (st : State) (date : string) (slot : TimeSlot) :
  Forall (fun s => timeSelectionOpen s && bookingFormOpen s = false)
    [handleDateSelection date st; handleTimeSlotSelection slot st;
     backToTimeSelection st; cancelTimeSelection st].
Proof.
  destruct st. unfold timeSelectionOpen, bookingFormOpen.
  repeat constructor; cbn; rewrite ?andb_false_r; try reflexivity.
Qed.

(** X22. A change of one of the nine text inputs stores the text typed
    under that field and leaves the other eight fields and the three
    acceptance flags as they were; a change of a checkbox stores whether it
    is ticked, false when the target carries no such property. *)
Theorem customer_change_sets_one_field (target : ChangeTarget) (st : State) :
  customerValue (target_name target) (customerInfo st) <> Undefined ->
  String.eqb (target_type target) "checkbox" = false ->
  let st' := handleCustomerInfoChange target st in
  customerValue (target_name target) (customerInfo st') = Text (target_value target)
  /\ (forall other, other <> target_name target ->
        customerValue other (customerInfo st') = customerValue other (customerInfo st))
  /\ (termsAccepted (customerInfo st'), privacyAccepted (customerInfo st'),
      newsletterAccepted (customerInfo st'))
     = (termsAccepted (customerInfo st), privacyAccepted (customerInfo st),
        newsletterAccepted (customerInfo st))
  /\ calendarState st' = calendarState st
  /\ (selectedDate st', selectedTimeSlot st') = (selectedDate st, selectedTimeSlot st).
Proof.
  intros Hname Htype. cbv zeta.
  unfold handleCustomerInfoChange. rewrite Htype.
  destruct st as [? ? ? ? ? ? ? ? ? ? ? ? ? info]; cbn [customerInfo setCustomerInfo] in *.
  destruct target as [name value type checked]; cbn [target_name target_value] in *.
  unfold customerValue, setText in *.
  repeat match goal with
  | |- context [String.eqb name ?k] =>
      destruct (String.eqb_spec name k) as [->|?]
  end; try done;
    (split; [reflexivity|]); (split; [|by destruct info]);
    intros other Hne;
    repeat match goal with
    | |- context [String.eqb other ?k] =>
        destruct (String.eqb_spec other k) as [->|?]
    end; try done; by destruct info.
Qed.

Lemma customer_change_sets_one_field_witness :
  let target := mkChangeTarget "email" "ada@example.com" "email" (Some false) in
  let st' := handleCustomerInfoChange target (Demo.formOpen Demo.customer) in
  customerValue "email" (customerInfo st') = Text "ada@example.com"
  /\ customerValue "firstName" (customerInfo st') = Text "Ada".
Proof.
  intros target st'.
  destruct (customer_change_sets_one_field target (Demo.formOpen Demo.customer))
    as (H1 & H2 & _); [discriminate|reflexivity|].
  split; [exact H1|]. apply (H2 "firstName"). discriminate.
Defined.

Lemma checkbox_change_sets_the_flag (checked : option bool) (st : State) :
  let tick name := handleCustomerInfoChange (mkChangeTarget name "on" "checkbox" checked) st in
  termsAccepted (customerInfo (tick "termsAccepted")) = default false checked
  /\ privacyAccepted (customerInfo (tick "privacyAccepted")) = default false checked
  /\ newsletterAccepted (customerInfo (tick "newsletterAccepted")) = default false checked.
Proof. cbv zeta. repeat split. Qed.

(** ** The first render *)

(** X23. When some service is active and its identifier is not empty, the
    component starts with the first active service selected, the loading
    flag up and one availability request in flight, for that service; the
    selected service is found among the active ones, which are enabled
    services among the first [servicesCount]. *)
Theorem mount_selects_first_active
    (p : Props) (today : Date) (s : Service) (others : list Service) :
  activeServices p = s :: others ->
  truthy (id s) = true ->
  let sys := mount p today in
  selectedServiceId (ui sys) = id s
  /\ findService p (ui sys) = Some s
  /\ loading (ui sys) = true
  /\ inFlight sys = [availabilityRequest p (initialState p today)]
  /\ Forall (fun s' => enabled s' = true /\ s' ∈ allServices p) (activeServices p).
Proof.
  intros Hact Hid. cbv zeta.
  assert (Hfirst : firstServiceId p = id s) by (unfold firstServiceId; by rewrite Hact).
  assert (Hstart : fetchAvailabilityStart p (initialState p today)
                   = (setError None (setLoading true (initialState p today)),
                      Some (availabilityRequest p (initialState p today)))).
  { unfold fetchAvailabilityStart. cbn [selectedServiceId initialState].
    rewrite Hfirst, Hid, Hact. reflexivity. }
  unfold mount, runEffect. rewrite Hstart. cbn [ui inFlight app option_list].
  split; [exact Hfirst|]. split; [|split; [reflexivity|split; [reflexivity|]]].
  - unfold findService. cbn [selectedServiceId setError setLoading initialState].
    rewrite Hfirst, Hact. cbn. by rewrite String.eqb_refl.
  - unfold activeServices. apply Forall_forall. intros s' Hs'.
    apply list_elem_of_In, filter_In in Hs' as [Hin Hen]. split; [exact Hen|].
    apply list_elem_of_In in Hin. by apply (subseteq_take _ _ _ Hin).
Qed.

Lemma mount_selects_first_active_witness :
  selectedServiceId (ui (mount Demo.defaultProps Demo.today)) = "Service 1"
  /\ length (inFlight (mount Demo.defaultProps Demo.today)) = 1%nat.
Proof.
  destruct (mount_selects_first_active Demo.defaultProps Demo.today
              (service1 Demo.defaultProps)
              [service2 Demo.defaultProps; service3 Demo.defaultProps]
              eq_refl eq_refl) as (H1 & _ & _ & H4 & _).
  split; [exact H1 | by rewrite H4].
Defined.

(** ** Prices and labels *)

Lemma length_append a b :
  String.length (a +:+ b) = (String.length a + String.length b)%nat.
Proof.
  induction a as [|c a IH]; [reflexivity|].
  change (String c a +:+ b) with (String c (a +:+ b)).
  cbn [String.length]. by rewrite IH.
Qed.

Lemma append_cancel_r a b s : a +:+ s = b +:+ s -> a = b.
Proof.
  revert b. induction a as [|c a IH]; intros [|c' b] Heq.
  - reflexivity.
  - apply (f_equal String.length) in Heq. rewrite !length_append in Heq.
    cbn [String.length] in Heq. lia.
  - apply (f_equal String.length) in Heq. rewrite !length_append in Heq.
    cbn [String.length] in Heq. lia.
  - change (String c (a +:+ s) = String c' (b +:+ s)) in Heq.
    injection Heq as -> Heq. f_equal. by apply IH.
Qed.

(** X24. No price is displayed iff prices are off, and then the amount
    sent with a booking is the text 0.  When prices are on, the total
    displayed is the amount sent followed by the currency sign iff the APA
    is shown and positive, or is zero: with the APA hidden and positive the
    customer is shown the base price while the booking carries base plus
    APA. *)
Theorem displayed_total_and_amount_sent
    (d : DisplayFeatures) (language : Language) (p : Props) (service : Service) :
  match getPriceDisplay d language p service with
  | None => showPrices (features p) = false /\ totalAmount p service = "0"
  | Some display =>
      showPrices (features p) = true
      /\ (displayedTotal display = totalAmount p service +:+ currencySign
          <-> (showAPA d = true /\ 0 < apaPrice service) \/ apaPrice service = 0)
  end.
Proof.
  unfold getPriceDisplay, totalAmount.
  destruct (showPrices (features p)); cbn [negb]; [|done].
  destruct (showAPA d) eqn:Ha; cbn [andb].
  - destruct (Z.ltb_spec 0 (apaPrice service)) as [Hpos|Hle]; cbn [negb].
    + destruct (showPriceBreakdown d); cbn [displayedTotal];
        (split; [reflexivity|]); split; auto.
    + cbn [displayedTotal]. split; [reflexivity|]. split.
      * intros Heq%append_cancel_r. apply (inj pretty) in Heq. lia.
      * intros [[_ ?]| ->]; [lia|]. by rewrite Z.add_0_r.
  - cbn [negb displayedTotal]. split; [reflexivity|]. split.
    + intros Heq%append_cancel_r. apply (inj pretty) in Heq. lia.
    + intros [[? _]| ->]; [done|]. by rewrite Z.add_0_r.
Qed.

Example ex_hidden_apa :
  let d := mkDisplayFeatures true false true in
  let language := mkLanguage "french" [] [] "" in
  (displayedTotal <$> getPriceDisplay d language Demo.defaultProps
                        (service1 Demo.defaultProps))
  = Some ("300" +:+ currencySign)
  /\ totalAmount Demo.defaultProps (service1 Demo.defaultProps) = "400".
Proof. vm_compute. auto. Qed.

Lemma language_pack_shape key pack :
  LANGUAGE_DATA key = Some pack ->
  length (months pack) = 12%nat /\ length (weekdays pack) = 7%nat
  /\ truthy (pack_today pack) = true /\ truthy (priceLabel pack) = true
  /\ truthy (currentWeek pack) = true /\ truthy (weekOf pack) = true
  /\ truthy (pack_to pack) = true.
Proof.
  unfold LANGUAGE_DATA.
  repeat match goal with
  | |- context [String.eqb key ?k] => destruct (String.eqb key k)
  end; intros [= <-] || discriminate; repeat split.
Qed.

(** X25. Whatever the language settings, the month names number twelve and
    the weekday names seven, so a month between 0 and 11 always has a title;
    custom lists are used only with exactly that many entries, an unknown
    language falls back to French, and no label is ever empty. *)
Theorem language_data_is_complete (language : Language) (todayButton : string) :
  let data := getLanguageData language todayButton in
  length (MONTHS data) = 12%nat
  /\ length (WEEKDAYS data) = 7%nat
  /\ (forall st, 0 <= currentMonth st <= 11 -> is_Some (monthTitle data st))
  /\ (length (customMonths language) <> 12%nat -> LANGUAGE_DATA (calendar language) = None ->
      MONTHS data = months french)
  /\ Forall (fun label => label <> "")
       [TODAY_BUTTON data; PRICE_LABEL data; CURRENT_WEEK data; WEEK_OF data; TO data].
Proof.
  cbv zeta.
  assert (Hmonths : length (MONTHS (getLanguageData language todayButton)) = 12%nat).
  { unfold getLanguageData; cbn [MONTHS].
    destruct (Nat.eqb_spec (length (customMonths language)) 12); [done|].
    destruct (LANGUAGE_DATA _) eqn:E; [|reflexivity].
    by apply language_pack_shape in E as (? & _). }
  assert (Htext : forall field fallback,
             (forall key pack, LANGUAGE_DATA key = Some pack -> truthy (field pack) = true) ->
             fallback <> "" -> packText language field fallback <> "").
  { intros field fallback Hfield Hfb. unfold packText.
    destruct (LANGUAGE_DATA _) eqn:E; [|done].
    rewrite (Hfield _ _ E). apply truthy_true. by apply (Hfield _ _ E). }
  repeat apply conj.
  - exact Hmonths.
  - unfold getLanguageData; cbn [WEEKDAYS].
    destruct (Nat.eqb_spec (length (customWeekdays language)) 7); [done|].
    destruct (LANGUAGE_DATA _) eqn:E; [|reflexivity].
    by apply language_pack_shape in E as (_ & ? & _).
  - intros st Hm. unfold monthTitle.
    destruct (Z.ltb_spec (currentMonth st) 0); [lia|].
    apply lookup_lt_is_Some. rewrite Hmonths. lia.
  - intros Hcustom Hnone. unfold getLanguageData; cbn [MONTHS].
    destruct (Nat.eqb_spec (length (customMonths language)) 12); [done|].
    by rewrite Hnone.
  - repeat constructor; unfold getLanguageData; cbn [TODAY_BUTTON PRICE_LABEL
      CURRENT_WEEK WEEK_OF TO].
    + destruct (truthy (customTodayButton language)) eqn:E; [by apply truthy_true|].
      apply Htext.
      * intros key pack Hp. by apply language_pack_shape in Hp as (_ & _ & ? & _).
      * destruct (truthy todayButton) eqn:E'; [by apply truthy_true|done].
    + apply Htext; [|done].
      intros key pack Hp. by apply language_pack_shape in Hp as (_ & _ & _ & ? & _).
    + apply Htext; [|done].
      intros key pack Hp. by apply language_pack_shape in Hp as (_ & _ & _ & _ & ? & _).
    + apply Htext; [|done].
      intros key pack Hp. by apply language_pack_shape in Hp as (_ & _ & _ & _ & _ & ? & _).
    + apply Htext; [|done].
      intros key pack Hp. by apply language_pack_shape in Hp as (_ & _ & _ & _ & _ & _ & ?).
Qed.

(** X26. With the week start at midnight, the week is titled as the
    current week iff it starts on the Monday of today's week; the button of
    the current week gives that title, and one step forward or back gives
    the title with the first and the seventh day of the week shown. *)
Theorem week_title_names_the_week (data : LanguageData) (today : Date) (st : State) :
  msOfDay (currentWeekStart st) = 0 ->
  (isCurrentWeek today st = true
   <-> dayNumber (currentWeekStart st) = dayNumber (startOfWeek today))
  /\ getWeekTitle data today (returnToCurrentWeek today st) = CURRENT_WEEK data
  /\ isCurrentWeek today (navigateToNextWeek (returnToCurrentWeek today st)) = false
  /\ isCurrentWeek today (navigateToPreviousWeek (returnToCurrentWeek today st)) = false
  /\ (isCurrentWeek today st = false ->
      exists weekEnd,
        dayNumber weekEnd = dayNumber (currentWeekStart st) + 6
        /\ getWeekTitle data today st
           = WEEK_OF data +:+ " " +:+ formatDateForWeekDisplay (currentWeekStart st)
             +:+ " " +:+ TO data +:+ " " +:+ formatDateForWeekDisplay weekEnd).
Proof.
  intros Hms.
  assert (Hsow : msOfDay (startOfWeek today) = 0) by reflexivity.
  repeat apply conj.
  - unfold isCurrentWeek, getTime. rewrite Hms, Hsow, Z.eqb_eq. lia.
  - unfold isCurrentWeek, getTime. rewrite Hms, Hsow, Z.eqb_eq. lia.
  - unfold getWeekTitle, isCurrentWeek, returnToCurrentWeek.
    destruct st; cbn [currentWeekStart setCurrentWeekStart]. by rewrite Z.eqb_refl.
  - unfold isCurrentWeek, getTime, navigateToNextWeek, returnToCurrentWeek.
    destruct st; cbn [currentWeekStart setCurrentWeekStart].
    rewrite setDate_dayNumber. apply Z.eqb_neq.
    change (msOfDay (setDate (startOfWeek today) _)) with 0. lia.
  - unfold isCurrentWeek, getTime, navigateToPreviousWeek, returnToCurrentWeek.
    destruct st; cbn [currentWeekStart setCurrentWeekStart].
    rewrite setDate_dayNumber. apply Z.eqb_neq.
    change (msOfDay (setDate (startOfWeek today) _)) with 0. lia.
  - intros Hnot. eexists. split; [|unfold getWeekTitle; rewrite Hnot; reflexivity].
    rewrite setDate_dayNumber. lia.
Qed.

Lemma week_title_names_the_week_witness :
  let data := getLanguageData (mkLanguage "english" [] [] "") "" in
  getWeekTitle data Demo.today (navigateToNextWeek Demo.browsing)
  = "Week of 16/06 to 22/06"
  /\ getWeekTitle data Demo.today Demo.browsing = "Current week".
Proof.
  intros data.
  destruct (week_title_names_the_week data Demo.today Demo.browsing eq_refl)
    as (_ & _ & _ & _ & _).
  split; vm_compute; reflexivity.
Defined.

